(** * Signer abstraction layer of nucypher: a shallow embedding

    Sources embedded here:
    - [nucypher/blockchain/eth/decorators.py]: [validate_checksum_address]
    - [nucypher/blockchain/eth/signers.py]: [KeystoreSigner], [ClefSigner],
      [TrezorSigner]

    Python objects are modelled by the inductive [pyval]; exceptions by a
    class tag plus the pieces of the message; a method that mutates its
    object is a function from the state before the call to an outcome and
    the state after it (a raised exception keeps the mutations done so far,
    as in Python). Library calls that leave the repository (eth_utils,
    eth_account, web3, trezorlib, rlp) are section variables. *)

From stdpp Require Import gmap strings list fin_maps.
From Stdlib Require Import ZArith String Ascii.
From Stdlib.Strings Require Import Byte.

Open Scope string_scope.
Open Scope list_scope.
Set Warnings "-register-all".

(* ===================================================================== *)
(** ** Python values, exceptions and outcomes                             *)
(* ===================================================================== *)

Module Py.

(** The values that travel through the signer API. [PyObject] is an
    instance of a class with default truthiness and hashing, such as the
    signer itself when it is bound to [self]. *)
Inductive pyval : Type :=
| PyNone
| PyBool (b : bool)
| PyInt (z : Z)
| PyStr (s : string)
| PyBytes (bs : list byte)
| PyList (xs : list pyval)
| PyDict (kvs : list (string * pyval))
| PyObject (class_name : string).

(** [value.__class__.__name__] *)
Definition type_name (v : pyval) : string :=
  match v with
  | PyNone => "NoneType"
  | PyBool _ => "bool"
  | PyInt _ => "int"
  | PyStr _ => "str"
  | PyBytes _ => "bytes"
  | PyList _ => "list"
  | PyDict _ => "dict"
  | PyObject class_name => class_name
  end.

(** [isinstance(value, str)] *)
Definition is_str (v : pyval) : bool :=
  match v with PyStr _ => true | _ => false end.

(** [value is None] *)
Definition is_None (v : pyval) : bool :=
  match v with PyNone => true | _ => false end.

(** Python truthiness, as used by [if value:] and [not value]. *)
Definition truthy (v : pyval) : bool :=
  match v with
  | PyNone => false
  | PyBool b => b
  | PyInt z => negb (z =? 0)%Z
  | PyStr s => negb (String.eqb s EmptyString)
  | PyBytes bs => match bs with [] => false | _ => true end
  | PyList xs => match xs with [] => false | _ => true end
  | PyDict kvs => match kvs with [] => false | _ => true end
  | PyObject _ => true
  end.

(** Lists and dicts have no [__hash__]. *)
Definition hashable (v : pyval) : bool :=
  match v with PyList _ | PyDict _ => false | _ => true end.

(** [value == "literal"] for a string literal. *)
Definition eq_str (v : pyval) (s : string) : bool :=
  match v with PyStr t => String.eqb t s | _ => false end.

(** [value == b''] *)
Definition eq_empty_bytes (v : pyval) : bool :=
  match v with PyBytes [] => true | _ => false end.

(** The exception classes that occur in the two modules, with the classes
    of usb1 and trezorlib that the device wrapper names, and their
    built-in bases. *)
Inductive exn_class : Type :=
| Exception
| TypeError | ValueError | LookupError | KeyError | AttributeError
| RuntimeError | NotImplementedError
| OSError | FileNotFoundError | ConnectionError | ConnectionRefusedError
| ValidationError | InvalidChecksumAddress
| SignerError | InvalidSignerURI | AccountLocked | UnknownAccount
| InvalidKeyfile
| NoDeviceDetected
| USBError | USBErrorNoDevice | USBErrorBusy | USBErrorIO
| TransportException.

#[global] Instance exn_class_eq_dec : EqDecision exn_class.
Proof. solve_decision. Defined.

(** Direct base classes, read off the [class C(B):] headers of signers.py
    and decorators.py, and Python's built-in hierarchy. *)
Definition bases (c : exn_class) : list exn_class :=
  match c with
  | Exception => []
  | TypeError | ValueError | LookupError | AttributeError
  | RuntimeError | OSError | ValidationError | USBError
  | TransportException => [Exception]
  | KeyError => [LookupError]
  | NotImplementedError => [RuntimeError]
  | FileNotFoundError | ConnectionError => [OSError]
  | ConnectionRefusedError => [ConnectionError]
  | InvalidChecksumAddress => [ValidationError]
  | SignerError => [Exception]
  | InvalidSignerURI | AccountLocked | UnknownAccount => [SignerError]
  | InvalidKeyfile => [SignerError; RuntimeError]
  | NoDeviceDetected => [RuntimeError]
  | USBErrorNoDevice | USBErrorBusy | USBErrorIO => [USBError]
  end.

Fixpoint issubclass_fuel (fuel : nat) (c d : exn_class) : bool :=
  bool_decide (c = d) ||
  match fuel with
  | O => false
  | S n => existsb (fun b => issubclass_fuel n b d) (bases c)
  end.

(** [issubclass(c, d)]; the hierarchy above is four levels deep. *)
Definition issubclass (c d : exn_class) : bool := issubclass_fuel 4 c d.

(** A message is kept as the pieces of its format string: literal text and
    the values put into the placeholders. *)
Inductive piece : Type :=
| Lit (s : string)
| Val (v : pyval).

Record exn : Type := mk_exn { exn_cls : exn_class; exn_msg : list piece }.

(** [except C:] catches [e] iff [isinstance(e, C)]. *)
Definition isinstance (e : exn) (c : exn_class) : bool :=
  issubclass (exn_cls e) c.

(** The outcome of a call. *)
Inductive result (A : Type) : Type :=
| Return (a : A)
| Raise (e : exn).
Arguments Return {A} a.
Arguments Raise {A} e.

Definition is_raise {A} (r : result A) : bool :=
  match r with Raise _ => true | Return _ => false end.

(** The double-quote character, for messages that quote a value. *)
Definition dq : string := String (ascii_of_nat 34) EmptyString.

Definition unhashable_error (v : pyval) : exn :=
  mk_exn TypeError [Lit "unhashable type: '"; Lit (type_name v); Lit "'"].

(** [key in a_set_of_str]: hashes the key first. *)
Definition set_contains (s : gset string) (k : pyval) : result bool :=
  match k with
  | PyStr a => Return (bool_decide (a ∈ s))
  | PyList _ | PyDict _ => Raise (unhashable_error k)
  | _ => Return false
  end.

(** [a_dict_keyed_by_str.get(key)]: hashes the key first. *)
Definition dict_get {V} (d : gmap string V) (k : pyval) : result (option V) :=
  match k with
  | PyStr a => Return (d !! a)
  | PyList _ | PyDict _ => Raise (unhashable_error k)
  | _ => Return None
  end.

(** [key in a_list_of_str]: compares with [==], no hashing. *)
Definition list_contains (l : list string) (k : pyval) : bool :=
  match k with
  | PyStr a => bool_decide (a ∈ l)
  | _ => false
  end.

(** [a_dict_keyed_by_str[key]] *)
Definition dict_getitem {V} (d : gmap string V) (k : pyval) : result V :=
  match dict_get d k with
  | Raise e => Raise e
  | Return None => Raise (mk_exn KeyError [Val k])
  | Return (Some v) => Return v
  end.

(** [key in a_dict_keyed_by_str], for a key that was hashed before. *)
Definition dict_contains {V} (d : gmap string V) (k : pyval) : bool :=
  match k with
  | PyStr a => bool_decide (is_Some (d !! a))
  | _ => false
  end.

(** [a_dict_keyed_by_str[key] = v], for a key found in a dict keyed by
    [str] before. *)
Definition dict_setitem {V} (d : gmap string V) (k : pyval) (v : V)
  : gmap string V :=
  match k with
  | PyStr a => <[a:=v]> d
  | _ => d
  end.

(** Removal of a key that was found before. *)
Definition dict_remove {V} (d : gmap string V) (k : pyval) : gmap string V :=
  match k with
  | PyStr a => delete a d
  | _ => d
  end.

(** Stateful, fallible code: the state after the call is returned with the
    outcome, also when the outcome is an exception. *)
Definition M (St A : Type) : Type := St -> result A * St.

Definition ret {St A} (a : A) : M St A := fun s => (Return a, s).
Definition raise {St A} (e : exn) : M St A := fun s => (Raise e, s).
Definition lift {St A} (r : result A) : M St A := fun s => (r, s).
Definition bind {St A B} (m : M St A) (k : A -> M St B) : M St B :=
  fun s =>
    match m s with
    | (Return a, s') => k a s'
    | (Raise e, s') => (Raise e, s')
    end.
Definition gets {St A} (f : St -> A) : M St A := fun s => (Return (f s), s).
Definition modify {St} (f : St -> St) : M St unit := fun s => (Return tt, f s).

(** [try: m  except ...: handler e]; the handler re-raises what it does
    not catch. *)
Definition try_except {St A} (m : M St A) (handler : exn -> M St A) : M St A :=
  fun s =>
    match m s with
    | (Return a, s') => (Return a, s')
    | (Raise e, s') => handler e s'
    end.

(** [s.endswith(suffix)] *)
Definition endswith (s suffix : string) : bool :=
  let n := String.length s in
  let k := String.length suffix in
  (k <=? n)%nat && String.eqb (substring (n - k) k s) suffix.

End Py.

Import Py.

Notation "x <- c1 ;; c2" := (bind c1 (fun x => c2))
  (at level 90, c1 at next level, right associativity).
Notation "c1 ;;; c2" := (bind c1 (fun _ => c2))
  (at level 90, right associativity).

(* ===================================================================== *)
(** ** decorators.py: [validate_checksum_address]                         *)
(* ===================================================================== *)

Module Decorators.

(** One entry of [inspect.getcallargs] for the call, together
    with what [inspect.signature(func).parameters[name].default is None]
    says about the parameter. Entries are in the order of the dict that
    [getcallargs] returns, which is the order the loop checks them in: the
    positional arguments in the order of the declaration, then the keyword
    arguments in the order of the call, then the defaults. *)
Record parameter : Type := mk_parameter {
  name : string;
  default_is_None : bool;
  value : pyval
}.

Definition parameter_name_suffix : string := "_address".
Definition aliases : list string := ["account"; "address"].

(** The filter of the generator [addresses_as_parameters]. *)
Definition is_address_parameter (parameter_name : string) : bool :=
  endswith parameter_name parameter_name_suffix
  || bool_decide (parameter_name ∈ aliases).

(** '{} is an invalid type for parameter "{}".'.format(actual_type_name,
    parameter_name), raised as [TypeError]. *)
Definition invalid_type_error (p : parameter) : exn :=
  mk_exn TypeError
    [Val (PyStr (type_name (value p)));
     Lit (" is an invalid type for parameter " +:+ dq);
     Val (PyStr (name p));
     Lit (dq +:+ ".")].

(** '"{}" is not a valid EIP-55 checksum address.'.format(checksum_address),
    raised as [InvalidChecksumAddress]. *)
Definition invalid_checksum_error (p : parameter) : exn :=
  mk_exn InvalidChecksumAddress
    [Lit dq; Val (value p);
     Lit (dq +:+ " is not a valid EIP-55 checksum address.")].

(** [__VERIFIED_ADDRESSES.add(checksum_address)]; the call is only reached
    with a value that [is_checksum_address] accepted, which is a [str]. *)
Definition verified_add (verified : gset string) (v : pyval) : gset string :=
  match v with
  | PyStr s => {[s]} ∪ verified
  | _ => verified
  end.

Section Validator.

(** eth_utils primitives. *)
Variable is_hex_address : string -> bool.
Variable to_checksum_address : string -> string.

(** [eth_utils.is_checksum_address]: false unless the value is text and
    a hex address, then [value == to_checksum_address(value)]. *)
Definition is_checksum_address (v : pyval) : bool :=
  match v with
  | PyStr s => is_hex_address s && String.eqb s (to_checksum_address s)
  | _ => false
  end.

(** The body of [for parameter_name in addresses_as_parameters], for one
    parameter: the outcome ([Return tt] for [continue]) and the set
    [__VERIFIED_ADDRESSES] afterwards. *)
Definition check_parameter (verified : gset string) (p : parameter)
  : result unit * gset string :=
  match set_contains verified (value p) with
  | Raise e => (Raise e, verified)
  | Return true => (Return tt, verified)
  | Return false =>
      if default_is_None p && is_None (value p) then (Return tt, verified)
      else if is_checksum_address (value p)
      then (Return tt, verified_add verified (value p))
      else if negb (is_str (value p))
      then (Raise (invalid_type_error p), verified)
      else (Raise (invalid_checksum_error p), verified)
  end.

(** The [for] loop over the address parameters of the call. *)
Fixpoint validate_addresses (verified : gset string) (params : list parameter)
  : result unit * gset string :=
  match params with
  | [] => (Return tt, verified)
  | p :: rest =>
      if is_address_parameter (name p) then
        match check_parameter verified p with
        | (Return _, verified') => validate_addresses verified' rest
        | (Raise e, verified') => (Raise e, verified')
        end
      else validate_addresses verified rest
  end.

(** [wrapped]: the loop, and in its [else] branch the call of [func].
    The state is the module-level set and the state [St] of the object
    the method belongs to; [func] stands for the call of the wrapped function at
    the arguments bound in [params]. *)
Definition validate_checksum_address {St A : Type}
    (func : gset string * St -> result A * (gset string * St))
    (params : list parameter)
  : gset string * St -> result A * (gset string * St) :=
  fun st =>
    match validate_addresses (fst st) params with
    | (Return _, verified') => func (verified', snd st)
    | (Raise e, verified') => (Raise e, (verified', snd st))
    end.

(** Every member of the set is a checksum address: true of the empty set
    the module starts with, and kept by every call. *)
Definition all_verified (verified : gset string) : Prop :=
  forall s, s ∈ verified -> is_checksum_address (PyStr s) = true.

(** The set after a series of wrapped calls whose bodies leave it alone. *)
Fixpoint after_calls (verified : gset string) (calls : list (list parameter))
  : gset string :=
  match calls with
  | [] => verified
  | c :: cs => after_calls (snd (validate_addresses verified c)) cs
  end.

End Validator.

End Decorators.

(* ===================================================================== *)
(** ** signers.py: the error classes of [Signer]                          *)
(* ===================================================================== *)

Module Signer.

(** [AccountLocked.__init__]: f'{account} is locked.' *)
Definition AccountLocked_ (account : pyval) : exn :=
  mk_exn AccountLocked [Val account; Lit " is locked."].

(** [UnknownAccount.__init__]: f'Unknown account {account}.' *)
Definition UnknownAccount_ (account : pyval) : exn :=
  mk_exn UnknownAccount [Lit "Unknown account "; Val account; Lit "."].

End Signer.

(* ===================================================================== *)
(** ** signers.py: [KeystoreSigner]                                       *)
(* ===================================================================== *)

Module KeystoreSigner.

Import Decorators.

Section Keystore.

(** eth_utils, for the decorator. *)
Variable is_hex_address : string -> bool.
Variable to_checksum_address : string -> string.

(** The decoded JSON of a key file, and eth_account's [LocalAccount]. *)
Variable key_metadata : Type.
Variable LocalAccount : Type.

(** [Account.from_key(Account.decrypt(key_metadata, password))]:
    [Account.decrypt] raises [ValueError] when the password does not
    match the key file. *)
Variable Account_decrypt : key_metadata -> pyval -> result pyval.
Variable Account_from_key : pyval -> result LocalAccount.

(** [signer.sign_transaction(transaction_dict=...).rawTransaction] and
    [signer.sign_message(signable_message=encode_defunct(primitive=
    message)).signature] of a [LocalAccount]. *)
Variable LocalAccount_sign_transaction :
  LocalAccount -> gmap string pyval -> result pyval.
Variable LocalAccount_sign_message : LocalAccount -> pyval -> result pyval.

(** The private dicts [__keys] and [__signers]. *)
Record state : Type := mk_state {
  keys : gmap string key_metadata;
  signers : gmap string LocalAccount
}.

(** The module-level set of decorators.py and the signer. *)
Definition world : Type := (gset string * state)%type.

Definition validated {A} (func : M world A) (params : list parameter)
  : M world A :=
  validate_checksum_address is_hex_address to_checksum_address func params.

Definition on_signer {A} (f : state -> result A * state) : M world A :=
  fun w => let '(r, st') := f (snd w) in (r, (fst w, st')).

Definition self : parameter :=
  mk_parameter "self" false (PyObject "KeystoreSigner").

(** [accounts]: [list(self.__keys.keys())]. *)
Definition accounts (st : state) : list string :=
  (map_to_list (keys st)).*1.

(** [__get_signer], the body under the decorator. *)
Definition get_signer_body (account : pyval) (st : state)
  : result LocalAccount * state :=
  match dict_getitem (signers st) account with
  | Return signer => (Return signer, st)
  | Raise e =>
      if isinstance e KeyError then
        if negb (dict_contains (keys st) account)
        then (Raise (Signer.UnknownAccount_ account), st)
        else (Raise (Signer.AccountLocked_ account), st)
      else (Raise e, st)
  end.

Definition get_signer (account : pyval) : M world LocalAccount :=
  validated (on_signer (get_signer_body account))
    [self; mk_parameter "account" false account].

(** [is_device] *)
Definition is_device (account : pyval) : M world bool :=
  validated (ret false) [self; mk_parameter "account" false account].

(** [unlock_account], the body under the decorator. The [try] covers the
    lookup in [__keys] only; decryption happens in the [else] clause. *)
Definition unlock_account_body (account password : pyval) (st : state)
  : result bool * state :=
  match dict_get (signers st) account with
  | Raise e => (Raise e, st)
  | Return (Some _) => (Return true, st)
  | Return None =>
      match dict_getitem (keys st) account with
      | Raise e =>
          if isinstance e ValueError then (Return false, st)
          else if isinstance e KeyError
          then (Raise (Signer.UnknownAccount_ account), st)
          else (Raise e, st)
      | Return key_metadata_ =>
          match Account_decrypt key_metadata_ password with
          | Raise e => (Raise e, st)
          | Return key =>
              match Account_from_key key with
              | Raise e => (Raise e, st)
              | Return signing_key =>
                  (Return true,
                   mk_state (keys st)
                     (dict_setitem (signers st) account signing_key))
              end
          end
      end
  end.

Definition unlock_account (account password duration : pyval)
  : M world bool :=
  validated (on_signer (unlock_account_body account password))
    [self; mk_parameter "account" false account;
     mk_parameter "password" false password;
     mk_parameter "duration" true duration].

(** [lock_account], the body under the decorator. *)
Definition lock_account_body (account : pyval) (st : state)
  : result bool * state :=
  match dict_getitem (signers st) account with
  | Return _ =>
      let st' := mk_state (keys st) (dict_remove (signers st) account) in
      (Return (negb (dict_contains (signers st') account)), st')
  | Raise e =>
      if isinstance e KeyError then
        if negb (list_contains (accounts st) account)
        then (Raise (Signer.UnknownAccount_ account), st)
        else (Return (negb (dict_contains (signers st) account)), st)
      else (Raise e, st)
  end.

Definition lock_account (account : pyval) : M world bool :=
  validated (on_signer (lock_account_body account))
    [self; mk_parameter "account" false account].

(** [sign_transaction], the body under the decorator: the payload handed
    to the [LocalAccount] has no 'to' key when the field is falsy. *)
Definition sign_transaction_body (transaction_dict : gmap string pyval)
  : M world pyval :=
  sender <- lift (dict_getitem transaction_dict (PyStr "from")) ;;
  signer <- get_signer sender ;;
  to <- lift (dict_getitem transaction_dict (PyStr "to")) ;;
  let transaction_dict' :=
    if negb (truthy to) then delete "to" transaction_dict
    else transaction_dict in
  lift (LocalAccount_sign_transaction signer transaction_dict').

Definition sign_transaction (transaction_dict : gmap string pyval)
  : M world pyval :=
  validated (sign_transaction_body transaction_dict)
    [self;
     mk_parameter "transaction_dict" false
       (PyDict (map_to_list transaction_dict))].

(** [sign_message] *)
Definition sign_message_body (account message : pyval) : M world pyval :=
  signer <- get_signer account ;;
  lift (LocalAccount_sign_message signer message).

Definition sign_message (account message : pyval) (kwargs : list (string * pyval))
  : M world pyval :=
  validated (sign_message_body account message)
    [self; mk_parameter "account" false account;
     mk_parameter "message" false message;
     mk_parameter "kwargs" false (PyDict kwargs)].

(** The per-address states of the keystore. *)
Definition Locked (a : string) (st : state) : Prop :=
  is_Some (keys st !! a) /\ signers st !! a = None.
Definition Unlocked (a : string) (st : state) : Prop :=
  is_Some (signers st !! a).
Definition Unknown (a : string) (st : state) : Prop :=
  keys st !! a = None /\ signers st !! a = None.

End Keystore.

End KeystoreSigner.

(* ===================================================================== *)
(** ** signers.py: [ClefSigner]                                           *)
(* ===================================================================== *)

Module ClefSigner.

Import Decorators.

Definition SIGN_DATA_FOR_VALIDATOR : string := "data/validator".
Definition SIGN_DATA_FOR_CLIQUE : string := "application/clique".
Definition SIGN_DATA_FOR_ECRECOVER : string := "text/plain".
Definition DEFAULT_CONTENT_TYPE : string := SIGN_DATA_FOR_ECRECOVER.
Definition SIGN_DATA_CONTENT_TYPES : list string :=
  [SIGN_DATA_FOR_VALIDATOR; SIGN_DATA_FOR_CLIQUE; SIGN_DATA_FOR_ECRECOVER].

(** [eth_utils.apply_formatters_to_dict]: every item whose key has a
    formatter is formatted; a [TypeError] or [ValueError] of a formatter is
    raised again as the same class with a message naming value and field.
    (The items are visited in the order of the finite map.) *)
Definition apply_formatters_to_dict
    (formatters : gmap string (pyval -> result pyval))
    (value : gmap string pyval) : result (gmap string pyval) :=
  map_fold
    (fun key item acc =>
       match acc with
       | Raise e => Raise e
       | Return formatted =>
           match formatters !! key with
           | None => Return (<[key:=item]> formatted)
           | Some formatter =>
               match formatter item with
               | Return item' => Return (<[key:=item']> formatted)
               | Raise e =>
                   if isinstance e TypeError || isinstance e ValueError
                   then Raise (mk_exn (exn_cls e)
                                 [Lit "Could not format value "; Val item;
                                  Lit " as field "; Val (PyStr key)])
                   else Raise e
               end
           end
       end)
    (Return ∅) value.

(** How a call of [sign_message] passes its two address arguments:
    [account] is bound before [validator_address], except in a call that
    passes both by keyword and names [validator_address] first. *)
Inductive binding_order : Type :=
| AccountFirst
| ValidatorAddressFirst.

Section Clef.

(** eth_utils, for the decorator. *)
Variable is_hex_address : string -> bool.
Variable to_checksum_address : string -> string.

(** [self.w3.manager.request_blocking(endpoint, request_args)]: the
    round-trip to the daemon. *)
Variable request_blocking : string -> list pyval -> result pyval.

(** [Web3.toHex] as a formatter and on [bytes] (where it cannot fail),
    [eth_utils.to_checksum_address] as a formatter, [HexBytes(...)] and
    the attribute [.raw] of the daemon's answer. *)
Variable Web3_toHex : pyval -> result pyval.
Variable Web3_toHex_bytes : list byte -> string.
Variable to_checksum_address_formatter : pyval -> result pyval.
Variable HexBytes : pyval -> result pyval.
Variable attribute_raw : pyval -> result pyval.

(** [nucypher.blockchain.eth.constants.NULL_ADDRESS] *)
Variable NULL_ADDRESS : string.

(** [self.ipc_path] *)
Variable ipc_path : string.

(** The requests sent over the IPC channel so far, oldest first. *)
Definition state : Type := list (string * list pyval).
Definition world : Type := (gset string * state)%type.

Definition validated {A} (func : M world A) (params : list parameter)
  : M world A :=
  validate_checksum_address is_hex_address to_checksum_address func params.

Definition self : parameter :=
  mk_parameter "self" false (PyObject "ClefSigner").

Definition file_not_found_error : exn :=
  mk_exn FileNotFoundError
    [Lit ("Clef IPC file not found. Is clef running and available at " +:+ dq);
     Val (PyStr ipc_path); Lit (dq +:+ "?")].

Definition connection_refused_error : exn :=
  mk_exn ConnectionRefusedError
    [Lit ("Clef refused connection. Is clef running and available at " +:+ dq);
     Val (PyStr ipc_path); Lit (dq +:+ "?")].

(** What the two handlers of [__ipc_request] raise in place of [e]. *)
Definition translated (e : exn) : exn :=
  if isinstance e FileNotFoundError then file_not_found_error
  else connection_refused_error.

(** The state after one more request. *)
Definition sent (w : world) (endpoint : string) (request_args : list pyval)
  : world :=
  (fst w, snd w ++ [(endpoint, request_args)]).

(** [__ipc_request] *)
Definition ipc_request (endpoint : string) (request_args : list pyval)
  : M world pyval :=
  try_except
    (modify (fun w => (fst w, (snd w ++ [(endpoint, request_args)])%list)) ;;;
     lift (request_blocking endpoint request_args))
    (fun e =>
       if isinstance e FileNotFoundError then raise file_not_found_error
       else if isinstance e ConnectionRefusedError
       then raise connection_refused_error
       else raise e).

(** [is_device], [unlock_account], [lock_account] *)
Definition is_device (account : pyval) : M world bool :=
  validated (ret true) [self; mk_parameter "account" false account].

Definition unlock_account (account password duration : pyval)
  : M world bool :=
  validated (ret true)
    [self; mk_parameter "account" false account;
     mk_parameter "password" false password;
     mk_parameter "duration" true duration].

Definition lock_account (account : pyval) : M world bool :=
  validated (ret true) [self; mk_parameter "account" false account].

(** [accounts]: the answer of the daemon is a list of addresses, each of
    which goes through [to_checksum_address]. *)
Fixpoint checksum_all (addresses : list pyval) : result (list pyval) :=
  match addresses with
  | [] => Return []
  | addr :: rest =>
      match to_checksum_address_formatter addr with
      | Raise e => Raise e
      | Return a =>
          match checksum_all rest with
          | Raise e => Raise e
          | Return l => Return (a :: l)
          end
      end
  end.

Definition accounts : M world (list pyval) :=
  normalized_addresses <- ipc_request "account_list" [] ;;
  match normalized_addresses with
  | PyList addresses => lift (checksum_all addresses)
  | other =>
      raise (mk_exn TypeError
               [Lit "'"; Lit (type_name other); Lit "' object is not iterable"])
  end.

(** The [formatters] dict of [sign_transaction], before the workaround
    for contract creation. *)
Definition formatters : gmap string (pyval -> result pyval) :=
  <["nonce" := Web3_toHex]>
  (<["gasPrice" := Web3_toHex]>
  (<["gas" := Web3_toHex]>
  (<["value" := Web3_toHex]>
  (<["chainId" := Web3_toHex]>
  (<["from" := to_checksum_address_formatter]> ∅))))).

(** The part of [sign_transaction] before the request: the workaround
    for contract creation and the formatting. *)
Definition format_transaction (transaction_dict : gmap string pyval)
  : result (gmap string pyval) :=
  match dict_getitem transaction_dict (PyStr "to") with
  | Raise e => Raise e
  | Return to =>
      if eq_empty_bytes to then
        apply_formatters_to_dict formatters
          (<["to" := PyNone]> transaction_dict)
      else if truthy to then
        apply_formatters_to_dict
          (<["to" := to_checksum_address_formatter]> formatters)
          transaction_dict
      else apply_formatters_to_dict formatters transaction_dict
  end.

Definition sign_transaction_body (transaction_dict : gmap string pyval)
  : M world pyval :=
  formatted_transaction <- lift (format_transaction transaction_dict) ;;
  signed <- ipc_request "account_signTransaction"
              [PyDict (map_to_list formatted_transaction)] ;;
  raw <- lift (attribute_raw signed) ;;
  lift (HexBytes raw).

Definition sign_transaction (transaction_dict : gmap string pyval)
  : M world pyval :=
  validated (sign_transaction_body transaction_dict)
    [self;
     mk_parameter "transaction_dict" false
       (PyDict (map_to_list transaction_dict))].

(** [if isinstance(message, bytes): message = Web3.toHex(message)] *)
Definition hex_message (message : pyval) : pyval :=
  match message with
  | PyBytes bs => PyStr (Web3_toHex_bytes bs)
  | _ => message
  end.

(** [sign_message], the body under the decorator. *)
Definition sign_message_body
    (account message content_type validator_address : pyval)
  : M world pyval :=
  let message' := hex_message message in
  content_type' <-
    (if negb (truthy content_type) then ret (PyStr DEFAULT_CONTENT_TYPE)
     else if negb (existsb (eq_str content_type) SIGN_DATA_CONTENT_TYPES)
     then raise (mk_exn ValueError
                   [Val content_type; Lit " is not a valid content type. ";
                    Lit "Valid types are ";
                    Val (PyList (PyStr <$> SIGN_DATA_CONTENT_TYPES))])
     else ret content_type) ;;
  data <-
    (if eq_str content_type' SIGN_DATA_FOR_VALIDATOR then
       if negb (truthy validator_address)
          || eq_str validator_address NULL_ADDRESS
       then raise (mk_exn ValueError
                     [Lit "When using the intended validator type, a validator address is required."])
       else ret (PyDict [("address", validator_address);
                         ("message", message')])
     else if eq_str content_type' SIGN_DATA_FOR_ECRECOVER then ret message'
     else raise (mk_exn NotImplementedError [])) ;;
  signed_data <- ipc_request "account_signData"
                   [content_type'; account; data] ;;
  lift (HexBytes signed_data).

(** The call arguments of [sign_message] as [inspect.getcallargs] binds
    them: the positional arguments first, in the order of the declaration,
    then the keyword arguments in the order of the call, then the defaults.
    The decorator checks the address parameters in that order. (Where the
    other parameters stand depends on the call as well; the decorator does
    not look at them.) *)
Definition sign_message_callargs (order : binding_order)
    (account message content_type validator_address : pyval)
    (kwargs : list (string * pyval)) : list parameter :=
  match order with
  | AccountFirst =>
      [self; mk_parameter "account" false account;
       mk_parameter "message" false message;
       mk_parameter "content_type" true content_type;
       mk_parameter "validator_address" true validator_address;
       mk_parameter "kwargs" false (PyDict kwargs)]
  | ValidatorAddressFirst =>
      [self; mk_parameter "kwargs" false (PyDict kwargs);
       mk_parameter "validator_address" true validator_address;
       mk_parameter "account" false account;
       mk_parameter "message" false message;
       mk_parameter "content_type" true content_type]
  end.

Definition sign_message (order : binding_order)
    (account message content_type validator_address : pyval)
    (kwargs : list (string * pyval)) : M world pyval :=
  validated
    (sign_message_body account message content_type validator_address)
    (sign_message_callargs order account message content_type
       validator_address kwargs).

End Clef.

End ClefSigner.

(* ===================================================================== *)
(** ** signers.py: [TrezorSigner]                                         *)
(* ===================================================================== *)

Module TrezorSigner.

Import Decorators.

Definition ADDRESS_CACHE_SIZE : Z := 3.
Definition ETH_CHAIN_ROOT : Z := 60.

(** The exception classes reachable as attributes of a [TrezorSigner]: its
    own nested class and the ones inherited from [Signer]. *)
Definition exception_attributes : list (string * exn_class) :=
  [("NoDeviceDetected", NoDeviceDetected);
   ("SignerError", SignerError);
   ("InvalidSignerURI", InvalidSignerURI);
   ("AccountLocked", AccountLocked);
   ("UnknownAccount", UnknownAccount)].

(** The other names defined in the bodies of [TrezorSigner] and [Signer]
    and on the instance by [__init__]. *)
Definition other_attributes : list string :=
  ["URI_SCHEME"; "ADDRESS_CACHE_SIZE"; "ETH_CHAIN_ROOT"; "SIGNERS"; "log";
   "from_signer_uri"; "is_device"; "accounts"; "unlock_account";
   "lock_account"; "get_address_path"; "get_address"; "sign_message";
   "sign_transaction"; "_TrezorSigner__load_addresses";
   "_TrezorSigner__handle_device_call"; "client"; "_device_id";
   "_TrezorSigner__addresses"].

Definition no_attribute (attribute : string) : exn :=
  mk_exn AttributeError
    [Lit "'TrezorSigner' object has no attribute '"; Lit attribute; Lit "'"].

(** [trezor.<attribute>] where an exception class is expected. *)
Definition getattr_exception (attribute : string) : result exn_class :=
  match list_find (fun entry => fst entry = attribute) exception_attributes with
  | Some (_, (_, cls)) => Return cls
  | None => Raise (no_attribute attribute)
  end.

(** [self.<attribute>] for any other name. *)
Definition getattr (attribute : string) : result unit :=
  if bool_decide (attribute ∈ (other_attributes ++ exception_attributes.*1)%list)
  then Return tt
  else Raise (no_attribute attribute).

(** [eth_utils.apply_key_map]: a key of [value] that is not remapped but
    is the target of a remapped key present in [value] is a conflict;
    otherwise the keys are renamed. *)
Definition apply_key_map (key_mappings : gmap string string)
    (value : gmap string pyval) : result (gmap string pyval) :=
  let targets :=
    (filter (fun kv => is_Some (value !! snd kv)) (map_to_list key_mappings)).*2 in
  let key_conflicts :=
    filter (fun k => key_mappings !! k = None /\ k ∈ targets)
           (map_to_list value).*1 in
  match key_conflicts with
  | [] =>
      Return (list_to_map
                ((fun kv => (default (fst kv) (key_mappings !! fst kv), snd kv))
                   <$> map_to_list value))
  | _ :: _ =>
      Raise (mk_exn KeyError
               [Lit "Could not apply key map due to conflicting key(s): ";
                Val (PyList (PyStr <$> key_conflicts))])
  end.

(** The fields of [eth_account._utils.transactions.Transaction]. *)
Definition Transaction_fields : list string :=
  ["nonce"; "gasPrice"; "gas"; "to"; "value"; "data"; "v"; "r"; "s"].

(** [Transaction(v=..., r=..., s=..., **transaction_dict)]: a keyword
    given twice, a missing field or an unknown one is a [TypeError]; the
    object is kept as the map of its fields. *)
Definition Transaction (v r s : pyval) (kwargs : gmap string pyval)
  : result (gmap string pyval) :=
  if bool_decide (is_Some (kwargs !! "v") \/ is_Some (kwargs !! "r")
                  \/ is_Some (kwargs !! "s"))
  then Raise (mk_exn TypeError
                [Lit "Transaction() got multiple values for keyword argument"])
  else
    let fields := <["v" := v]> (<["r" := r]> (<["s" := s]> kwargs)) in
    if bool_decide (dom fields = list_to_set Transaction_fields)
    then Return fields
    else Raise (mk_exn TypeError [Lit "Transaction() got wrong fields"]).

(** A call that reaches the device. *)
Inductive device_call : Type :=
| GetAddress (n : list Z) (show_display : bool)
| SignMessage (n : list Z) (message : pyval)
| SignTx (n : list Z) (trezor_transaction : gmap string pyval).

(** What [sign_transaction] returns: the [Transaction] object, or its RLP
    encoding when [rlp_encoded] is set. *)
Inductive signed_transaction : Type :=
| TransactionObject (fields : gmap string pyval)
| Encoded (raw : pyval).

(** The private dict [__addresses] and the calls issued to the device so
    far, oldest first. *)
Record state : Type := mk_state {
  addresses : gmap string (list Z);
  device_calls : list device_call
}.

(** f"{checksum_address} was not loaded into the device address cache.",
    raised as [RuntimeError]. *)
Definition not_cached (checksum_address : pyval) : exn :=
  mk_exn RuntimeError
    [Val checksum_address; Lit " was not loaded into the device address cache."].

Definition issue (c : device_call) : M state unit :=
  modify (fun st => mk_state (addresses st) (device_calls st ++ [c])%list).

Section Trezor.

(** eth_utils, for the decorator. *)
Variable is_hex_address : string -> bool.
Variable to_checksum_address : string -> string.

(** trezorlib: [get_default_client()],
    [parse_path(f"44'/{ETH_CHAIN_ROOT}'/0'/0/{index}")], and the three
    device calls [ethereum.get_address], [ethereum.sign_message] (its
    answer has a signature and an address) and [ethereum.sign_tx]. *)
Variable get_default_client : result unit.
Variable hd_path_for_index : Z -> list Z.
Variable ethereum_get_address : list Z -> bool -> result string.
Variable ethereum_sign_message : list Z -> pyval -> result (pyval * pyval).
Variable ethereum_sign_tx :
  list Z -> gmap string pyval -> result (pyval * pyval * pyval).

(** eth_account, web3, eth_utils and rlp. *)
Variable assert_valid_fields : gmap string pyval -> result unit.
Variable Web3_toBytes_HexBytes : pyval -> result pyval.
Variable to_canonical_address : pyval -> result pyval.
Variable to_int : pyval -> result pyval.
Variable rlp_encode : gmap string pyval -> result pyval.

(** [__handle_device_call] *)
Definition handle_device_call {A} (device_func : M state A) : M state A :=
  try_except device_func
    (fun e =>
       if isinstance e USBErrorNoDevice then
         cls <- lift (getattr_exception "NoDeviceDetected") ;;
         raise (mk_exn cls
                  [Lit "The client cannot communicate to the TREZOR USB device. Was it disconnected?"])
       else if isinstance e USBErrorBusy then
         cls <- lift (getattr_exception "DeviceError") ;;
         raise (mk_exn cls [Lit "The TREZOR USB device is busy."])
       else raise e).

(** [get_address_path] *)
Definition get_address_path (index : option Z) (checksum_address : pyval)
    (st : state) : result (list Z) :=
  match index with
  | Some i =>
      if truthy checksum_address
      then Raise (mk_exn ValueError
                    [Lit "Expected index or checksum address; Got both."])
      else Return (hd_path_for_index i)
  | None =>
      match dict_getitem (addresses st) checksum_address with
      | Return hd_path => Return hd_path
      | Raise e =>
          if isinstance e KeyError then Raise (not_cached checksum_address)
          else Raise e
      end
  end.

(** [get_address] *)
Definition get_address_body (index : option Z) (hd_path : option (list Z))
    (show_display : bool) : M state string :=
  hd_path' <-
    match hd_path with
    | Some (i :: p) => ret (i :: p)
    | _ =>
        match index with
        | None => raise (mk_exn ValueError [Lit "No index or HD path supplied."])
        | Some _ => fun st => (get_address_path index PyNone st, st)
        end
    end ;;
  issue (GetAddress hd_path' show_display) ;;;
  lift (ethereum_get_address hd_path' show_display).

Definition get_address (index : option Z) (hd_path : option (list Z))
    (show_display : bool) : M state string :=
  handle_device_call (get_address_body index hd_path show_display).

(** [__load_addresses], for the indices still to load. *)
Fixpoint load_addresses (indices : list Z) : M state unit :=
  match indices with
  | [] => ret tt
  | index :: rest =>
      hd_path <- (fun st => (get_address_path (Some index) PyNone st, st)) ;;
      address <- get_address None (Some hd_path) false ;;
      modify (fun st => mk_state (<[address := hd_path]> (addresses st))
                          (device_calls st)) ;;;
      load_addresses rest
  end.

(** [__init__] *)
Definition init : result unit * state :=
  match get_default_client with
  | Raise e =>
      if isinstance e TransportException
      then (Raise (mk_exn NoDeviceDetected
                     [Lit "Could not find a TREZOR device to connect to. Have you unlocked it?"]),
            mk_state ∅ [])
      else (Raise e, mk_state ∅ [])
  | Return _ =>
      load_addresses (seqZ 0 ADDRESS_CACHE_SIZE) (mk_state ∅ [])
  end.

(** [accounts] *)
Definition accounts (st : state) : list string :=
  (map_to_list (addresses st)).*1.

(** [sign_message] *)
Definition sign_message_body (message checksum_address : pyval)
  : M state (pyval * pyval) :=
  hd_path <- (fun st => (get_address_path None checksum_address st, st)) ;;
  issue (SignMessage hd_path message) ;;;
  sig <- lift (ethereum_sign_message hd_path message) ;;
  lift (getattr "Signature") ;;;
  ret sig.

Definition sign_message (message checksum_address : pyval)
  : M state (pyval * pyval) :=
  handle_device_call (sign_message_body message checksum_address).

Definition trezor_transaction_keys : gmap string string :=
  <["gas" := "gas_limit"]>
  (<["gasPrice" := "gas_price"]> (<["chainId" := "chain_id"]> ∅)).

(** [sign_transaction]; the local [transaction_dict] is threaded through
    its updates in place. *)
Definition sign_transaction_body (transaction_dict : gmap string pyval)
    (rlp_encoded : bool) : M state signed_transaction :=
  checksum_address <- lift (dict_getitem transaction_dict (PyStr "from")) ;;
  let transaction_dict := delete "from" transaction_dict in
  lift (assert_valid_fields transaction_dict) ;;;
  trezor_transaction <-
    lift (apply_key_map trezor_transaction_keys transaction_dict) ;;
  formatted <-
    lift (if truthy (default PyNone (trezor_transaction !! "data")) then
            match Web3_toBytes_HexBytes
                    (default PyNone (trezor_transaction !! "data")) with
            | Raise e => Raise e
            | Return d =>
                match dict_getitem transaction_dict (PyStr "data") with
                | Raise e => Raise e
                | Return d0 =>
                    match Web3_toBytes_HexBytes d0 with
                    | Raise e => Raise e
                    | Return d' =>
                        Return (<["data" := d]> trezor_transaction,
                                <["data" := d']> transaction_dict)
                    end
                end
            end
          else Return (trezor_transaction, transaction_dict)) ;;
  let trezor_transaction := fst formatted in
  let transaction_dict := snd formatted in
  n <- (fun st => (get_address_path None checksum_address st, st)) ;;
  issue (SignTx n trezor_transaction) ;;;
  vrs <- lift (ethereum_sign_tx n trezor_transaction) ;;
  let '(v, r, s) := vrs in
  lift (dict_getitem transaction_dict (PyStr "chainId")) ;;;
  let transaction_dict := delete "chainId" transaction_dict in
  to <- lift (to_canonical_address checksum_address) ;;
  let transaction_dict := <["to" := to]> transaction_dict in
  v' <- lift (to_int v) ;;
  r' <- lift (to_int r) ;;
  s' <- lift (to_int s) ;;
  signed <- lift (Transaction v' r' s' transaction_dict) ;;
  if rlp_encoded
  then raw <- lift (rlp_encode signed) ;; ret (Encoded raw)
  else ret (TransactionObject signed).

Definition sign_transaction (transaction_dict : gmap string pyval)
    (rlp_encoded : bool) : M state signed_transaction :=
  handle_device_call (sign_transaction_body transaction_dict rlp_encoded).

(** [is_device], [unlock_account], [lock_account] *)
Definition is_device (account : pyval) : bool := true.

Definition self : parameter :=
  mk_parameter "self" false (PyObject "TrezorSigner").

Definition unlock_account (account password duration : pyval)
  : M (gset string * state) bool :=
  validate_checksum_address is_hex_address to_checksum_address (ret true)
    [self; mk_parameter "account" false account;
     mk_parameter "password" false password;
     mk_parameter "duration" true duration].

Definition lock_account (account : pyval) : M (gset string * state) bool :=
  validate_checksum_address is_hex_address to_checksum_address (ret true)
    [self; mk_parameter "account" false account].

End Trezor.

(** What [__handle_device_call] makes of a body that failed with [e] in
    state [st'], for a USB no-device error and for an error that is
    neither that nor a USB busy error. *)
Definition no_device_detected : exn :=
  mk_exn NoDeviceDetected
    [Lit "The client cannot communicate to the TREZOR USB device. Was it disconnected?"].

Definition translates {A} (e : exn) (st' : state) (outcome : result A * state)
  : Prop :=
  (isinstance e USBErrorNoDevice = true ->
   outcome = (Raise no_device_detected, st'))
  /\ (isinstance e USBErrorNoDevice = false ->
      isinstance e USBErrorBusy = false ->
      outcome = (Raise e, st')).

(** The field of the [Transaction] object that a call returned. *)
Definition field (key : string) (outcome : result signed_transaction)
  : option pyval :=
  match outcome with
  | Return (TransactionObject fields) => fields !! key
  | _ => None
  end.

End TrezorSigner.

(* ===================================================================== *)
(** ** Concrete stand-ins for the libraries, to run the model             *)
(* ===================================================================== *)

Module Demo.

Definition is_hex_digit (c : ascii) : bool :=
  let n := nat_of_ascii c in
  ((48 <=? n) && (n <=? 57) || (97 <=? n) && (n <=? 102)
   || (65 <=? n) && (n <=? 70))%nat.

Fixpoint all_hex (s : string) : bool :=
  match s with
  | EmptyString => true
  | String c rest => is_hex_digit c && all_hex rest
  end.

Definition remove_0x_prefix (s : string) : string :=
  if String.prefix "0x" s || String.prefix "0X" s
  then substring 2 (String.length s - 2) s else s.

(** [eth_utils.is_hex_address]: forty hex digits after an optional 0x. *)
Definition is_hex_address (s : string) : bool :=
  let unprefixed := remove_0x_prefix s in
  all_hex unprefixed && (String.length unprefixed =? 40)%nat.

(** EIP-55 changes the case of letters only; on addresses written with
    digits alone, the only ones used below, it is the identity. *)
Definition to_checksum_address (s : string) : string := s.

Definition hex_value (c : ascii) : N :=
  let n := N_of_ascii c in
  (if n <=? 57 then n - 48 else if n <=? 70 then n - 55 else n - 87)%N.

Fixpoint decode_hex (s : string) : list byte :=
  match s with
  | String hi (String lo rest) =>
      default x00 (Byte.of_N (16 * hex_value hi + hex_value lo)) :: decode_hex rest
  | _ => []
  end.

(** [eth_utils.to_canonical_address] on text: the twenty bytes. *)
Definition to_canonical_address (v : pyval) : result pyval :=
  match v with
  | PyStr s =>
      if is_hex_address s then Return (PyBytes (decode_hex (remove_0x_prefix s)))
      else Raise (mk_exn ValueError
                    [Lit "Unknown format "; Val v; Lit ", attempted to normalize to "])
  | _ => Raise (mk_exn TypeError [Lit "Unsupported type: "; Lit (type_name v)])
  end.

(** A key file is stood for by the password that opens it, an unlocked
    account by its address. *)
Definition Account_decrypt (key_metadata : string) (password : pyval)
  : result pyval :=
  if eq_str password key_metadata then Return (PyBytes [x01])
  else Raise (mk_exn ValueError [Lit "MAC mismatch"]).

Definition Account_from_key (key : pyval) : result string :=
  Return "local account".

Definition LocalAccount_sign_transaction (signer : string)
    (transaction_dict : gmap string pyval) : result pyval :=
  Return (PyDict (map_to_list transaction_dict)).

Definition LocalAccount_sign_message (signer : string) (message : pyval)
  : result pyval := Return message.

(** BIP-44 path of an index, hardened components marked by bit 31. *)
Definition hd_path_for_index (index : Z) : list Z :=
  [44 + 2147483648; 60 + 2147483648; 2147483648; 0; index]%Z.

Definition address_0 : string := "0x1000000000000000000000000000000000000000".
Definition address_1 : string := "0x1000000000000000000000000000000000000001".
Definition address_2 : string := "0x1000000000000000000000000000000000000002".
Definition address_9 : string := "0x9000000000000000000000000000000000000009".

(** A device that knows three addresses. *)
Definition ethereum_get_address (n : list Z) (show_display : bool)
  : result string :=
  match last n with
  | Some 0%Z => Return address_0
  | Some 1%Z => Return address_1
  | Some 2%Z => Return address_2
  | _ => Raise (mk_exn ValueError [Lit "Unknown path"])
  end.

Definition ethereum_sign_message (n : list Z) (message : pyval)
  : result (pyval * pyval) :=
  Return (PyBytes [x01], PyStr address_0).

Definition ethereum_sign_tx (n : list Z) (tx : gmap string pyval)
  : result (pyval * pyval * pyval) :=
  Return (PyInt 37, PyInt 1, PyInt 2).

(** A device that was unplugged, one that is claimed by another process,
    and one whose transport fails otherwise. *)
Definition unplugged {A} : result A := Raise (mk_exn USBErrorNoDevice []).
Definition busy {A} : result A := Raise (mk_exn USBErrorBusy []).
Definition io_failure {A} : result A :=
  Raise (mk_exn USBErrorIO [Lit "LIBUSB_ERROR_IO [-1]"]).

(** [assert_valid_fields] as far as the keys go: the six required ones and
    the optional chainId. *)
Definition assert_valid_fields (transaction_dict : gmap string pyval)
  : result unit :=
  let required : gset string :=
    list_to_set ["nonce"; "gasPrice"; "gas"; "to"; "value"; "data"] in
  if bool_decide (required ⊆ dom transaction_dict
                  /\ dom transaction_dict ⊆ required ∪ {["chainId"]})
  then Return tt
  else Raise (mk_exn TypeError [Lit "Transaction must include these fields"]).

Definition to_int (v : pyval) : result pyval :=
  match v with
  | PyInt _ => Return v
  | _ => Raise (mk_exn TypeError [Lit "Cannot convert to int"])
  end.

Definition rlp_encode (fields : gmap string pyval) : result pyval :=
  Return (PyList ((fun k => default PyNone (fields !! k))
                    <$> TrezorSigner.Transaction_fields)).

Definition Web3_toBytes_HexBytes (v : pyval) : result pyval := Return v.

(** A daemon that is not running: the socket file does not exist. *)
Definition ipc_path : string := "/home/user/.clef/clef.ipc".

Definition no_socket (endpoint : string) (request_args : list pyval)
  : result pyval :=
  Raise (mk_exn FileNotFoundError [Lit "[Errno 2] No such file or directory"]).

(** A daemon that answers every request with the same bytes. *)
Definition clef_answer (endpoint : string) (request_args : list pyval)
  : result pyval := Return (PyBytes [x01]).

Definition Web3_toHex (v : pyval) : result pyval := Return v.
Definition Web3_toHex_bytes (bs : list byte) : string := "0x".
Definition HexBytes (v : pyval) : result pyval := Return v.
Definition attribute_raw (v : pyval) : result pyval := Return v.
Definition to_checksum_address_formatter (v : pyval) : result pyval := Return v.
Definition NULL_ADDRESS : string := "0x0000000000000000000000000000000000000000".

(** A keystore holding one key file, nothing unlocked. *)
Definition keystore : KeystoreSigner.state string string :=
  KeystoreSigner.mk_state string string {[address_0 := "correct-pw"]} ∅.

(** A signer whose device answered the three address requests of
    [__init__]. *)
Definition trezor : TrezorSigner.state :=
  TrezorSigner.mk_state
    (<[address_0 := hd_path_for_index 0]>
     (<[address_1 := hd_path_for_index 1]>
     (<[address_2 := hd_path_for_index 2]> ∅)))
    [].

(** A transfer from [address_0] to [address_9], and the creation of a
    contract by [address_0]. *)
Definition transfer : gmap string pyval :=
  list_to_map
    [("from", PyStr address_0); ("to", PyStr address_9);
     ("nonce", PyInt 0); ("gasPrice", PyInt 1); ("gas", PyInt 21000);
     ("value", PyInt 1); ("data", PyBytes []); ("chainId", PyInt 1)].

Definition creation : gmap string pyval :=
  <["to" := PyBytes []]> (<["data" := PyBytes [x60; x80]]> transfer).

End Demo.

(* ===================================================================== *)
(** ** signers.py: construction and teardown of [KeystoreSigner]          *)
(* ===================================================================== *)

Module KeystoreLifecycle.

Import Decorators.

(** What [stat.S_ISDIR] and [stat.S_ISREG] say about [os.stat(path)]. *)
Inductive file_kind : Type :=
| Directory
| RegularFile
| OtherKind.

(** An entry of [os.scandir]: its [path] and the outcome of its
    [is_file()], which can fail with an [OSError]. *)
Record dir_entry : Type := mk_dir_entry {
  entry_path : string;
  entry_is_file : result bool
}.

(** [is_file()] has answered, and with true. *)
Definition is_regular_file (entry : dir_entry) : bool :=
  match entry_is_file entry with
  | Return true => true
  | _ => false
  end.

(** The steps of the iterator that [os.scandir] returns: each yields an
    entry or fails, and a failure ends the iteration. *)
Definition scan : Type := list (result dir_entry).

(** The steps of the generator
    [(entry.path for entry in os.scandir(path=path) if entry.is_file())]:
    each is the path of the next regular file, or the error of the iterator or
    of [is_file()] on the way to it, which ends the generator. *)
Fixpoint generate_paths (entries : scan) : list (result string) :=
  match entries with
  | [] => []
  | Raise e :: _ => [Raise e]
  | Return entry :: rest =>
      match entry_is_file entry with
      | Raise e => [Raise e]
      | Return true => Return (entry_path entry) :: generate_paths rest
      | Return false => generate_paths rest
      end
  end.

(** The result of [urllib.parse.urlparse], as far as the signers read it. *)
Record parsed_uri : Type := mk_parsed_uri {
  scheme : string;
  netloc : string;
  path : string
}.

Definition URI_SCHEME : string := "keystore".

Section Lifecycle.

(** eth_utils, for the decorator. *)
Variable is_hex_address : string -> bool.
Variable to_checksum_address : string -> string.

Variable key_metadata : Type.
Variable LocalAccount : Type.

(** [os.stat], and the call of [os.scandir] with the iterator it returns. *)
Variable os_stat : string -> result file_kind.
Variable os_scandir : string -> result scan.

(** [__read_keyfile]: [open], [json.load] and [key_metadata['address']].
    A [json.JSONDecodeError] is kept apart from the other exceptions. *)
Inductive keyfile_outcome : Type :=
| JSONDecodeError
| Loaded (outcome : result (pyval * key_metadata)).

Variable read_keyfile : string -> keyfile_outcome.

(** [eth_utils.is_address], and [eth_utils.to_checksum_address] on a value
    that [is_address] accepted. *)
Variable is_address : pyval -> bool.
Variable to_checksum_address_of : pyval -> string.

(** [urllib.parse.urlparse]; it raises [ValueError] on a URI it cannot
    split, such as one with an unbalanced bracket in its netloc. *)
Variable urlparse : string -> result parsed_uri.

#[local] Abbreviation state := (KeystoreSigner.state key_metadata LocalAccount).
#[local] Abbreviation world := (KeystoreSigner.world key_metadata LocalAccount).

(** [__handle_keyfile] *)
Definition handle_keyfile (path : string) : result (string * key_metadata) :=
  match read_keyfile path with
  | Loaded (Return (address, key_metadata_)) =>
      if negb (is_address address)
      then Raise (mk_exn InvalidKeyfile
                    [Lit "'"; Val (PyStr path);
                     Lit "' does not contain a valid ethereum address"])
      else Return (to_checksum_address_of address, key_metadata_)
  | JSONDecodeError =>
      Raise (mk_exn InvalidKeyfile
               [Lit "Invalid JSON in keyfile at "; Val (PyStr path)])
  | Loaded (Raise e) =>
      if isinstance e FileNotFoundError
      then Raise (mk_exn InvalidKeyfile
                    [Lit "No such keyfile '"; Val (PyStr path); Lit "'"])
      else if isinstance e KeyError
      then Raise (mk_exn InvalidKeyfile
                    [Lit "Keyfile does not contain address field at '";
                     Val (PyStr path); Lit "'"])
      else Raise e
  end.

(** The two handlers of the [try] in [__read_keystore]. *)
Definition access_error (path : string) (e : exn) : exn :=
  if isinstance e FileNotFoundError
  then mk_exn InvalidSignerURI
         [Lit ("No such keystore file or directory " +:+ dq);
          Val (PyStr path); Lit dq]
  else if isinstance e OSError
  then mk_exn InvalidSignerURI
         ([Lit ("Error accessing keystore file or directory " +:+ dq);
           Val (PyStr path); Lit (dq +:+ ": ")] ++ exn_msg e)
  else e.

(** The [try] of [__read_keystore]: the iterable [paths]. Making the
    generator calls [os.scandir], inside the [try]; the generator itself
    runs later, in the [for] loop. For a regular file [paths] is the tuple
    with that one path. *)
Definition keystore_paths (path : string) : result (list (result string)) :=
  match os_stat path with
  | Raise e => Raise (access_error path e)
  | Return Directory =>
      match os_scandir path with
      | Raise e => Raise (access_error path e)
      | Return entries => Return (generate_paths entries)
      end
  | Return RegularFile => Return [Return path]
  | Return OtherKind =>
      Raise (mk_exn InvalidSignerURI
               [Lit ("Invalid keystore file or directory " +:+ dq);
                Val (PyStr path); Lit dq])
  end.

(** The [for] loop of [__read_keystore], on [__keys]. It stands after the
    [try], so an error of a step of [paths] is raised as it is. *)
Fixpoint load_keyfiles (paths : list (result string))
    (keys : gmap string key_metadata)
  : result unit * gmap string key_metadata :=
  match paths with
  | [] => (Return tt, keys)
  | Raise e :: _ => (Raise e, keys)
  | Return path :: rest =>
      match handle_keyfile path with
      | Raise e => (Raise e, keys)
      | Return (account, key_metadata_) =>
          load_keyfiles rest (<[account := key_metadata_]> keys)
      end
  end.

(** [__read_keystore] *)
Definition read_keystore (path : string) (st : state) : result unit * state :=
  match keystore_paths path with
  | Raise e => (Raise e, st)
  | Return paths =>
      let '(outcome, keys') := load_keyfiles paths (KeystoreSigner.keys _ _ st) in
      (outcome, KeystoreSigner.mk_state _ _ keys' (KeystoreSigner.signers _ _ st))
  end.

(** [__init__]: the outcome, and the dicts of the object as far as it got. *)
Definition init (path : string) : result unit * state :=
  read_keystore path (KeystoreSigner.mk_state _ _ ∅ ∅).

(** [from_signer_uri] *)
Definition from_signer_uri (uri : string) : result unit * state :=
  match urlparse uri with
  | Raise e => (Raise e, KeystoreSigner.mk_state _ _ ∅ ∅)
  | Return decoded_uri =>
      if negb (String.eqb (scheme decoded_uri) URI_SCHEME)
         || negb (String.eqb (netloc decoded_uri) EmptyString)
      then (Raise (mk_exn InvalidSignerURI [Val (PyStr uri)]),
            KeystoreSigner.mk_state _ _ ∅ ∅)
      else init (path decoded_uri)
  end.

(** The loop of [__del__]. (The accounts are visited in the order of the
    finite map.) *)
Fixpoint lock_all (accounts : list string) : M world unit :=
  match accounts with
  | [] => ret tt
  | account :: rest =>
      KeystoreSigner.lock_account is_hex_address to_checksum_address
        key_metadata LocalAccount (PyStr account) ;;;
      lock_all rest
  end.

(** [__del__] *)
Definition del : M world unit :=
  fun w =>
    match KeystoreSigner.accounts _ _ (snd w) with
    | [] => (Return tt, w)
    | accounts => lock_all accounts w
    end.

(** Every unlocked account has a key file. *)
Definition signers_known (st : state) : Prop :=
  forall a, is_Some (KeystoreSigner.signers _ _ st !! a) ->
            is_Some (KeystoreSigner.keys _ _ st !! a).

End Lifecycle.

End KeystoreLifecycle.

(* ===================================================================== *)
(** ** signers.py: [Web3Signer]                                           *)
(* ===================================================================== *)

Module Web3Signer.

Import Decorators.

(** An entry of [client.wallets]: its 'url' and the 'address' of each of
    its 'accounts'. *)
Record wallet : Type := mk_wallet {
  url : string;
  wallet_accounts : list string
}.

(** A call of a method of the client. *)
Inductive client_call : Type :=
| UnlockAccount (account password duration : pyval)
| LockAccount (account : pyval)
| SignMessage (account message : pyval)
| SignTransaction (transaction_dict : gmap string pyval).

Definition HW_WALLET_URL_PREFIXES : list string := ["trezor"; "ledger"].

Section Web3.

(** eth_utils. *)
Variable is_hex_address : string -> bool.
Variable to_checksum_address : string -> string.

(** The client: its attribute [wallets] (an [AttributeError] when it has
    none) and its four methods. *)
Variable client_wallets : result (list wallet).
Variable client_unlock_account : pyval -> pyval -> pyval -> result pyval.
Variable client_lock_account : pyval -> result pyval.
Variable client_sign_message : pyval -> pyval -> result pyval.
Variable client_sign_transaction : gmap string pyval -> result pyval.
Variable HexBytes : pyval -> result pyval.

(** The calls made to the client so far, oldest first. *)
Definition state : Type := list client_call.
Definition world : Type := (gset string * state)%type.

Definition validated {A} (func : M world A) (params : list parameter)
  : M world A :=
  validate_checksum_address is_hex_address to_checksum_address func params.

Definition self : parameter :=
  mk_parameter "self" false (PyObject "Web3Signer").

Definition call (c : client_call) : M world unit :=
  modify (fun w => (fst w, snd w ++ [c])).

(** The checksummed addresses of the wallets whose url starts with one of
    [HW_WALLET_URL_PREFIXES]. *)
Definition hw_addresses (wallets : list wallet) : list string :=
  to_checksum_address
    <$> List.concat (wallet_accounts
                  <$> filter (fun w => existsb (fun p => String.prefix p (url w))
                                         HW_WALLET_URL_PREFIXES = true)
                        wallets).

(** [is_device], the body under the decorator. *)
Definition is_device_body (account : pyval) : result bool :=
  match client_wallets with
  | Raise e => if isinstance e AttributeError then Return false else Raise e
  | Return wallets => Return (list_contains (hw_addresses wallets) account)
  end.

Definition is_device (account : pyval) : M world bool :=
  validated (lift (is_device_body account))
    [self; mk_parameter "account" false account].

(** [unlock_account] *)
Definition unlock_account_body (account password duration : pyval)
  : M world pyval :=
  device <- is_device account ;;
  if device then ret (PyBool true)
  else call (UnlockAccount account password duration) ;;;
       lift (client_unlock_account account password duration).

Definition unlock_account (account password duration : pyval)
  : M world pyval :=
  validated (unlock_account_body account password duration)
    [self; mk_parameter "account" false account;
     mk_parameter "password" false password;
     mk_parameter "duration" true duration].

(** [lock_account] *)
Definition lock_account_body (account : pyval) : M world pyval :=
  device <- is_device account ;;
  if device then ret PyNone
  else call (LockAccount account) ;;; lift (client_lock_account account).

Definition lock_account (account : pyval) : M world pyval :=
  validated (lock_account_body account)
    [self; mk_parameter "account" false account].

(** [sign_message] *)
Definition sign_message_body (account message : pyval) : M world pyval :=
  call (SignMessage account message) ;;;
  signature <- lift (client_sign_message account message) ;;
  lift (HexBytes signature).

Definition sign_message (account message : pyval)
    (kwargs : list (string * pyval)) : M world pyval :=
  validated (sign_message_body account message)
    [self; mk_parameter "account" false account;
     mk_parameter "message" false message;
     mk_parameter "kwargs" false (PyDict kwargs)].

(** [sign_transaction]; it has no decorator. *)
Definition sign_transaction (transaction_dict : gmap string pyval)
  : M world pyval :=
  call (SignTransaction transaction_dict) ;;;
  lift (client_sign_transaction transaction_dict).

End Web3.

End Web3Signer.

(* ===================================================================== *)
(** ** signers.py: the signer URIs of [ClefSigner] and [TrezorSigner]     *)
(* ===================================================================== *)

Module SignerURI.

Import KeystoreLifecycle.

Section URI.

(** [urllib.parse.urlparse]; it raises [ValueError] on a URI it cannot
    split, such as one with an unbalanced bracket in its netloc. *)
Variable urlparse : string -> result parsed_uri.

(** [ClefSigner.is_valid_clef_uri] *)
Definition is_valid_clef_uri (uri : string) : result bool :=
  match urlparse uri with
  | Raise e => Raise e
  | Return uri_breakdown => Return (String.eqb (scheme uri_breakdown) "clef")
  end.

(** [ClefSigner.from_signer_uri]: the [ipc_path] of the signer it makes. *)
Definition clef_from_signer_uri (uri : string) : result string :=
  match urlparse uri with
  | Raise e => Raise e
  | Return uri_breakdown =>
      if String.eqb (path uri_breakdown) EmptyString
         && String.eqb (netloc uri_breakdown) EmptyString
      then Raise (mk_exn InvalidSignerURI
                    [Lit "Blank signer URI - No keystore path provided"])
      else if negb (String.eqb (scheme uri_breakdown) "clef")
      then Raise (mk_exn InvalidSignerURI
                    [Val (PyStr uri); Lit " is not a valid clef signer URI."])
      else Return (path uri_breakdown)
  end.

(** [TrezorSigner.from_signer_uri], given [TrezorSigner.__init__]. *)
Definition trezor_from_signer_uri
    (init : result unit * TrezorSigner.state) (uri : string)
  : result unit * TrezorSigner.state :=
  match urlparse uri with
  | Raise e => (Raise e, TrezorSigner.mk_state ∅ [])
  | Return decoded_uri =>
      if negb (String.eqb (scheme decoded_uri) "trezor")
         || negb (String.eqb (netloc decoded_uri) EmptyString)
      then (Raise (mk_exn InvalidSignerURI [Val (PyStr uri)]),
            TrezorSigner.mk_state ∅ [])
      else init
  end.

End URI.

End SignerURI.

(* ===================================================================== *)
(** ** More stand-ins, for the construction and the passthrough signer    *)
(* ===================================================================== *)

Module Fixtures.

Import KeystoreLifecycle.

(** A directory with two key files and a subdirectory. *)
Definition os_stat (path : string) : result file_kind :=
  if String.eqb path "/keys" then Return Directory
  else if String.eqb path "/keys/a.json" then Return RegularFile
  else Raise (mk_exn FileNotFoundError [Lit "[Errno 2] No such file or directory"]).

Definition os_scandir (path : string) : result scan :=
  if String.eqb path "/keys"
  then Return [Return (mk_dir_entry "/keys/a.json" (Return true));
               Return (mk_dir_entry "/keys/old" (Return false));
               Return (mk_dir_entry "/keys/b.json" (Return true))]
  else Raise (mk_exn FileNotFoundError [Lit "[Errno 2] No such file or directory"]).

(** The same directory with a link that loops in the place of the second
    key file. *)
Definition too_many_links : exn :=
  mk_exn OSError [Lit "[Errno 40] Too many levels of symbolic links: '/keys/b.json'"].

Definition os_scandir_loop (path : string) : result scan :=
  if String.eqb path "/keys"
  then Return [Return (mk_dir_entry "/keys/a.json" (Return true));
               Return (mk_dir_entry "/keys/old" (Return false));
               Return (mk_dir_entry "/keys/b.json" (Raise too_many_links))]
  else Raise (mk_exn FileNotFoundError [Lit "[Errno 2] No such file or directory"]).

Definition read_keyfile (path : string) : keyfile_outcome string :=
  if String.eqb path "/keys/a.json"
  then Loaded string (Return (PyStr Demo.address_0, "pw-a"))
  else if String.eqb path "/keys/b.json"
  then Loaded string (Return (PyStr Demo.address_1, "pw-b"))
  else Loaded string
         (Raise (mk_exn FileNotFoundError [Lit "[Errno 2] No such file or directory"])).

(** The same directory with the second file corrupt. *)
Definition read_corrupt_keyfile (path : string) : keyfile_outcome string :=
  if String.eqb path "/keys/b.json" then JSONDecodeError string
  else read_keyfile path.

Definition is_address (v : pyval) : bool :=
  match v with PyStr s => Demo.is_hex_address s | _ => false end.

Definition to_checksum_address_of (v : pyval) : string :=
  match v with PyStr s => Demo.to_checksum_address s | _ => EmptyString end.

Definition urlparse (uri : string) : result parsed_uri :=
  if String.eqb uri "keystore:///keys"
  then Return (mk_parsed_uri "keystore" EmptyString "/keys")
  else if String.eqb uri "keystore://host/keys"
  then Return (mk_parsed_uri "keystore" "host" "/keys")
  else if String.eqb uri "clef:///home/user/.clef/clef.ipc"
  then Return (mk_parsed_uri "clef" EmptyString "/home/user/.clef/clef.ipc")
  else if String.eqb uri "trezor://"
  then Return (mk_parsed_uri "trezor" EmptyString EmptyString)
  else if String.eqb uri "clef://["
  then Raise (mk_exn ValueError [Lit "Invalid IPv6 URL"])
  else Return (mk_parsed_uri EmptyString EmptyString uri).

(** A keystore with two key files, the first one unlocked. *)
Definition keystore : KeystoreSigner.state string string :=
  KeystoreSigner.mk_state string string
    {[Demo.address_0 := "pw-a"; Demo.address_1 := "pw-b"]}
    {[Demo.address_0 := "local account"]}.

(** A node with a hardware wallet and a key file. *)
Definition wallets : list Web3Signer.wallet :=
  [Web3Signer.mk_wallet "keystore:///keys/a.json" [Demo.address_0];
   Web3Signer.mk_wallet "trezor://0001" [Demo.address_1; Demo.address_2]].

Definition client_unlock_account (account password duration : pyval)
  : result pyval := Return (PyBool (eq_str password "node-pw")).

Definition client_lock_account (account : pyval) : result pyval :=
  Return (PyBool true).

End Fixtures.

(** The statement that every non-string address argument, unless it is an
    absent optional one, makes the call fail with the type error for that
    argument. *)
Definition every_non_string_argument_is_a_type_mismatch
    (is_hex_address : string -> bool) (to_checksum_address : string -> string)
  : Prop :=
  forall (verified : gset string) (params : list Decorators.parameter)
         (p : Decorators.parameter),
    p ∈ params ->
    Decorators.is_address_parameter (Decorators.name p) = true ->
    is_str (Decorators.value p) = false ->
    Decorators.default_is_None p && is_None (Decorators.value p) = false ->
    exists verified',
      Decorators.validate_checksum_address (St := unit)
        is_hex_address to_checksum_address (ret true) params (verified, tt)
      = (Raise (Decorators.invalid_type_error p), (verified', tt)).

(** The statement that a failure of the IPC connection does not reach the
    caller as an I/O error: the error names the endpoint and is no
    [OSError]. *)
Definition ipc_failure_is_no_io_error
    (request_blocking : string -> list pyval -> result pyval)
    (ipc_path : string) : Prop :=
  forall (endpoint : string) (request_args : list pyval)
         (w : ClefSigner.world) (e : exn),
    request_blocking endpoint request_args = Raise e ->
    isinstance e FileNotFoundError || isinstance e ConnectionRefusedError = true ->
    exists e' w',
      ClefSigner.ipc_request request_blocking ipc_path endpoint request_args w
      = (Raise e', w')
      /\ Val (PyStr ipc_path) ∈ exn_msg e'
      /\ isinstance e' OSError = false.

(** The statement that no failure of a device call reaches the caller as
    an error of the USB or transport layer. *)
Definition device_failure_is_no_transport_error
    (hd_path_for_index : Z -> list Z)
    (ethereum_get_address : list Z -> bool -> result string) : Prop :=
  forall (index : option Z) (hd_path : option (list Z)) (show_display : bool)
         (st st' : TrezorSigner.state) (e : exn),
    TrezorSigner.get_address hd_path_for_index ethereum_get_address
      index hd_path show_display st = (Raise e, st') ->
    isinstance e USBError = false /\ isinstance e TransportException = false.

(** The statement that [get_address] with both an index and an HD path is
    a usage error. *)
Definition get_address_rejects_index_with_path
    (hd_path_for_index : Z -> list Z)
    (ethereum_get_address : list Z -> bool -> result string) : Prop :=
  forall (index n : Z) (hd_path : list Z) (show_display : bool)
         (st : TrezorSigner.state),
    exists e st',
      TrezorSigner.get_address hd_path_for_index ethereum_get_address
        (Some index) (Some (n :: hd_path)) show_display st = (Raise e, st')
      /\ exn_cls e = ValueError.

(** The statement that [sign_message] with the content type
    'application/clique' fails with [NotImplementedError] for every account
    and message. *)
Definition clique_is_not_implemented_for_every_account
    (is_hex_address : string -> bool) (to_checksum_address : string -> string)
    (request_blocking : string -> list pyval -> result pyval)
    (Web3_toHex_bytes : list byte -> string) (HexBytes : pyval -> result pyval)
    (NULL_ADDRESS ipc_path : string) : Prop :=
  forall (order : ClefSigner.binding_order) (account message : pyval)
         (w : ClefSigner.world),
    fst (ClefSigner.sign_message is_hex_address to_checksum_address
           request_blocking Web3_toHex_bytes HexBytes NULL_ADDRESS ipc_path
           order account message (PyStr ClefSigner.SIGN_DATA_FOR_CLIQUE)
           PyNone [] w)
    = Raise (mk_exn NotImplementedError []).

(* ===================================================================== *)
(** ** Facts about [validate_checksum_address]                            *)
(* ===================================================================== *)

Section ValidatorFacts.

Import Decorators.

Variable is_hex_address : string -> bool.
Variable to_checksum_address : string -> string.

#[local] Abbreviation is_checksum_address :=
  (Decorators.is_checksum_address is_hex_address to_checksum_address).
#[local] Abbreviation check_parameter :=
  (Decorators.check_parameter is_hex_address to_checksum_address).
#[local] Abbreviation validate_addresses :=
  (Decorators.validate_addresses is_hex_address to_checksum_address).
#[local] Abbreviation validate_checksum_address :=
  (Decorators.validate_checksum_address is_hex_address to_checksum_address).
#[local] Abbreviation all_verified :=
  (Decorators.all_verified is_hex_address to_checksum_address).
#[local] Abbreviation after_calls :=
  (Decorators.after_calls is_hex_address to_checksum_address).

Lemma is_checksum_address_str v :
  is_checksum_address v = true -> exists s, v = PyStr s /\ s = to_checksum_address s.
Proof.
  destruct v; simpl; try discriminate.
  intros H. apply andb_true_iff in H as [_ H].
  apply String.eqb_eq in H. eauto.
Qed.

(** The set only grows. *)
Lemma check_parameter_mono verified p :
  verified ⊆ snd (check_parameter verified p).
Proof.
  unfold Decorators.check_parameter.
  destruct (set_contains verified (value p)) as [[|]|]; simpl; try done.
  destruct (default_is_None p && is_None (value p)); simpl; try done.
  destruct (is_checksum_address (value p)) eqn:E; simpl.
  - apply is_checksum_address_str in E as (s & -> & _). simpl. set_solver.
  - destruct (negb (is_str (value p))); done.
Qed.

Lemma check_parameter_all_verified verified p :
  all_verified verified -> all_verified (snd (check_parameter verified p)).
Proof.
  intros Hv. unfold Decorators.check_parameter.
  destruct (set_contains verified (value p)) as [[|]|]; simpl; try done.
  destruct (default_is_None p && is_None (value p)); simpl; try done.
  destruct (is_checksum_address (value p)) eqn:E; simpl.
  - destruct (is_checksum_address_str _ E) as (s & Hs & _).
    rewrite Hs in *. simpl. intros a Ha.
    apply elem_of_union in Ha as [Ha | Ha]; [| by apply Hv].
    apply elem_of_singleton in Ha. by subst a.
  - destruct (negb (is_str (value p))); done.
Qed.

Lemma validate_addresses_mono params : forall verified,
  verified ⊆ snd (validate_addresses verified params).
Proof.
  induction params as [| p rest IH]; intros verified; simpl; [done |].
  destruct (is_address_parameter (name p)); [| apply IH].
  pose proof (check_parameter_mono verified p) as Hm.
  destruct (check_parameter verified p) as [[u | e] v1]; simpl in *.
  - etrans; [exact Hm | apply IH].
  - exact Hm.
Qed.

Lemma validate_addresses_all_verified params : forall verified,
  all_verified verified ->
  all_verified (snd (validate_addresses verified params)).
Proof.
  induction params as [| p rest IH]; intros verified Hv; simpl; [done |].
  destruct (is_address_parameter (name p)); [| by apply IH].
  pose proof (check_parameter_all_verified verified p Hv) as Hm.
  destruct (check_parameter verified p) as [[u | e] v1]; simpl in *.
  - by apply IH.
  - exact Hm.
Qed.

Lemma after_calls_mono calls : forall verified,
  verified ⊆ after_calls verified calls.
Proof.
  induction calls as [| c cs IH]; intros verified; simpl; [done |].
  etrans; [apply (validate_addresses_mono c) | apply IH].
Qed.

(** The sets the module can reach from its initial, empty one hold
    checksum addresses only. *)
Lemma after_calls_all_verified calls : forall verified,
  all_verified verified -> all_verified (after_calls verified calls).
Proof.
  induction calls as [| c cs IH]; intros verified Hv; simpl; [done |].
  apply IH. by apply validate_addresses_all_verified.
Qed.

Lemma reachable_all_verified calls : all_verified (after_calls ∅ calls).
Proof.
  apply after_calls_all_verified. intros s Hs. by apply not_elem_of_empty in Hs.
Qed.

(** A cache hit: the parameter passes and nothing changes. *)
Lemma check_parameter_hit verified p s :
  value p = PyStr s -> s ∈ verified ->
  check_parameter verified p = (Return tt, verified).
Proof.
  intros Hp Hs. unfold Decorators.check_parameter. rewrite Hp. simpl.
  by rewrite bool_decide_eq_true_2.
Qed.

(** A string that passed is in the set afterwards. *)
Lemma check_parameter_pass verified p s u verified' :
  value p = PyStr s ->
  check_parameter verified p = (Return u, verified') ->
  s ∈ verified'.
Proof.
  intros Hp. unfold Decorators.check_parameter. rewrite Hp. simpl.
  case_bool_decide as Hin.
  - intros H. inversion H; subst. exact Hin.
  - rewrite andb_false_r.
    destruct (is_hex_address s && String.eqb s (to_checksum_address s));
      [| discriminate].
    intros H. inversion H; subst. set_solver.
Qed.

Lemma validate_addresses_pass params : forall verified p s u verified',
  p ∈ params ->
  is_address_parameter (name p) = true ->
  value p = PyStr s ->
  validate_addresses verified params = (Return u, verified') ->
  s ∈ verified'.
Proof.
  induction params as [| q rest IH]; intros verified p s u verified' Hin Ha Hp;
    [by apply elem_of_nil in Hin |].
  simpl. apply elem_of_cons in Hin as [-> | Hin].
  - rewrite Ha.
    destruct (check_parameter verified q) as [[u1 | e] v1] eqn:E;
      [| discriminate].
    intros Hrest.
    pose proof (validate_addresses_mono rest v1) as Hm.
    rewrite Hrest in Hm. simpl in Hm.
    apply Hm. eapply check_parameter_pass; eauto.
  - destruct (is_address_parameter (name q)).
    + destruct (check_parameter verified q) as [[u1 | e] v1]; [| discriminate].
      intros Hrest. eapply IH; eauto.
    + intros Hrest. eapply IH; eauto.
Qed.

Lemma validate_addresses_app pre : forall verified post,
  validate_addresses verified (pre ++ post)
  = match validate_addresses verified pre with
    | (Return _, verified') => validate_addresses verified' post
    | (Raise e, verified') => (Raise e, verified')
    end.
Proof.
  induction pre as [| q pre IH]; intros verified post; simpl; [done |].
  destruct (is_address_parameter (name q)); [| apply IH].
  destruct (check_parameter verified q) as [[u | e] v1]; [apply IH | done].
Qed.

(** A non-string value that is not an absent optional one fails its
    check, and leaves the set as it was. *)
Lemma check_parameter_non_string verified p :
  is_str (value p) = false ->
  default_is_None p && is_None (value p) = false ->
  check_parameter verified p
  = (Raise (if hashable (value p) then invalid_type_error p
            else unhashable_error (value p)), verified).
Proof.
  intros Hs Hopt. unfold Decorators.check_parameter. rewrite Hopt.
  destruct (value p) eqn:E; simpl in *; try discriminate; reflexivity.
Qed.

End ValidatorFacts.

Section ValidatorTheorems.

Import Decorators.

Variable is_hex_address : string -> bool.
Variable to_checksum_address : string -> string.

#[local] Abbreviation check_parameter :=
  (Decorators.check_parameter is_hex_address to_checksum_address).
#[local] Abbreviation validate_addresses :=
  (Decorators.validate_addresses is_hex_address to_checksum_address).
#[local] Abbreviation validate_checksum_address :=
  (Decorators.validate_checksum_address is_hex_address to_checksum_address).
#[local] Abbreviation all_verified :=
  (Decorators.all_verified is_hex_address to_checksum_address).
#[local] Abbreviation after_calls :=
  (Decorators.after_calls is_hex_address to_checksum_address).

(** C7 (amended). An address-named argument [p] that is not a string and
    not an absent optional value makes the wrapped call fail whatever the
    wrapped operation is: the outcome and the state do not depend on
    [func], and the state of the object is untouched, so [func] never
    runs. When the address-named arguments before [p] pass and the value
    of [p] is hashable, the error is the [TypeError] whose message names
    the actual type of the value and the parameter. When they pass and
    the value is not hashable, it is the [TypeError] of the membership
    test on the set of verified addresses; when one of them fails, it is
    the error of that argument. 'Before' is in the order of the entries,
    which is the order the loop checks them in. *)
Theorem non_string_address_never_reaches_func :
  forall (verified : gset string) (pre post : list parameter) (p : parameter),
    is_address_parameter (name p) = true ->
    is_str (value p) = false ->
    default_is_None p && is_None (value p) = false ->
    (exists e verified',
       forall (St A : Type) (func : M (gset string * St) A) (st : St),
         validate_checksum_address func (pre ++ p :: post) (verified, st)
         = (Raise e, (verified', st)))
    /\ (forall verified',
          fst (validate_addresses verified pre) = Return tt ->
          snd (validate_addresses verified pre) = verified' ->
          hashable (value p) = true ->
          forall (St A : Type) (func : M (gset string * St) A) (st : St),
            validate_checksum_address func (pre ++ p :: post) (verified, st)
            = (Raise (invalid_type_error p), (verified', st)))
    /\ (forall verified',
          fst (validate_addresses verified pre) = Return tt ->
          snd (validate_addresses verified pre) = verified' ->
          hashable (value p) = false ->
          forall (St A : Type) (func : M (gset string * St) A) (st : St),
            validate_checksum_address func (pre ++ p :: post) (verified, st)
            = (Raise (unhashable_error (value p)), (verified', st)))
    /\ (forall e verified',
          validate_addresses verified pre = (Raise e, verified') ->
          forall (St A : Type) (func : M (gset string * St) A) (st : St),
            validate_checksum_address func (pre ++ p :: post) (verified, st)
            = (Raise e, (verified', st))).
Proof.
  intros verified pre post p Ha Hs Hopt.
  assert (Hstep : forall v,
    validate_addresses v (p :: post)
    = (Raise (if hashable (value p) then invalid_type_error p
              else unhashable_error (value p)), v)).
  { intros v. simpl. rewrite Ha.
    by rewrite (check_parameter_non_string _ _ v p Hs Hopt). }
  split.
  - destruct (validate_addresses verified pre) as [[u | e0] v1] eqn:Epre.
    + eexists _, v1. intros St A func st.
      unfold Decorators.validate_checksum_address. simpl.
      rewrite validate_addresses_app, Epre, Hstep. reflexivity.
    + exists e0, v1. intros St A func st.
      unfold Decorators.validate_checksum_address. simpl.
      rewrite validate_addresses_app, Epre. reflexivity.
  - split; [| split].
    + intros verified' Hok Hset Hh St A func st.
      unfold Decorators.validate_checksum_address. simpl.
      rewrite validate_addresses_app.
      destruct (validate_addresses verified pre) as [[u | e0] v1];
        simpl in *; [| discriminate].
      subst v1. rewrite Hstep, Hh. reflexivity.
    + intros verified' Hok Hset Hh St A func st.
      unfold Decorators.validate_checksum_address. simpl.
      rewrite validate_addresses_app.
      destruct (validate_addresses verified pre) as [[u | e0] v1];
        simpl in *; [| discriminate].
      subst v1. rewrite Hstep, Hh. reflexivity.
    + intros e verified' Hpre St A func st.
      unfold Decorators.validate_checksum_address. simpl.
      rewrite validate_addresses_app, Hpre. reflexivity.
Qed.

(** C8. If a call whose address-named argument is the string [s] passes
    validation, then [s] is in the set of verified addresses, [s] is its
    own canonical (checksummed) form, and after any further validated
    calls the validation of the canonical form of [s] is a cache hit: it
    passes, leaves the set unchanged, and a wrapped call with that
    argument runs the wrapped operation. *)
Theorem validated_address_stays_valid :
  forall (verified verified1 : gset string) (params : list parameter)
         (p : parameter) (s : string) (u : unit),
    all_verified verified ->
    p ∈ params ->
    is_address_parameter (name p) = true ->
    value p = PyStr s ->
    validate_addresses verified params = (Return u, verified1) ->
    s ∈ verified1
    /\ to_checksum_address s = s
    /\ forall (calls : list (list parameter)) (q : parameter),
         value q = PyStr (to_checksum_address s) ->
         check_parameter (after_calls verified1 calls) q
         = (Return tt, after_calls verified1 calls)
         /\ forall (St A : Type) (func : M (gset string * St) A) (st : St),
              validate_checksum_address func [q] (after_calls verified1 calls, st)
              = func (after_calls verified1 calls, st).
Proof.
  intros verified verified1 params p s u Hv Hin Ha Hp Hrun.
  assert (Hs : s ∈ verified1)
    by (eapply validate_addresses_pass; eauto).
  assert (Hv1 : all_verified verified1).
  { pose proof (validate_addresses_all_verified _ _ params verified Hv) as H.
    by rewrite Hrun in H. }
  assert (Hc : to_checksum_address s = s).
  { specialize (Hv1 s Hs). simpl in Hv1.
    apply andb_true_iff in Hv1 as [_ Hv1].
    by apply String.eqb_eq in Hv1. }
  split; [exact Hs |]. split; [exact Hc |].
  intros calls q Hq. rewrite Hc in Hq.
  assert (Hhit : check_parameter (after_calls verified1 calls) q
                 = (Return tt, after_calls verified1 calls)).
  { eapply check_parameter_hit; [exact Hq |].
    by apply (after_calls_mono _ _ calls verified1). }
  split; [exact Hhit |].
  intros St A func st.
  unfold Decorators.validate_checksum_address. simpl.
  destruct (is_address_parameter (name q)); [rewrite Hhit |]; reflexivity.
Qed.

End ValidatorTheorems.

(** C7, as stated, fails: with an invalid string in [account] and the
    integer 5 in [validator_address], the call fails with the checksum
    error of the first argument, not with a type error for the second. *)
Lemma non_string_address_behind_invalid_string :
  Decorators.validate_checksum_address (St := unit)
    Demo.is_hex_address Demo.to_checksum_address (ret true)
    [Decorators.mk_parameter "account" false (PyStr "0xnot-an-address");
     Decorators.mk_parameter "validator_address" true (PyInt 5)]
    (∅, tt)
  = (Raise (Decorators.invalid_checksum_error
              (Decorators.mk_parameter "account" false (PyStr "0xnot-an-address"))),
     (∅, tt))
  /\ ~ every_non_string_argument_is_a_type_mismatch
         Demo.is_hex_address Demo.to_checksum_address.
Proof.
  split; [reflexivity |].
  intros H.
  destruct (H ∅
    [Decorators.mk_parameter "account" false (PyStr "0xnot-an-address");
     Decorators.mk_parameter "validator_address" true (PyInt 5)]
    (Decorators.mk_parameter "validator_address" true (PyInt 5)))
    as [v' Hv']; try reflexivity.
  - apply list_elem_of_further, list_elem_of_here.
  - discriminate Hv'.
Qed.

(** An unhashable value does not get as far as the type check: the
    membership test on the set of verified addresses raises first, with a
    message that does not name the parameter. *)
Example unhashable_address_argument :
  Decorators.validate_checksum_address (St := unit)
    Demo.is_hex_address Demo.to_checksum_address (ret true)
    [Decorators.mk_parameter "account" false (PyList [PyStr Demo.address_0])]
    (∅, tt)
  = (Raise (unhashable_error (PyList [PyStr Demo.address_0])), (∅, tt)).
Proof. reflexivity. Qed.

Lemma non_string_address_never_reaches_func_witness :
  Decorators.validate_checksum_address (St := unit)
    Demo.is_hex_address Demo.to_checksum_address (ret true)
    ([Decorators.mk_parameter "self" false (PyObject "ClefSigner")]
     ++ Decorators.mk_parameter "account" false (PyInt 5) :: [])
    (∅, tt)
  = (Raise (Decorators.invalid_type_error
              (Decorators.mk_parameter "account" false (PyInt 5))),
     (∅, tt)).
Proof.
  destruct (non_string_address_never_reaches_func
              Demo.is_hex_address Demo.to_checksum_address ∅
              [Decorators.mk_parameter "self" false (PyObject "ClefSigner")] []
              (Decorators.mk_parameter "account" false (PyInt 5))
              eq_refl eq_refl eq_refl) as (_ & H & _).
  exact (H ∅ eq_refl eq_refl eq_refl unit bool (ret true) tt).
Defined.

Lemma validated_address_stays_valid_witness :
  Demo.address_0 ∈ ({[Demo.address_0]} ∪ ∅ : gset string)
  /\ Demo.to_checksum_address Demo.address_0 = Demo.address_0.
Proof.
  pose proof (validated_address_stays_valid
                Demo.is_hex_address Demo.to_checksum_address
                ∅ ({[Demo.address_0]} ∪ ∅)
                [Decorators.mk_parameter "account" false (PyStr Demo.address_0)]
                (Decorators.mk_parameter "account" false (PyStr Demo.address_0))
                Demo.address_0 tt) as H.
  assert (Hv : Decorators.all_verified
                 Demo.is_hex_address Demo.to_checksum_address ∅).
  { intros s Hs. by apply not_elem_of_empty in Hs. }
  destruct (H Hv (list_elem_of_here _ _) eq_refl eq_refl eq_refl)
    as (H1 & H2 & _).
  exact (conj H1 H2).
Defined.

(* ===================================================================== *)
(** ** Facts about [KeystoreSigner]                                       *)
(* ===================================================================== *)

Section AccountValidation.

Import Decorators.

Variable is_hex_address : string -> bool.
Variable to_checksum_address : string -> string.

Lemma validate_addresses_skip verified rest :
  Forall (fun q => is_address_parameter (name q) = false) rest ->
  Decorators.validate_addresses is_hex_address to_checksum_address verified rest
  = (Return tt, verified).
Proof.
  induction 1 as [| q rest Hq _ IH]; simpl; [done |]. by rewrite Hq.
Qed.

(** A method called as [method(self, account, ...)] with a checksummed
    account and no other address parameter passes the decorator. *)
Lemma validate_account verified self_value a rest :
  Decorators.is_checksum_address is_hex_address to_checksum_address (PyStr a)
  = true ->
  Forall (fun q => is_address_parameter (name q) = false) rest ->
  exists verified',
    Decorators.validate_addresses is_hex_address to_checksum_address verified
      (mk_parameter "self" false self_value
       :: mk_parameter "account" false (PyStr a) :: rest)
    = (Return tt, verified')
    /\ a ∈ verified' /\ (a ∈ verified -> verified' = verified).
Proof.
  intros Hok Hrest.
  change (Decorators.validate_addresses is_hex_address to_checksum_address verified
            (mk_parameter "self" false self_value
             :: mk_parameter "account" false (PyStr a) :: rest))
    with (match Decorators.check_parameter is_hex_address to_checksum_address
                  verified (mk_parameter "account" false (PyStr a)) with
          | (Return _, verified') =>
              Decorators.validate_addresses is_hex_address to_checksum_address
                verified' rest
          | (Raise e, verified') => (Raise e, verified')
          end).
  unfold Decorators.check_parameter. simpl value. simpl default_is_None.
  simpl set_contains. rewrite Hok. simpl andb.
  case_bool_decide as Hin.
  - exists verified. rewrite validate_addresses_skip by done. done.
  - exists ({[a]} ∪ verified). simpl verified_add.
    rewrite validate_addresses_skip by done.
    split; [done |]. split; [set_solver | done].
Qed.

End AccountValidation.

Lemma elem_of_map_keys {V} (m : gmap string V) (a : string) :
  a ∈ (map_to_list m).*1 <-> is_Some (m !! a).
Proof.
  rewrite list_elem_of_fmap. split.
  - intros [[k v] [-> Hkv]]. apply elem_of_map_to_list in Hkv. by exists v.
  - intros [v Hv]. exists (a, v). split; [done |]. by apply elem_of_map_to_list.
Qed.

Section KeystoreFacts.

Import Decorators.

Variable is_hex_address : string -> bool.
Variable to_checksum_address : string -> string.
Variable key_metadata : Type.
Variable LocalAccount : Type.
Variable Account_decrypt : key_metadata -> pyval -> result pyval.
Variable Account_from_key : pyval -> result LocalAccount.
Variable LocalAccount_sign_transaction :
  LocalAccount -> gmap string pyval -> result pyval.
Variable LocalAccount_sign_message : LocalAccount -> pyval -> result pyval.

#[local] Abbreviation is_checksum_address :=
  (Decorators.is_checksum_address is_hex_address to_checksum_address).
#[local] Abbreviation state := (KeystoreSigner.state key_metadata LocalAccount).
#[local] Abbreviation mk_state := (KeystoreSigner.mk_state key_metadata LocalAccount).
#[local] Abbreviation keys := (KeystoreSigner.keys key_metadata LocalAccount).
#[local] Abbreviation signers := (KeystoreSigner.signers key_metadata LocalAccount).
#[local] Abbreviation Locked := (KeystoreSigner.Locked key_metadata LocalAccount).
#[local] Abbreviation Unlocked := (KeystoreSigner.Unlocked key_metadata LocalAccount).
#[local] Abbreviation Unknown := (KeystoreSigner.Unknown key_metadata LocalAccount).
#[local] Abbreviation get_signer :=
  (KeystoreSigner.get_signer is_hex_address to_checksum_address
     key_metadata LocalAccount).
#[local] Abbreviation unlock_account :=
  (KeystoreSigner.unlock_account is_hex_address to_checksum_address
     key_metadata LocalAccount Account_decrypt Account_from_key).
#[local] Abbreviation lock_account :=
  (KeystoreSigner.lock_account is_hex_address to_checksum_address
     key_metadata LocalAccount).
#[local] Abbreviation sign_transaction :=
  (KeystoreSigner.sign_transaction is_hex_address to_checksum_address
     key_metadata LocalAccount LocalAccount_sign_transaction).
#[local] Abbreviation sign_message :=
  (KeystoreSigner.sign_message is_hex_address to_checksum_address
     key_metadata LocalAccount LocalAccount_sign_message).

(** The decorator lets a call with a checksummed account through to the
    body, with the account in the set of verified addresses. *)
Lemma validated_account {A} (body : M (gset string * state) A)
    verified (st : state) a rest :
  is_checksum_address (PyStr a) = true ->
  Forall (fun q => is_address_parameter (name q) = false) rest ->
  exists verified',
    KeystoreSigner.validated is_hex_address to_checksum_address
      key_metadata LocalAccount body
      (KeystoreSigner.self :: mk_parameter "account" false (PyStr a) :: rest)
      (verified, st)
    = body (verified', st)
    /\ a ∈ verified' /\ (a ∈ verified -> verified' = verified).
Proof.
  intros Hok Hrest.
  destruct (validate_account is_hex_address to_checksum_address verified
              (PyObject "KeystoreSigner") a rest Hok Hrest)
    as (v' & Hv & Hin & Hsame).
  exists v'. split; [| done].
  unfold KeystoreSigner.validated, Decorators.validate_checksum_address.
  unfold KeystoreSigner.self. simpl fst. simpl snd. by rewrite Hv.
Qed.

Lemma get_signer_locked verified (st : state) a :
  is_checksum_address (PyStr a) = true ->
  a ∈ verified ->
  Locked a st ->
  get_signer (PyStr a) (verified, st)
  = (Raise (Signer.AccountLocked_ (PyStr a)), (verified, st)).
Proof.
  intros Hok Hin [[md Hk] Hs].
  unfold KeystoreSigner.get_signer.
  destruct (validated_account
              (KeystoreSigner.on_signer key_metadata LocalAccount
                 (KeystoreSigner.get_signer_body key_metadata LocalAccount (PyStr a)))
              verified st a [] Hok (Forall_nil_2 _))
    as (v' & -> & _ & Hsame).
  rewrite (Hsame Hin).
  unfold KeystoreSigner.on_signer, KeystoreSigner.get_signer_body,
    dict_getitem. simpl. rewrite Hs. simpl. by rewrite Hk.
Qed.

(** In the Locked state a wrong password makes [unlock_account] raise
    the [ValueError] of [Account.decrypt]: the call sits in the [else]
    clause, out of reach of [except ValueError]. The account stays
    Locked, and signing for it fails with [AccountLocked]. *)
Lemma unlock_account_wrong_password verified (st : state) a password duration e :
  is_checksum_address (PyStr a) = true ->
  Locked a st ->
  (forall md, keys st !! a = Some md -> Account_decrypt md password = Raise e) ->
  exists verified',
    unlock_account (PyStr a) password duration (verified, st)
    = (Raise e, (verified', st))
    /\ Locked a st
    /\ (forall message kwargs,
          sign_message (PyStr a) message kwargs (verified', st)
          = (Raise (Signer.AccountLocked_ (PyStr a)), (verified', st)))
    /\ (forall transaction_dict,
          transaction_dict !! "from" = Some (PyStr a) ->
          sign_transaction transaction_dict (verified', st)
          = (Raise (Signer.AccountLocked_ (PyStr a)), (verified', st))).
Proof.
  intros Hok HL Hwrong. pose proof HL as [[md Hk] Hs].
  unfold KeystoreSigner.unlock_account.
  destruct (validated_account
              (KeystoreSigner.on_signer key_metadata LocalAccount
                 (KeystoreSigner.unlock_account_body key_metadata LocalAccount
                    Account_decrypt Account_from_key (PyStr a) password))
              verified st a
              [mk_parameter "password" false password;
               mk_parameter "duration" true duration] Hok)
    as (v' & -> & Hin & _).
  { repeat constructor. }
  exists v'. split; [| split; [exact HL | split]].
  - unfold KeystoreSigner.on_signer, KeystoreSigner.unlock_account_body,
      dict_getitem. simpl. rewrite Hs, Hk. by rewrite (Hwrong md Hk).
  - intros message kwargs. unfold KeystoreSigner.sign_message.
    destruct (validated_account
                (KeystoreSigner.sign_message_body is_hex_address
                   to_checksum_address key_metadata LocalAccount
                   LocalAccount_sign_message (PyStr a) message)
                v' st a
                [mk_parameter "message" false message;
                 mk_parameter "kwargs" false (PyDict kwargs)] Hok)
      as (v'' & -> & _ & Hsame).
    { repeat constructor. }
    rewrite (Hsame Hin).
    unfold KeystoreSigner.sign_message_body, bind.
    by rewrite (get_signer_locked v' st a Hok Hin HL).
  - intros transaction_dict Hfrom.
    unfold KeystoreSigner.sign_transaction, KeystoreSigner.validated,
      Decorators.validate_checksum_address. simpl.
    unfold KeystoreSigner.sign_transaction_body, bind, lift, dict_getitem.
    simpl. rewrite Hfrom.
    by rewrite (get_signer_locked v' st a Hok Hin HL).
Qed.

(** C9. For a checksummed address, [lock_account] removes the cached
    signer when there is one and returns true; succeeds without a change
    when the address is known but not unlocked; fails with
    [UnknownAccount] when the address is neither in [__keys] nor in
    [__signers]; and whenever it returns, it returns true iff the address
    is absent from [__signers] afterwards. *)
Theorem lock_account_outcomes :
  forall (verified : gset string) (st : state) (a : string),
    is_checksum_address (PyStr a) = true ->
    exists verified',
      (Unlocked a st ->
         lock_account (PyStr a) (verified, st)
         = (Return true, (verified', mk_state (keys st) (delete a (signers st)))))
      /\ (Locked a st ->
            lock_account (PyStr a) (verified, st) = (Return true, (verified', st)))
      /\ (Unknown a st ->
            lock_account (PyStr a) (verified, st)
            = (Raise (Signer.UnknownAccount_ (PyStr a)), (verified', st)))
      /\ (forall b w',
            lock_account (PyStr a) (verified, st) = (Return b, w') ->
            (b = true <-> signers (snd w') !! a = None)).
Proof.
  intros verified st a Hok.
  unfold KeystoreSigner.lock_account.
  destruct (validated_account
              (KeystoreSigner.on_signer key_metadata LocalAccount
                 (KeystoreSigner.lock_account_body key_metadata LocalAccount (PyStr a)))
              verified st a [] Hok (Forall_nil_2 _))
    as (v' & -> & _ & _).
  exists v'.
  unfold KeystoreSigner.on_signer, KeystoreSigner.lock_account_body,
    dict_getitem. simpl.
  destruct (signers st !! a) as [signer |] eqn:Hs; simpl.
  - rewrite lookup_delete_eq.
    rewrite bool_decide_eq_false_2 by (intros [? ?]; discriminate). simpl.
    split; [done |]. split; [intros [_ ?]; congruence |].
    split; [intros [_ ?]; congruence |].
    intros b w' H. inversion H; subst; simpl.
    by rewrite lookup_delete_eq.
  - unfold KeystoreSigner.accounts. case_bool_decide as Hacc; simpl.
    + apply elem_of_map_keys in Hacc.
      split; [intros [? ?]; congruence |]. split; [done |].
      split; [intros [Hk _]; rewrite Hk in Hacc; by destruct Hacc |].
      intros b w' H. inversion H; subst; simpl. by rewrite Hs.
    + split; [intros [? ?]; congruence |].
      split; [intros [Hk _]; by apply elem_of_map_keys in Hk |].
      split; [done |]. intros b w' H. discriminate H.
Qed.

End KeystoreFacts.

Lemma lock_account_outcomes_witness :
  exists verified',
    KeystoreSigner.lock_account Demo.is_hex_address Demo.to_checksum_address
      string string (PyStr Demo.address_0) (∅, Demo.keystore)
    = (Return true, (verified', Demo.keystore)).
Proof.
  destruct (lock_account_outcomes Demo.is_hex_address Demo.to_checksum_address
              string string ∅ Demo.keystore Demo.address_0 eq_refl)
    as (verified' & _ & Hlocked & _).
  exists verified'. apply Hlocked.
  split; [exists "correct-pw" |]; reflexivity.
Defined.

(** C1 (the code departs from it). One key file for [address_0], nothing
    unlocked, and a password that [Account.decrypt] rejects with
    [ValueError]: [unlock_account] raises that [ValueError] instead of
    returning false. The account stays Locked and signing for it fails
    with [AccountLocked]. *)
Theorem unlock_account_wrong_password_raises :
  exists verified',
    KeystoreSigner.unlock_account Demo.is_hex_address Demo.to_checksum_address
      string string Demo.Account_decrypt Demo.Account_from_key
      (PyStr Demo.address_0) (PyStr "wrong-pw") PyNone (∅, Demo.keystore)
    = (Raise (mk_exn ValueError [Lit "MAC mismatch"]), (verified', Demo.keystore))
    /\ KeystoreSigner.Locked string string Demo.address_0 Demo.keystore
    /\ (forall message kwargs,
          KeystoreSigner.sign_message Demo.is_hex_address Demo.to_checksum_address
            string string Demo.LocalAccount_sign_message
            (PyStr Demo.address_0) message kwargs (verified', Demo.keystore)
          = (Raise (Signer.AccountLocked_ (PyStr Demo.address_0)),
             (verified', Demo.keystore)))
    /\ (forall transaction_dict,
          transaction_dict !! "from" = Some (PyStr Demo.address_0) ->
          KeystoreSigner.sign_transaction Demo.is_hex_address
            Demo.to_checksum_address string string
            Demo.LocalAccount_sign_transaction transaction_dict
            (verified', Demo.keystore)
          = (Raise (Signer.AccountLocked_ (PyStr Demo.address_0)),
             (verified', Demo.keystore))).
Proof.
  apply unlock_account_wrong_password.
  - reflexivity.
  - split; [exists "correct-pw" |]; reflexivity.
  - intros md Hmd. vm_compute in Hmd. by inversion Hmd.
Qed.

(** With the right password the same call unlocks the account. *)
Example unlock_account_right_password :
  fst (KeystoreSigner.unlock_account Demo.is_hex_address Demo.to_checksum_address
         string string Demo.Account_decrypt Demo.Account_from_key
         (PyStr Demo.address_0) (PyStr "correct-pw") PyNone (∅, Demo.keystore))
  = Return true.
Proof. reflexivity. Qed.

(* ===================================================================== *)
(** ** Facts about [ClefSigner]                                           *)
(* ===================================================================== *)

Section ClefFacts.

Import Decorators.

Variable is_hex_address : string -> bool.
Variable to_checksum_address : string -> string.
Variable request_blocking : string -> list pyval -> result pyval.
Variable Web3_toHex : pyval -> result pyval.
Variable Web3_toHex_bytes : list byte -> string.
Variable to_checksum_address_formatter : pyval -> result pyval.
Variable HexBytes : pyval -> result pyval.
Variable attribute_raw : pyval -> result pyval.
Variable NULL_ADDRESS : string.
Variable ipc_path : string.

#[local] Abbreviation ipc_request :=
  (ClefSigner.ipc_request request_blocking ipc_path).
#[local] Abbreviation accounts :=
  (ClefSigner.accounts request_blocking to_checksum_address_formatter ipc_path).
#[local] Abbreviation format_transaction :=
  (ClefSigner.format_transaction Web3_toHex to_checksum_address_formatter).
#[local] Abbreviation sign_transaction :=
  (ClefSigner.sign_transaction is_hex_address to_checksum_address
     request_blocking Web3_toHex to_checksum_address_formatter HexBytes
     attribute_raw ipc_path).
#[local] Abbreviation sign_message_body :=
  (ClefSigner.sign_message_body request_blocking Web3_toHex_bytes HexBytes
     NULL_ADDRESS ipc_path).
#[local] Abbreviation sign_message :=
  (ClefSigner.sign_message is_hex_address to_checksum_address
     request_blocking Web3_toHex_bytes HexBytes NULL_ADDRESS ipc_path).

#[local] Abbreviation translated := (ClefSigner.translated ipc_path).
#[local] Abbreviation sent := ClefSigner.sent.

Lemma ipc_request_unreachable endpoint request_args w e :
  request_blocking endpoint request_args = Raise e ->
  isinstance e FileNotFoundError || isinstance e ConnectionRefusedError = true ->
  ipc_request endpoint request_args w
  = (Raise (translated e), sent w endpoint request_args).
Proof.
  intros Hreq Hcls.
  unfold ClefSigner.ipc_request, try_except, bind, modify, lift, raise,
    ClefSigner.translated, ClefSigner.sent.
  rewrite Hreq.
  destruct (isinstance e FileNotFoundError); [done |].
  simpl in Hcls. by rewrite Hcls.
Qed.

Lemma translated_keeps_class e :
  isinstance e FileNotFoundError || isinstance e ConnectionRefusedError = true ->
  exn_cls (translated e) = exn_cls e
  /\ Val (PyStr ipc_path) ∈ exn_msg (translated e)
  /\ isinstance (translated e) OSError = true
  /\ isinstance (translated e) SignerError = false.
Proof.
  intros Hcls. unfold ClefSigner.translated.
  destruct e as [cls msg]. unfold isinstance in *. simpl exn_cls in *.
  destruct cls; try discriminate Hcls; vm_compute;
    (split; [reflexivity |]; split;
     [apply list_elem_of_further, list_elem_of_here | split; reflexivity]).
Qed.

(** The address arguments of [sign_message] pass the decorator when the
    account is checksummed and the validator address is absent or
    checksummed, in whichever order the call binds them. *)
Lemma sign_message_arguments_pass order verified a message content_type
    validator_address kwargs :
  Decorators.is_checksum_address is_hex_address to_checksum_address (PyStr a)
  = true ->
  is_None validator_address
  || Decorators.is_checksum_address is_hex_address to_checksum_address
       validator_address = true ->
  exists verified',
    Decorators.validate_addresses is_hex_address to_checksum_address verified
      (ClefSigner.sign_message_callargs order (PyStr a) message content_type
         validator_address kwargs)
    = (Return tt, verified').
Proof.
  intros Hacc Hva.
  assert (Haccount : forall v1, exists v2,
    Decorators.check_parameter is_hex_address to_checksum_address v1
      (mk_parameter "account" false (PyStr a))
    = (Return tt, v2)).
  { intros v1. unfold Decorators.check_parameter. simpl set_contains.
    simpl default_is_None. simpl value. rewrite Hacc. simpl andb.
    case_bool_decide; eauto. }
  assert (Hvalidator : forall v1, exists v2,
    Decorators.check_parameter is_hex_address to_checksum_address v1
      (mk_parameter "validator_address" true validator_address)
    = (Return tt, v2)).
  { intros v1. unfold Decorators.check_parameter. simpl value.
    simpl default_is_None.
    destruct validator_address; simpl in Hva |- *; try discriminate Hva;
      eauto.
    case_bool_decide; [eauto |]. simpl. rewrite Hva. eauto. }
  destruct order.
  - change (Decorators.validate_addresses is_hex_address to_checksum_address
              verified
              (ClefSigner.sign_message_callargs ClefSigner.AccountFirst
                 (PyStr a) message content_type validator_address kwargs))
      with (match Decorators.check_parameter is_hex_address to_checksum_address
                    verified (mk_parameter "account" false (PyStr a)) with
            | (Return _, v2) =>
                match Decorators.check_parameter is_hex_address
                        to_checksum_address v2
                        (mk_parameter "validator_address" true validator_address) with
                | (Return _, v3) => (Return tt, v3)
                | (Raise e, v3) => (Raise e, v3)
                end
            | (Raise e, v2) => (Raise e, v2)
            end).
    destruct (Haccount verified) as [v2 ->].
    destruct (Hvalidator v2) as [v3 ->]. eauto.
  - change (Decorators.validate_addresses is_hex_address to_checksum_address
              verified
              (ClefSigner.sign_message_callargs ClefSigner.ValidatorAddressFirst
                 (PyStr a) message content_type validator_address kwargs))
      with (match Decorators.check_parameter is_hex_address to_checksum_address
                    verified
                    (mk_parameter "validator_address" true validator_address) with
            | (Return _, v2) =>
                match Decorators.check_parameter is_hex_address
                        to_checksum_address v2
                        (mk_parameter "account" false (PyStr a)) with
                | (Return _, v3) => (Return tt, v3)
                | (Raise e, v3) => (Raise e, v3)
                end
            | (Raise e, v2) => (Raise e, v2)
            end).
    destruct (Hvalidator verified) as [v2 ->].
    destruct (Haccount v2) as [v3 ->]. eauto.
Qed.

(** C5 (amended). When the request to the daemon fails with
    [FileNotFoundError] or [ConnectionRefusedError], [__ipc_request] and
    with it [accounts], [sign_transaction] (once the transaction is
    formatted) and [sign_message] (for address arguments that pass the
    decorator, in whichever order the call binds them, and each content
    type that gets as far as the request: an absent or empty one,
    'text/plain', and 'data/validator' with a validator address) fail with
    an error of the same class, whose message is the one of
    [__ipc_request] and names the configured endpoint path; that class is
    an [OSError] and not a [SignerError]. *)
Theorem ipc_failure_keeps_io_class :
  forall (e : exn),
    isinstance e FileNotFoundError || isinstance e ConnectionRefusedError = true ->
    (forall endpoint request_args w,
       request_blocking endpoint request_args = Raise e ->
       ipc_request endpoint request_args w
       = (Raise (translated e), sent w endpoint request_args))
    /\ (forall w,
          request_blocking "account_list" [] = Raise e ->
          accounts w = (Raise (translated e), sent w "account_list" []))
    /\ (forall transaction_dict formatted w,
          format_transaction transaction_dict = Return formatted ->
          request_blocking "account_signTransaction"
            [PyDict (map_to_list formatted)] = Raise e ->
          sign_transaction transaction_dict w
          = (Raise (translated e),
             sent w "account_signTransaction" [PyDict (map_to_list formatted)]))
    /\ (forall order a message content_type validator_address kwargs w,
          Decorators.is_checksum_address is_hex_address to_checksum_address
            (PyStr a) = true ->
          is_None validator_address
          || Decorators.is_checksum_address is_hex_address to_checksum_address
               validator_address = true ->
          truthy content_type = false
          \/ content_type = PyStr ClefSigner.SIGN_DATA_FOR_ECRECOVER ->
          request_blocking "account_signData"
            [PyStr ClefSigner.DEFAULT_CONTENT_TYPE; PyStr a;
             ClefSigner.hex_message Web3_toHex_bytes message] = Raise e ->
          exists verified',
            sign_message order (PyStr a) message content_type
              validator_address kwargs w
            = (Raise (translated e),
               sent (verified', snd w) "account_signData"
                 [PyStr ClefSigner.DEFAULT_CONTENT_TYPE; PyStr a;
                  ClefSigner.hex_message Web3_toHex_bytes message]))
    /\ (forall order a message validator_address kwargs w,
          Decorators.is_checksum_address is_hex_address to_checksum_address
            (PyStr a) = true ->
          Decorators.is_checksum_address is_hex_address to_checksum_address
            validator_address = true ->
          truthy validator_address = true ->
          eq_str validator_address NULL_ADDRESS = false ->
          request_blocking "account_signData"
            [PyStr ClefSigner.SIGN_DATA_FOR_VALIDATOR; PyStr a;
             PyDict [("address", validator_address);
                     ("message", ClefSigner.hex_message Web3_toHex_bytes message)]]
          = Raise e ->
          exists verified',
            sign_message order (PyStr a) message
              (PyStr ClefSigner.SIGN_DATA_FOR_VALIDATOR) validator_address
              kwargs w
            = (Raise (translated e),
               sent (verified', snd w) "account_signData"
                 [PyStr ClefSigner.SIGN_DATA_FOR_VALIDATOR; PyStr a;
                  PyDict [("address", validator_address);
                          ("message",
                           ClefSigner.hex_message Web3_toHex_bytes message)]]))
    /\ exn_cls (translated e) = exn_cls e
    /\ Val (PyStr ipc_path) ∈ exn_msg (translated e)
    /\ isinstance (translated e) OSError = true
    /\ isinstance (translated e) SignerError = false.
Proof.
  intros e Hcls.
  assert (Hipc : forall endpoint request_args w,
    request_blocking endpoint request_args = Raise e ->
    ipc_request endpoint request_args w
    = (Raise (translated e), sent w endpoint request_args))
    by (intros; by apply ipc_request_unreachable).
  split; [exact Hipc |]. split; [| split; [| split; [| split]]].
  - intros w Hreq. unfold ClefSigner.accounts, bind. by rewrite Hipc.
  - intros transaction_dict formatted w Hfmt Hreq.
    unfold ClefSigner.sign_transaction, ClefSigner.validated,
      Decorators.validate_checksum_address. simpl.
    unfold ClefSigner.sign_transaction_body, bind, lift.
    rewrite Hfmt, Hipc by done. by destruct w.
  - intros order a message content_type validator_address kwargs w Hok Hva
      Hct Hreq.
    destruct (sign_message_arguments_pass order (fst w) a message content_type
                validator_address kwargs Hok Hva) as (v' & Hv).
    exists v'.
    unfold ClefSigner.sign_message, ClefSigner.validated,
      Decorators.validate_checksum_address.
    rewrite Hv.
    unfold ClefSigner.sign_message_body, bind, ret.
    destruct Hct as [Hct | ->].
    + rewrite Hct. simpl. by rewrite Hipc.
    + simpl. by rewrite Hipc.
  - intros order a message validator_address kwargs w Hok Hva Ht Hnull Hreq.
    assert (Hva' : is_None validator_address
                   || Decorators.is_checksum_address is_hex_address
                        to_checksum_address validator_address = true)
      by (rewrite Hva; apply orb_true_r).
    destruct (sign_message_arguments_pass order (fst w) a message
                (PyStr ClefSigner.SIGN_DATA_FOR_VALIDATOR) validator_address
                kwargs Hok Hva') as (v' & Hv).
    exists v'.
    unfold ClefSigner.sign_message, ClefSigner.validated,
      Decorators.validate_checksum_address.
    rewrite Hv.
    unfold ClefSigner.sign_message_body, bind, ret.
    simpl. rewrite Ht, Hnull. simpl. by rewrite Hipc.
  - by apply translated_keeps_class.
Qed.

(** C10 (amended). 'application/clique' is one of
    [SIGN_DATA_CONTENT_TYPES]; for every account, message and validator
    address the body of [sign_message] raises [NotImplementedError] with
    that content type and sends nothing; the decorated method, in whichever
    order the call binds its address arguments, never returns a signature
    and sends nothing either, and raises [NotImplementedError] whenever the
    address arguments pass the decorator: for a checksummed account and a
    validator address that is absent or checksummed. *)
Theorem clique_content_type_is_not_implemented :
  forall (order : ClefSigner.binding_order)
         (account message validator_address : pyval)
         (kwargs : list (string * pyval)) (w : ClefSigner.world),
    ClefSigner.SIGN_DATA_FOR_CLIQUE ∈ ClefSigner.SIGN_DATA_CONTENT_TYPES
    /\ sign_message_body account message
         (PyStr ClefSigner.SIGN_DATA_FOR_CLIQUE) validator_address w
       = (Raise (mk_exn NotImplementedError []), w)
    /\ is_raise (fst (sign_message order account message
                        (PyStr ClefSigner.SIGN_DATA_FOR_CLIQUE)
                        validator_address kwargs w)) = true
    /\ snd (snd (sign_message order account message
                   (PyStr ClefSigner.SIGN_DATA_FOR_CLIQUE)
                   validator_address kwargs w)) = snd w
    /\ (Decorators.is_checksum_address is_hex_address to_checksum_address
          account = true ->
        is_None validator_address
        || Decorators.is_checksum_address is_hex_address to_checksum_address
             validator_address = true ->
        fst (sign_message order account message
               (PyStr ClefSigner.SIGN_DATA_FOR_CLIQUE)
               validator_address kwargs w)
        = Raise (mk_exn NotImplementedError [])).
Proof.
  intros order account message validator_address kwargs w.
  assert (Hbody : forall w0,
    sign_message_body account message
      (PyStr ClefSigner.SIGN_DATA_FOR_CLIQUE) validator_address w0
    = (Raise (mk_exn NotImplementedError []), w0)) by reflexivity.
  split; [apply list_elem_of_further, list_elem_of_here |].
  split; [apply Hbody |].
  unfold ClefSigner.sign_message, ClefSigner.validated,
    Decorators.validate_checksum_address.
  destruct (Decorators.validate_addresses is_hex_address to_checksum_address
              (fst w) _) as [[u | e0] v1] eqn:Hval.
  - rewrite Hbody. simpl. repeat split; reflexivity.
  - simpl. split; [reflexivity |]. split; [reflexivity |].
    intros Hacc Hva. exfalso.
    destruct (is_checksum_address_str _ _ _ Hacc) as (a & -> & _).
    destruct (sign_message_arguments_pass order (fst w) a message
                (PyStr ClefSigner.SIGN_DATA_FOR_CLIQUE) validator_address
                kwargs Hacc Hva) as (v' & Hv).
    rewrite Hv in Hval. discriminate Hval.
Qed.

End ClefFacts.

(** C5, as stated, fails: with the socket file missing, [accounts] raises
    a [FileNotFoundError], which is an [OSError]; its message names the
    endpoint. *)
Lemma ipc_failure_is_an_io_error :
  ClefSigner.accounts Demo.no_socket Demo.to_checksum_address_formatter
    Demo.ipc_path (∅, [])
  = (Raise (mk_exn FileNotFoundError
              [Lit ("Clef IPC file not found. Is clef running and available at " +:+ dq);
               Val (PyStr Demo.ipc_path); Lit (dq +:+ "?")]),
     (∅, [("account_list", [])]))
  /\ issubclass FileNotFoundError OSError = true
  /\ issubclass FileNotFoundError SignerError = false
  /\ ~ ipc_failure_is_no_io_error Demo.no_socket Demo.ipc_path.
Proof.
  split; [reflexivity |]. split; [reflexivity |]. split; [reflexivity |].
  intros H.
  destruct (H "account_list" [] (∅, [])
              (mk_exn FileNotFoundError [Lit "[Errno 2] No such file or directory"])
              eq_refl eq_refl) as (e' & w' & Hrun & _ & Hno).
  vm_compute in Hrun. inversion Hrun; subst e'. discriminate Hno.
Qed.

Lemma ipc_failure_keeps_io_class_witness :
  ClefSigner.accounts Demo.no_socket Demo.to_checksum_address_formatter
    Demo.ipc_path (∅, [])
  = (Raise (ClefSigner.file_not_found_error Demo.ipc_path),
     ClefSigner.sent (∅, []) "account_list" []).
Proof.
  destruct (ipc_failure_keeps_io_class
              Demo.is_hex_address Demo.to_checksum_address Demo.no_socket
              Demo.Web3_toHex Demo.Web3_toHex_bytes
              Demo.to_checksum_address_formatter Demo.HexBytes
              Demo.attribute_raw Demo.NULL_ADDRESS Demo.ipc_path
              (mk_exn FileNotFoundError
                 [Lit "[Errno 2] No such file or directory"])
              eq_refl) as (_ & H & _).
  exact (H (∅, []) eq_refl).
Defined.

Lemma clique_content_type_is_not_implemented_witness :
  fst (ClefSigner.sign_message Demo.is_hex_address Demo.to_checksum_address
         Demo.clef_answer Demo.Web3_toHex_bytes Demo.HexBytes Demo.NULL_ADDRESS
         Demo.ipc_path ClefSigner.AccountFirst (PyStr Demo.address_0)
         (PyBytes [x01]) (PyStr ClefSigner.SIGN_DATA_FOR_CLIQUE) PyNone []
         (∅, []))
  = Raise (mk_exn NotImplementedError []).
Proof.
  apply (clique_content_type_is_not_implemented
           Demo.is_hex_address Demo.to_checksum_address Demo.clef_answer
           Demo.Web3_toHex_bytes Demo.HexBytes Demo.NULL_ADDRESS Demo.ipc_path
           ClefSigner.AccountFirst
           (PyStr Demo.address_0) (PyBytes [x01]) PyNone [] (∅, []));
    reflexivity.
Defined.

(** C10, as stated, fails: an account that is no checksum address is
    turned down by the decorator, with [InvalidChecksumAddress], before
    the body looks at the content type. Nothing is sent. *)
Lemma clique_call_with_invalid_account :
  ClefSigner.sign_message Demo.is_hex_address Demo.to_checksum_address
    Demo.clef_answer Demo.Web3_toHex_bytes Demo.HexBytes Demo.NULL_ADDRESS
    Demo.ipc_path ClefSigner.AccountFirst (PyStr "0xnot-an-address")
    (PyBytes [x01]) (PyStr ClefSigner.SIGN_DATA_FOR_CLIQUE) PyNone [] (∅, [])
  = (Raise (Decorators.invalid_checksum_error
              (Decorators.mk_parameter "account" false
                 (PyStr "0xnot-an-address"))),
     (∅, []))
  /\ isinstance (Decorators.invalid_checksum_error
                   (Decorators.mk_parameter "account" false
                      (PyStr "0xnot-an-address")))
       NotImplementedError = false
  /\ ~ clique_is_not_implemented_for_every_account
         Demo.is_hex_address Demo.to_checksum_address Demo.clef_answer
         Demo.Web3_toHex_bytes Demo.HexBytes Demo.NULL_ADDRESS Demo.ipc_path.
Proof.
  split; [reflexivity |]. split; [reflexivity |].
  intros H.
  specialize (H ClefSigner.AccountFirst (PyStr "0xnot-an-address")
                (PyBytes [x01]) (∅, [])).
  discriminate H.
Qed.

(** The order of the keyword arguments decides which argument is reported:
    with an invalid string for [account] and the integer 5 for
    [validator_address], the call fails for [account] when that is bound
    first, and with the type error for [validator_address] in a call that
    names [validator_address] first. *)
Example keyword_order_decides_the_error :
  fst (ClefSigner.sign_message Demo.is_hex_address Demo.to_checksum_address
         Demo.clef_answer Demo.Web3_toHex_bytes Demo.HexBytes Demo.NULL_ADDRESS
         Demo.ipc_path ClefSigner.AccountFirst (PyStr "0xnot-an-address")
         (PyBytes [x01]) PyNone (PyInt 5) [] (∅, []))
  = Raise (Decorators.invalid_checksum_error
             (Decorators.mk_parameter "account" false
                (PyStr "0xnot-an-address")))
  /\ fst (ClefSigner.sign_message Demo.is_hex_address Demo.to_checksum_address
            Demo.clef_answer Demo.Web3_toHex_bytes Demo.HexBytes
            Demo.NULL_ADDRESS Demo.ipc_path ClefSigner.ValidatorAddressFirst
            (PyStr "0xnot-an-address") (PyBytes [x01]) PyNone (PyInt 5) []
            (∅, []))
     = Raise (Decorators.invalid_type_error
                (Decorators.mk_parameter "validator_address" true (PyInt 5))).
Proof. split; reflexivity. Qed.

(** With the default content type the same call reaches the daemon. *)
Example plain_text_is_signed :
  ClefSigner.sign_message Demo.is_hex_address Demo.to_checksum_address
    Demo.clef_answer Demo.Web3_toHex_bytes Demo.HexBytes Demo.NULL_ADDRESS
    Demo.ipc_path ClefSigner.AccountFirst (PyStr Demo.address_0)
    (PyBytes [x01]) PyNone PyNone [] (∅, [])
  = (Return (PyBytes [x01]),
     ({[Demo.address_0]} ∪ ∅,
      [("account_signData",
        [PyStr "text/plain"; PyStr Demo.address_0; PyStr "0x"])])).
Proof. reflexivity. Qed.

(* ===================================================================== *)
(** ** Facts about [TrezorSigner]                                         *)
(* ===================================================================== *)

Section TrezorFacts.

Variable hd_path_for_index : Z -> list Z.
Variable ethereum_get_address : list Z -> bool -> result string.
Variable ethereum_sign_message : list Z -> pyval -> result (pyval * pyval).
Variable ethereum_sign_tx :
  list Z -> gmap string pyval -> result (pyval * pyval * pyval).
Variable assert_valid_fields : gmap string pyval -> result unit.
Variable Web3_toBytes_HexBytes : pyval -> result pyval.
Variable to_canonical_address : pyval -> result pyval.
Variable to_int : pyval -> result pyval.
Variable rlp_encode : gmap string pyval -> result pyval.

#[local] Abbreviation state := TrezorSigner.state.
#[local] Abbreviation handle_device_call := TrezorSigner.handle_device_call.
#[local] Abbreviation get_address_path :=
  (TrezorSigner.get_address_path hd_path_for_index).
#[local] Abbreviation get_address_body :=
  (TrezorSigner.get_address_body hd_path_for_index ethereum_get_address).
#[local] Abbreviation get_address :=
  (TrezorSigner.get_address hd_path_for_index ethereum_get_address).
#[local] Abbreviation sign_message_body :=
  (TrezorSigner.sign_message_body hd_path_for_index ethereum_sign_message).
#[local] Abbreviation sign_message :=
  (TrezorSigner.sign_message hd_path_for_index ethereum_sign_message).
#[local] Abbreviation sign_transaction_body :=
  (TrezorSigner.sign_transaction_body hd_path_for_index ethereum_sign_tx
     assert_valid_fields Web3_toBytes_HexBytes to_canonical_address to_int
     rlp_encode).
#[local] Abbreviation sign_transaction :=
  (TrezorSigner.sign_transaction hd_path_for_index ethereum_sign_tx
     assert_valid_fields Web3_toBytes_HexBytes to_canonical_address to_int
     rlp_encode).

Lemma handle_device_call_return {A} (device_func : M state A) st a st' :
  device_func st = (Return a, st') ->
  handle_device_call device_func st = (Return a, st').
Proof.
  intros H. unfold TrezorSigner.handle_device_call, try_except. by rewrite H.
Qed.

Lemma handle_device_call_no_device {A} (device_func : M state A) st e st' :
  device_func st = (Raise e, st') ->
  isinstance e USBErrorNoDevice = true ->
  handle_device_call device_func st
  = (Raise (mk_exn NoDeviceDetected
              [Lit "The client cannot communicate to the TREZOR USB device. Was it disconnected?"]),
     st').
Proof.
  intros H Hc. unfold TrezorSigner.handle_device_call, try_except.
  by rewrite H, Hc.
Qed.

Lemma handle_device_call_busy {A} (device_func : M state A) st e st' :
  device_func st = (Raise e, st') ->
  isinstance e USBErrorNoDevice = false ->
  isinstance e USBErrorBusy = true ->
  handle_device_call device_func st
  = (Raise (TrezorSigner.no_attribute "DeviceError"), st').
Proof.
  intros H Hc Hb. unfold TrezorSigner.handle_device_call, try_except.
  by rewrite H, Hc, Hb.
Qed.

Lemma handle_device_call_other {A} (device_func : M state A) st e st' :
  device_func st = (Raise e, st') ->
  isinstance e USBErrorNoDevice = false ->
  isinstance e USBErrorBusy = false ->
  handle_device_call device_func st = (Raise e, st').
Proof.
  intros H Hc Hb. unfold TrezorSigner.handle_device_call, try_except.
  by rewrite H, Hc, Hb.
Qed.

(** A failure stays a failure, in the same state. *)
Lemma handle_device_call_raise {A} (device_func : M state A) st e st' :
  device_func st = (Raise e, st') ->
  exists e', handle_device_call device_func st = (Raise e', st').
Proof.
  intros H.
  destruct (isinstance e USBErrorNoDevice) eqn:Hc;
    [| destruct (isinstance e USBErrorBusy) eqn:Hb].
  - eexists. by apply handle_device_call_no_device with e.
  - eexists. by apply handle_device_call_busy with e.
  - eexists. by apply handle_device_call_other.
Qed.

Lemma handle_device_call_translates {A} (device_func : M state A) st e st' :
  device_func st = (Raise e, st') ->
  TrezorSigner.translates e st' (handle_device_call device_func st).
Proof.
  intros H. split.
  - by apply handle_device_call_no_device.
  - by apply handle_device_call_other.
Qed.

(** C4 (amended). For each of the three device calls: when the body of
    the call fails with a USB no-device error, the call fails with
    [NoDeviceDetected], which is a [RuntimeError] and no [SignerError];
    when the body fails with an error that is neither a USB no-device
    nor a USB busy error, that very error reaches the caller, transport
    errors included. *)
Theorem device_call_error_translation :
  forall (index : option Z) (hd_path : option (list Z)) (show_display : bool)
         (message checksum_address : pyval)
         (transaction_dict : gmap string pyval) (rlp_encoded : bool)
         (st st' : state) (e : exn),
    (get_address_body index hd_path show_display st = (Raise e, st') ->
     TrezorSigner.translates e st' (get_address index hd_path show_display st))
    /\ (sign_message_body message checksum_address st = (Raise e, st') ->
        TrezorSigner.translates e st' (sign_message message checksum_address st))
    /\ (sign_transaction_body transaction_dict rlp_encoded st = (Raise e, st') ->
        TrezorSigner.translates e st'
          (sign_transaction transaction_dict rlp_encoded st))
    /\ issubclass NoDeviceDetected RuntimeError = true
    /\ issubclass NoDeviceDetected SignerError = false.
Proof.
  intros.
  split; [intros; by apply handle_device_call_translates |].
  split; [intros; by apply handle_device_call_translates |].
  split; [intros; by apply handle_device_call_translates |].
  split; reflexivity.
Qed.

End TrezorFacts.

Section TrezorAddressFacts.

Variable hd_path_for_index : Z -> list Z.
Variable ethereum_get_address : list Z -> bool -> result string.
Variable ethereum_sign_message : list Z -> pyval -> result (pyval * pyval).
Variable ethereum_sign_tx :
  list Z -> gmap string pyval -> result (pyval * pyval * pyval).
Variable assert_valid_fields : gmap string pyval -> result unit.
Variable Web3_toBytes_HexBytes : pyval -> result pyval.
Variable to_canonical_address : pyval -> result pyval.
Variable to_int : pyval -> result pyval.
Variable rlp_encode : gmap string pyval -> result pyval.

#[local] Abbreviation state := TrezorSigner.state.
#[local] Abbreviation get_address_path :=
  (TrezorSigner.get_address_path hd_path_for_index).
#[local] Abbreviation get_address :=
  (TrezorSigner.get_address hd_path_for_index ethereum_get_address).
#[local] Abbreviation sign_message :=
  (TrezorSigner.sign_message hd_path_for_index ethereum_sign_message).
#[local] Abbreviation sign_transaction_body :=
  (TrezorSigner.sign_transaction_body hd_path_for_index ethereum_sign_tx
     assert_valid_fields Web3_toBytes_HexBytes to_canonical_address to_int
     rlp_encode).
#[local] Abbreviation sign_transaction :=
  (TrezorSigner.sign_transaction hd_path_for_index ethereum_sign_tx
     assert_valid_fields Web3_toBytes_HexBytes to_canonical_address to_int
     rlp_encode).

#[local] Abbreviation not_cached := TrezorSigner.not_cached.

Lemma get_address_path_not_cached st checksum_address :
  dict_get (TrezorSigner.addresses st) checksum_address = Return None ->
  get_address_path None checksum_address st = Raise (not_cached checksum_address).
Proof.
  intros H. unfold TrezorSigner.get_address_path, dict_getitem. by rewrite H.
Qed.

(** Without a cached path for the sender, [sign_transaction] stops
    before the device is asked. *)
Lemma sign_transaction_body_not_cached st transaction_dict rlp_encoded sender :
  transaction_dict !! "from" = Some sender ->
  dict_get (TrezorSigner.addresses st) sender = Return None ->
  exists e, sign_transaction_body transaction_dict rlp_encoded st = (Raise e, st).
Proof.
  intros Hfrom Hc.
  unfold TrezorSigner.sign_transaction_body, bind, lift, dict_getitem.
  simpl dict_get. rewrite Hfrom.
  destruct (assert_valid_fields _); [| eauto].
  destruct (TrezorSigner.apply_key_map _ _); [| eauto].
  match goal with
  | |- context [match (if ?c then ?x else ?y) with _ => _ end] =>
      destruct (if c then x else y) as [[t d] | e0]; [| eauto]
  end.
  rewrite (get_address_path_not_cached _ _ Hc). eauto.
Qed.

(** C6 (amended). [get_address_path] with both an index and a checksum
    address is a usage error. [get_address] with both an index and a
    non-empty HD path is none: the index is ignored and the device is
    asked for the address of the path. [get_address] with neither is a
    usage error. Resolving an address that is not in the cache fails with
    the path-not-cached [RuntimeError] in [get_address_path] and in
    [sign_message], and fails in [sign_transaction], each time before
    any call to the device. *)
Theorem address_resolution_errors :
  forall (st : state),
    (forall index checksum_address,
       truthy checksum_address = true ->
       get_address_path (Some index) checksum_address st
       = Raise (mk_exn ValueError
                  [Lit "Expected index or checksum address; Got both."]))
    /\ (forall index n hd_path show_display,
          get_address (Some index) (Some (n :: hd_path)) show_display st
          = get_address None (Some (n :: hd_path)) show_display st
          /\ TrezorSigner.device_calls
               (snd (get_address (Some index) (Some (n :: hd_path))
                       show_display st))
             = TrezorSigner.device_calls st
               ++ [TrezorSigner.GetAddress (n :: hd_path) show_display]
          /\ (forall address,
                ethereum_get_address (n :: hd_path) show_display = Return address ->
                fst (get_address (Some index) (Some (n :: hd_path))
                       show_display st) = Return address))
    /\ (forall show_display,
          get_address None None show_display st
          = (Raise (mk_exn ValueError [Lit "No index or HD path supplied."]), st))
    /\ (forall checksum_address,
          dict_get (TrezorSigner.addresses st) checksum_address = Return None ->
          get_address_path None checksum_address st
          = Raise (not_cached checksum_address)
          /\ (forall message,
                sign_message message checksum_address st
                = (Raise (not_cached checksum_address), st))
          /\ (forall transaction_dict rlp_encoded,
                transaction_dict !! "from" = Some checksum_address ->
                exists e,
                  sign_transaction transaction_dict rlp_encoded st
                  = (Raise e, st))).
Proof.
  intros st. split; [| split; [| split]].
  - intros index checksum_address Ht.
    unfold TrezorSigner.get_address_path. by rewrite Ht.
  - intros index n hd_path show_display.
    split; [reflexivity |].
    unfold TrezorSigner.get_address, TrezorSigner.handle_device_call,
      try_except, TrezorSigner.get_address_body, bind, ret,
      TrezorSigner.issue, modify, lift.
    split.
    + destruct (ethereum_get_address (n :: hd_path) show_display) as [a | e];
        [reflexivity |].
      destruct (isinstance e USBErrorNoDevice); [reflexivity |].
      destruct (isinstance e USBErrorBusy); reflexivity.
    + intros address Ha. by rewrite Ha.
  - intros show_display. reflexivity.
  - intros checksum_address Hc.
    split; [by apply get_address_path_not_cached |]. split.
    + intros message.
      unfold TrezorSigner.sign_message, TrezorSigner.handle_device_call,
        try_except, TrezorSigner.sign_message_body, bind.
      by rewrite (get_address_path_not_cached _ _ Hc).
    + intros transaction_dict rlp_encoded Hfrom.
      destruct (sign_transaction_body_not_cached st transaction_dict
                  rlp_encoded checksum_address Hfrom Hc) as [e He].
      unfold TrezorSigner.sign_transaction.
      by apply handle_device_call_raise with e.
Qed.

End TrezorAddressFacts.

Section TrezorTransactionFacts.

Variable hd_path_for_index : Z -> list Z.
Variable ethereum_sign_tx :
  list Z -> gmap string pyval -> result (pyval * pyval * pyval).
Variable assert_valid_fields : gmap string pyval -> result unit.
Variable Web3_toBytes_HexBytes : pyval -> result pyval.
Variable to_canonical_address : pyval -> result pyval.
Variable to_int : pyval -> result pyval.
Variable rlp_encode : gmap string pyval -> result pyval.

#[local] Abbreviation sign_transaction_body :=
  (TrezorSigner.sign_transaction_body hd_path_for_index ethereum_sign_tx
     assert_valid_fields Web3_toBytes_HexBytes to_canonical_address to_int
     rlp_encode).
#[local] Abbreviation sign_transaction :=
  (TrezorSigner.sign_transaction hd_path_for_index ethereum_sign_tx
     assert_valid_fields Web3_toBytes_HexBytes to_canonical_address to_int
     rlp_encode).

Lemma Transaction_fields_of v r s kwargs signed :
  TrezorSigner.Transaction v r s kwargs = Return signed ->
  signed = <["v" := v]> (<["r" := r]> (<["s" := s]> kwargs)).
Proof.
  unfold TrezorSigner.Transaction.
  case_bool_decide; [discriminate |].
  case_bool_decide; [| discriminate].
  by intros [= <-].
Qed.

(** Whatever the transaction that [sign_transaction] accepts, the
    [Transaction] it builds has the canonical address of the sender as
    its recipient, and no chainId. *)
Lemma sign_transaction_body_fields transaction_dict st signed st' :
  sign_transaction_body transaction_dict false st
  = (Return (TrezorSigner.TransactionObject signed), st') ->
  exists sender to,
    transaction_dict !! "from" = Some sender
    /\ to_canonical_address sender = Return to
    /\ signed !! "to" = Some to
    /\ signed !! "chainId" = None.
Proof.
  unfold TrezorSigner.sign_transaction_body, bind, lift, ret, dict_getitem.
  simpl dict_get. intros H.
  destruct (transaction_dict !! "from") as [sender |] eqn:Hfrom;
    [| discriminate H].
  exists sender.
  destruct (assert_valid_fields _); [| discriminate H].
  destruct (TrezorSigner.apply_key_map _ _); [| discriminate H].
  match type of H with
  | context [match (if ?c then ?x else ?y) with _ => _ end] =>
      destruct (if c then x else y) as [[t d] | e0]; [| discriminate H]
  end.
  cbn [fst snd] in H.
  destruct (TrezorSigner.get_address_path _ _ _ _); [| discriminate H].
  unfold TrezorSigner.issue, modify in H.
  destruct (ethereum_sign_tx _ _) as [[[v r] s] |]; [| discriminate H].
  cbn [fst snd dict_get] in H.
  destruct (d !! "chainId"); [| discriminate H].
  destruct (to_canonical_address sender) as [to |]; [| discriminate H].
  exists to.
  destruct (to_int v) as [v' |]; [| discriminate H].
  destruct (to_int r) as [r' |]; [| discriminate H].
  destruct (to_int s) as [s' |]; [| discriminate H].
  destruct (TrezorSigner.Transaction _ _ _ _) as [signed0 |] eqn:Htx;
    [| discriminate H].
  apply Transaction_fields_of in Htx.
  inversion H; subst.
  repeat split; try reflexivity; by simplify_map_eq.
Qed.

End TrezorTransactionFacts.

(** C2 (the code departs from it). A contract creation, with an empty
    'to', signed on the Trezor: the [Transaction] that is serialized has
    the twenty bytes of the sender's address as its recipient. *)
Theorem trezor_contract_creation_has_recipient :
  Demo.creation !! "to" = Some (PyBytes [])
  /\ Demo.creation !! "from" = Some (PyStr Demo.address_0)
  /\ TrezorSigner.field "to"
       (fst (TrezorSigner.sign_transaction Demo.hd_path_for_index
               Demo.ethereum_sign_tx Demo.assert_valid_fields
               Demo.Web3_toBytes_HexBytes Demo.to_canonical_address
               Demo.to_int Demo.rlp_encode Demo.creation false Demo.trezor))
     = Some (PyBytes [x10; x00; x00; x00; x00; x00; x00; x00; x00; x00;
                      x00; x00; x00; x00; x00; x00; x00; x00; x00; x00])
  /\ Demo.to_canonical_address (PyStr Demo.address_0)
     = Return (PyBytes [x10; x00; x00; x00; x00; x00; x00; x00; x00; x00;
                        x00; x00; x00; x00; x00; x00; x00; x00; x00; x00]).
Proof. repeat split; vm_compute; reflexivity. Qed.

(** The keystore signer hands the same creation to the [LocalAccount]
    without a 'to' key. *)
Example keystore_contract_creation_has_no_recipient :
  fst (KeystoreSigner.sign_transaction Demo.is_hex_address
         Demo.to_checksum_address string string
         Demo.LocalAccount_sign_transaction Demo.creation
         (∅, KeystoreSigner.mk_state string string
               {[Demo.address_0 := "correct-pw"]}
               {[Demo.address_0 := "local account"]}))
  = Return (PyDict (map_to_list (delete "to" Demo.creation))).
Proof. vm_compute. reflexivity. Qed.

(** The Clef signer sends it with 'to' set to [None]. *)
Example clef_contract_creation_has_null_recipient :
  match ClefSigner.format_transaction Demo.Web3_toHex
          Demo.to_checksum_address_formatter Demo.creation with
  | Return formatted => formatted !! "to"
  | Raise _ => None
  end = Some PyNone.
Proof. vm_compute. reflexivity. Qed.

(** C3 (the code departs from it). A transfer from [address_0] to
    [address_9] signed on the Trezor: the recipient of the [Transaction]
    that is serialized is the canonical address of [address_0], the
    sender, and not that of [address_9]; it has no chainId. *)
Theorem trezor_recipient_is_sender :
  Demo.transfer !! "from" = Some (PyStr Demo.address_0)
  /\ Demo.transfer !! "to" = Some (PyStr Demo.address_9)
  /\ TrezorSigner.field "to"
       (fst (TrezorSigner.sign_transaction Demo.hd_path_for_index
               Demo.ethereum_sign_tx Demo.assert_valid_fields
               Demo.Web3_toBytes_HexBytes Demo.to_canonical_address
               Demo.to_int Demo.rlp_encode Demo.transfer false Demo.trezor))
     = Some (PyBytes [x10; x00; x00; x00; x00; x00; x00; x00; x00; x00;
                      x00; x00; x00; x00; x00; x00; x00; x00; x00; x00])
  /\ Demo.to_canonical_address (PyStr Demo.address_9)
     = Return (PyBytes [x90; x00; x00; x00; x00; x00; x00; x00; x00; x00;
                        x00; x00; x00; x00; x00; x00; x00; x00; x00; x09])
  /\ TrezorSigner.field "chainId"
       (fst (TrezorSigner.sign_transaction Demo.hd_path_for_index
               Demo.ethereum_sign_tx Demo.assert_valid_fields
               Demo.Web3_toBytes_HexBytes Demo.to_canonical_address
               Demo.to_int Demo.rlp_encode Demo.transfer false Demo.trezor))
     = None
  /\ is_raise
       (fst (TrezorSigner.sign_transaction Demo.hd_path_for_index
               Demo.ethereum_sign_tx Demo.assert_valid_fields
               Demo.Web3_toBytes_HexBytes Demo.to_canonical_address
               Demo.to_int Demo.rlp_encode Demo.transfer false Demo.trezor))
     = false.
Proof. repeat split; vm_compute; reflexivity. Qed.

(** C4, as stated, fails: a USB I/O error of the device reaches the caller
    of [get_address] as it is. *)
Lemma transport_error_reaches_caller :
  TrezorSigner.get_address Demo.hd_path_for_index
    (fun _ _ => Demo.io_failure) (Some 0%Z) None true Demo.trezor
  = (Raise (mk_exn USBErrorIO [Lit "LIBUSB_ERROR_IO [-1]"]),
     TrezorSigner.mk_state (TrezorSigner.addresses Demo.trezor)
       [TrezorSigner.GetAddress (Demo.hd_path_for_index 0) true])
  /\ issubclass USBErrorIO USBError = true
  /\ issubclass USBErrorIO SignerError = false
  /\ ~ device_failure_is_no_transport_error Demo.hd_path_for_index
         (fun _ _ => Demo.io_failure).
Proof.
  split; [reflexivity |]. split; [reflexivity |]. split; [reflexivity |].
  intros H.
  destruct (H (Some 0%Z) None true Demo.trezor _ _ eq_refl) as [Hn _].
  discriminate Hn.
Qed.

(** A busy device: the handler looks up [DeviceError], which neither
    [TrezorSigner] nor [Signer] defines. *)
Example busy_device_raises_attribute_error :
  fst (TrezorSigner.get_address Demo.hd_path_for_index
         (fun _ _ => Demo.busy) (Some 0%Z) None true Demo.trezor)
  = Raise (mk_exn AttributeError
             [Lit "'TrezorSigner' object has no attribute '";
              Lit "DeviceError"; Lit "'"]).
Proof. reflexivity. Qed.

Lemma device_call_error_translation_witness :
  TrezorSigner.get_address Demo.hd_path_for_index
    (fun _ _ => Demo.unplugged) (Some 0%Z) None true Demo.trezor
  = (Raise TrezorSigner.no_device_detected,
     TrezorSigner.mk_state (TrezorSigner.addresses Demo.trezor)
       [TrezorSigner.GetAddress (Demo.hd_path_for_index 0) true]).
Proof.
  apply (device_call_error_translation Demo.hd_path_for_index
           (fun _ _ => Demo.unplugged) Demo.ethereum_sign_message
           Demo.ethereum_sign_tx Demo.assert_valid_fields
           Demo.Web3_toBytes_HexBytes Demo.to_canonical_address Demo.to_int
           Demo.rlp_encode (Some 0%Z) None true PyNone PyNone ∅ false
           Demo.trezor
           (TrezorSigner.mk_state (TrezorSigner.addresses Demo.trezor)
              [TrezorSigner.GetAddress (Demo.hd_path_for_index 0) true])
           (mk_exn USBErrorNoDevice [])); reflexivity.
Defined.

(** C6, as stated, fails: [get_address] with an index and an HD path asks
    the device for the address of the path and returns it. *)
Lemma get_address_accepts_index_with_path :
  TrezorSigner.get_address Demo.hd_path_for_index Demo.ethereum_get_address
    (Some 0%Z) (Some (Demo.hd_path_for_index 1)) true Demo.trezor
  = (Return Demo.address_1,
     TrezorSigner.mk_state (TrezorSigner.addresses Demo.trezor)
       [TrezorSigner.GetAddress (Demo.hd_path_for_index 1) true])
  /\ ~ get_address_rejects_index_with_path Demo.hd_path_for_index
         Demo.ethereum_get_address.
Proof.
  split; [reflexivity |].
  intros H.
  destruct (H 0%Z (44 + 2147483648)%Z
              [60 + 2147483648; 2147483648; 0; 1]%Z true Demo.trezor)
    as (e & st' & Hrun & _).
  discriminate Hrun.
Qed.

Lemma address_resolution_errors_witness :
  TrezorSigner.sign_message Demo.hd_path_for_index Demo.ethereum_sign_message
    (PyBytes [x01]) (PyStr Demo.address_9) Demo.trezor
  = (Raise (TrezorSigner.not_cached (PyStr Demo.address_9)), Demo.trezor).
Proof.
  apply (address_resolution_errors Demo.hd_path_for_index
           Demo.ethereum_get_address Demo.ethereum_sign_message
           Demo.ethereum_sign_tx Demo.assert_valid_fields
           Demo.Web3_toBytes_HexBytes Demo.to_canonical_address Demo.to_int
           Demo.rlp_encode Demo.trezor).
  reflexivity.
Defined.

(** The same address as the sender of a transaction: the path-not-cached
    error, and no call to the device. *)
Example sign_transaction_sender_not_cached :
  TrezorSigner.sign_transaction Demo.hd_path_for_index Demo.ethereum_sign_tx
    Demo.assert_valid_fields Demo.Web3_toBytes_HexBytes
    Demo.to_canonical_address Demo.to_int Demo.rlp_encode
    (<["from" := PyStr Demo.address_9]> Demo.transfer) true Demo.trezor
  = (Raise (TrezorSigner.not_cached (PyStr Demo.address_9)), Demo.trezor).
Proof. vm_compute. reflexivity. Qed.

(* ===================================================================== *)
(** ** More about [validate_checksum_address]                             *)
(* ===================================================================== *)

Section ValidatorMore.

Import Decorators.

Variable is_hex_address : string -> bool.
Variable to_checksum_address : string -> string.

#[local] Abbreviation is_checksum_address :=
  (Decorators.is_checksum_address is_hex_address to_checksum_address).
#[local] Abbreviation check_parameter :=
  (Decorators.check_parameter is_hex_address to_checksum_address).
#[local] Abbreviation validate_addresses :=
  (Decorators.validate_addresses is_hex_address to_checksum_address).
#[local] Abbreviation validate_checksum_address :=
  (Decorators.validate_checksum_address is_hex_address to_checksum_address).

(** What one check adds to the set is the value it checked, and that value
    is a checksum address. *)
Lemma check_parameter_added verified p s :
  s ∈ snd (check_parameter verified p) ->
  s ∈ verified \/ (value p = PyStr s /\ is_checksum_address (PyStr s) = true).
Proof.
  unfold Decorators.check_parameter.
  destruct (set_contains verified (value p)) as [[|]|]; simpl; auto.
  destruct (default_is_None p && is_None (value p)); simpl; auto.
  destruct (is_checksum_address (value p)) eqn:E; simpl.
  - destruct (is_checksum_address_str _ _ _ E) as (a & Ha & _).
    rewrite Ha in *. simpl. intros Hin.
    apply elem_of_union in Hin as [Hin | Hin]; [| by left].
    apply elem_of_singleton in Hin. subst a. by right.
  - destruct (negb (is_str (value p))); simpl; auto.
Qed.

(** A parameter is acceptable: its name is no address name, or its value
    is in the set, or it is an absent optional value, or it is a checksum
    address. *)
Lemma check_parameter_passes verified p :
  fst (check_parameter verified p) = Return tt
  <-> ((exists s, value p = PyStr s /\ s ∈ verified)
       \/ (default_is_None p = true /\ value p = PyNone)
       \/ is_checksum_address (value p) = true).
Proof.
  unfold Decorators.check_parameter. split.
  - destruct (value p) as [| b | z | s | bs | xs | kvs | c] eqn:Ev; simpl;
      try (destruct (default_is_None p); simpl; intros H;
           first [discriminate H | by right; left]).
    case_bool_decide as Hin; simpl; [intros _; left; eauto |].
    rewrite andb_false_r.
    destruct (is_hex_address s && String.eqb s (to_checksum_address s));
      simpl; [intros _; by right; right | discriminate].
  - intros [(s & Ev & Hin) | [[Hd Ev] | Hc]].
    + rewrite Ev. simpl. by rewrite bool_decide_eq_true_2.
    + rewrite Ev, Hd. reflexivity.
    + destruct (is_checksum_address_str _ _ _ Hc) as (s & Ev & _).
      rewrite Ev in *. simpl. case_bool_decide; [reflexivity |].
      rewrite andb_false_r. simpl in Hc. by rewrite Hc.
Qed.

Lemma check_parameter_unit verified p u verified' :
  check_parameter verified p = (Return u, verified') ->
  fst (check_parameter verified p) = Return tt.
Proof. intros ->. by destruct u. Qed.

(** X1. A wrapped call passes the validation iff every address-named
    argument is already in the set of verified addresses, or is an absent
    optional value, or is a checksum address. *)
Theorem validation_passes_iff :
  forall (params : list parameter) (verified : gset string),
    fst (validate_addresses verified params) = Return tt
    <-> Forall (fun p =>
                  is_address_parameter (name p) = true ->
                  (exists s, value p = PyStr s /\ s ∈ verified)
                  \/ (default_is_None p = true /\ value p = PyNone)
                  \/ is_checksum_address (value p) = true) params.
Proof.
  induction params as [| p rest IH]; intros verified; simpl.
  - split; [constructor | reflexivity].
  - destruct (is_address_parameter (name p)) eqn:Ha.
    + pose proof (check_parameter_passes verified p) as Hp.
      pose proof (check_parameter_mono is_hex_address to_checksum_address
                    verified p) as Hmono.
      pose proof (fun s => check_parameter_added verified p s) as Hadd.
      destruct (check_parameter verified p) as [[[] | e] v1]; simpl in *.
      * rewrite IH. split.
        -- intros Hrest. constructor; [intros _; by apply Hp |].
           eapply Forall_impl; [exact Hrest |].
           intros q Hq Hqa. destruct (Hq Hqa) as [(s & Ev & Hin) | Hq']; [| auto].
           destruct (Hadd s Hin) as [Hin' | [_ Hc]]; [left; eauto |].
           right; right. by rewrite Ev.
        -- intros Hall. apply Forall_cons in Hall as [_ Hrest].
           eapply Forall_impl; [exact Hrest |].
           intros q Hq Hqa. destruct (Hq Hqa) as [(s & Ev & Hin) | Hq']; [| auto].
           left. exists s. split; [done |]. by apply Hmono.
      * split; [discriminate |].
        intros Hall. apply Forall_cons in Hall as [Hhead _].
        specialize (Hhead Ha). apply Hp in Hhead. discriminate Hhead.
    + rewrite IH. split.
      * intros Hrest. constructor; [intros Hf; congruence | done].
      * intros Hall. by apply Forall_cons in Hall as [_ Hrest].
Qed.

(** X2. Whatever the outcome of the validation, the set of verified
    addresses only grows, and every string it gains is the value of an
    address-named argument of the call and a checksum address. *)
Theorem verified_set_only_gains_checksum_addresses :
  forall (params : list parameter) (verified : gset string),
    verified ⊆ snd (validate_addresses verified params)
    /\ forall s,
         s ∈ snd (validate_addresses verified params) ->
         s ∈ verified
         \/ (is_checksum_address (PyStr s) = true
             /\ exists p, p ∈ params
                          /\ is_address_parameter (name p) = true
                          /\ value p = PyStr s).
Proof.
  intros params verified. split; [apply validate_addresses_mono |].
  revert verified.
  induction params as [| p rest IH]; intros verified s; simpl; [auto |].
  destruct (is_address_parameter (name p)) eqn:Ha.
  - pose proof (check_parameter_added verified p) as Hadd.
    destruct (check_parameter verified p) as [[u | e] v1]; simpl in *.
    + intros Hin. destruct (IH v1 s Hin) as [Hv1 | (Hc & q & Hq & Hqa & Hqv)].
      * destruct (Hadd s Hv1) as [Hv | [Ev Hc]]; [by left |].
        right. split; [done |]. exists p. split; [apply list_elem_of_here | done].
      * right. split; [done |]. exists q.
        split; [by apply list_elem_of_further | done].
    + intros Hin. destruct (Hadd s Hin) as [Hv | [Ev Hc]]; [by left |].
      right. split; [done |]. exists p. split; [apply list_elem_of_here | done].
  - intros Hin. destruct (IH verified s Hin) as [Hv | (Hc & q & Hq & Hqa & Hqv)];
      [by left |].
    right. split; [done |]. exists q. split; [by apply list_elem_of_further | done].
Qed.

(** X3. A string that is neither in the set of verified addresses nor a
    checksum address, in an address-named argument whose predecessors
    pass: the call fails with [InvalidChecksumAddress], whose message
    quotes the string; the wrapped operation does not run and the set
    gains nothing from that argument. *)
Theorem invalid_string_address_is_rejected :
  forall (verified verified' : gset string) (pre post : list parameter)
         (p : parameter) (s : string),
    is_address_parameter (name p) = true ->
    value p = PyStr s ->
    validate_addresses verified pre = (Return tt, verified') ->
    s ∉ verified' ->
    is_checksum_address (PyStr s) = false ->
    forall (St A : Type) (func : M (gset string * St) A) (st : St),
      validate_checksum_address func (pre ++ p :: post) (verified, st)
      = (Raise (mk_exn InvalidChecksumAddress
                  [Lit dq; Val (PyStr s);
                   Lit (dq +:+ " is not a valid EIP-55 checksum address.")]),
         (verified', st)).
Proof.
  intros verified verified' pre post p s Ha Ev Hpre Hnin Hc St A func st.
  unfold Decorators.validate_checksum_address. simpl fst. simpl snd.
  rewrite validate_addresses_app, Hpre. simpl. rewrite Ha.
  unfold Decorators.check_parameter, invalid_checksum_error.
  rewrite Ev. simpl. rewrite bool_decide_eq_false_2 by done.
  rewrite andb_false_r. simpl in Hc. rewrite Hc. reflexivity.
Qed.

(** X4. Only the address-named arguments count: the validation of a call
    is the validation of its address-named arguments alone, whatever the
    other arguments hold. *)
Theorem other_arguments_are_not_inspected :
  forall (params : list parameter) (verified : gset string),
    validate_addresses verified params
    = validate_addresses verified
        (filter (fun p => is_address_parameter (name p) = true) params).
Proof.
  induction params as [| p rest IH]; intros verified; [reflexivity |].
  rewrite filter_cons. simpl.
  destruct (is_address_parameter (name p)) eqn:Ha.
  - rewrite decide_True by done. simpl. rewrite Ha.
    destruct (check_parameter verified p) as [[u | e] v1]; [apply IH | done].
  - rewrite decide_False by congruence. apply IH.
Qed.

End ValidatorMore.

Lemma invalid_string_address_is_rejected_witness :
  Decorators.validate_checksum_address (St := unit)
    Demo.is_hex_address Demo.to_checksum_address (ret true)
    ([Decorators.mk_parameter "self" false (PyObject "KeystoreSigner")]
     ++ Decorators.mk_parameter "account" false (PyStr "0xnot-an-address") :: [])
    (∅, tt)
  = (Raise (mk_exn InvalidChecksumAddress
              [Lit dq; Val (PyStr "0xnot-an-address");
               Lit (dq +:+ " is not a valid EIP-55 checksum address.")]),
     (∅, tt)).
Proof.
  apply (invalid_string_address_is_rejected
           Demo.is_hex_address Demo.to_checksum_address ∅ ∅
           [Decorators.mk_parameter "self" false (PyObject "KeystoreSigner")] []
           (Decorators.mk_parameter "account" false (PyStr "0xnot-an-address"))
           "0xnot-an-address" eq_refl eq_refl eq_refl (not_elem_of_empty _) eq_refl).
Defined.

(* ===================================================================== *)
(** ** More about [KeystoreSigner]                                        *)
(* ===================================================================== *)

Section KeystoreMore.

Import Decorators.

Variable is_hex_address : string -> bool.
Variable to_checksum_address : string -> string.
Variable key_metadata : Type.
Variable LocalAccount : Type.
Variable Account_decrypt : key_metadata -> pyval -> result pyval.
Variable Account_from_key : pyval -> result LocalAccount.
Variable LocalAccount_sign_transaction :
  LocalAccount -> gmap string pyval -> result pyval.
Variable LocalAccount_sign_message : LocalAccount -> pyval -> result pyval.

#[local] Abbreviation is_checksum_address :=
  (Decorators.is_checksum_address is_hex_address to_checksum_address).
#[local] Abbreviation state := (KeystoreSigner.state key_metadata LocalAccount).
#[local] Abbreviation mk_state := (KeystoreSigner.mk_state key_metadata LocalAccount).
#[local] Abbreviation keys := (KeystoreSigner.keys key_metadata LocalAccount).
#[local] Abbreviation signers := (KeystoreSigner.signers key_metadata LocalAccount).
#[local] Abbreviation get_signer :=
  (KeystoreSigner.get_signer is_hex_address to_checksum_address
     key_metadata LocalAccount).
#[local] Abbreviation unlock_account :=
  (KeystoreSigner.unlock_account is_hex_address to_checksum_address
     key_metadata LocalAccount Account_decrypt Account_from_key).
#[local] Abbreviation lock_account :=
  (KeystoreSigner.lock_account is_hex_address to_checksum_address
     key_metadata LocalAccount).
#[local] Abbreviation sign_transaction :=
  (KeystoreSigner.sign_transaction is_hex_address to_checksum_address
     key_metadata LocalAccount LocalAccount_sign_transaction).
#[local] Abbreviation sign_message :=
  (KeystoreSigner.sign_message is_hex_address to_checksum_address
     key_metadata LocalAccount LocalAccount_sign_message).
#[local] Abbreviation validated_account :=
  (validated_account is_hex_address to_checksum_address key_metadata LocalAccount).

(** [__get_signer] on a checksummed address: the three cases. *)
Lemma get_signer_outcome verified (st : state) a :
  is_checksum_address (PyStr a) = true ->
  exists verified',
    get_signer (PyStr a) (verified, st)
    = (match signers st !! a with
       | Some signer => Return signer
       | None =>
           match keys st !! a with
           | Some _ => Raise (Signer.AccountLocked_ (PyStr a))
           | None => Raise (Signer.UnknownAccount_ (PyStr a))
           end
       end, (verified', st))
    /\ a ∈ verified' /\ (a ∈ verified -> verified' = verified).
Proof.
  intros Hok. unfold KeystoreSigner.get_signer.
  destruct (validated_account
              (KeystoreSigner.on_signer key_metadata LocalAccount
                 (KeystoreSigner.get_signer_body key_metadata LocalAccount (PyStr a)))
              verified st a [] Hok (Forall_nil_2 _))
    as (v' & -> & Hin & Hsame).
  exists v'. split; [| done].
  unfold KeystoreSigner.on_signer, KeystoreSigner.get_signer_body, dict_getitem.
  simpl. destruct (signers st !! a); simpl; [done |].
  by destruct (keys st !! a).
Qed.

Lemma sign_message_outcome verified (st : state) a message kwargs :
  is_checksum_address (PyStr a) = true ->
  exists verified',
    sign_message (PyStr a) message kwargs (verified, st)
    = (match signers st !! a with
       | Some signer => LocalAccount_sign_message signer message
       | None =>
           match keys st !! a with
           | Some _ => Raise (Signer.AccountLocked_ (PyStr a))
           | None => Raise (Signer.UnknownAccount_ (PyStr a))
           end
       end, (verified', st))
    /\ a ∈ verified'.
Proof.
  intros Hok. unfold KeystoreSigner.sign_message.
  destruct (validated_account
              (KeystoreSigner.sign_message_body is_hex_address
                 to_checksum_address key_metadata LocalAccount
                 LocalAccount_sign_message (PyStr a) message)
              verified st a
              [mk_parameter "message" false message;
               mk_parameter "kwargs" false (PyDict kwargs)] Hok)
    as (v' & -> & Hin & _).
  { repeat constructor. }
  destruct (get_signer_outcome v' st a Hok) as (v'' & Hg & _ & Hsame).
  rewrite (Hsame Hin) in Hg.
  exists v'. split; [| done].
  unfold KeystoreSigner.sign_message_body, bind, lift. rewrite Hg.
  destruct (signers st !! a); [done |]. by destruct (keys st !! a).
Qed.

Lemma sign_transaction_outcome verified (st : state) a transaction_dict :
  is_checksum_address (PyStr a) = true ->
  transaction_dict !! "from" = Some (PyStr a) ->
  exists verified',
    sign_transaction transaction_dict (verified, st)
    = (match signers st !! a with
       | Some signer =>
           match transaction_dict !! "to" with
           | Some to =>
               LocalAccount_sign_transaction signer
                 (if truthy to then transaction_dict
                  else delete "to" transaction_dict)
           | None => Raise (mk_exn KeyError [Val (PyStr "to")])
           end
       | None =>
           match keys st !! a with
           | Some _ => Raise (Signer.AccountLocked_ (PyStr a))
           | None => Raise (Signer.UnknownAccount_ (PyStr a))
           end
       end, (verified', st))
    /\ a ∈ verified'.
Proof.
  intros Hok Hfrom.
  destruct (get_signer_outcome verified st a Hok) as (v' & Hg & Hin & _).
  exists v'. split; [| done].
  unfold KeystoreSigner.sign_transaction, KeystoreSigner.validated,
    Decorators.validate_checksum_address. simpl.
  unfold KeystoreSigner.sign_transaction_body, bind, lift, dict_getitem.
  simpl. rewrite Hfrom, Hg.
  destruct (signers st !! a); [| by destruct (keys st !! a)].
  destruct (transaction_dict !! "to") as [to |]; [| done].
  by destruct (truthy to).
Qed.

(** A password that decrypts the key file of a locked account. *)
Lemma unlock_account_decrypts verified (st : state) a md password duration
    key signer :
  is_checksum_address (PyStr a) = true ->
  keys st !! a = Some md ->
  signers st !! a = None ->
  Account_decrypt md password = Return key ->
  Account_from_key key = Return signer ->
  exists verified',
    unlock_account (PyStr a) password duration (verified, st)
    = (Return true,
       (verified', mk_state (keys st) (<[a := signer]> (signers st)))).
Proof.
  intros Hok Hk Hs Hd Hf.
  unfold KeystoreSigner.unlock_account.
  destruct (validated_account
              (KeystoreSigner.on_signer key_metadata LocalAccount
                 (KeystoreSigner.unlock_account_body key_metadata LocalAccount
                    Account_decrypt Account_from_key (PyStr a) password))
              verified st a
              [mk_parameter "password" false password;
               mk_parameter "duration" true duration] Hok)
    as (v' & -> & Hin & _).
  { repeat constructor. }
  exists v'.
  unfold KeystoreSigner.on_signer, KeystoreSigner.unlock_account_body,
    dict_getitem. simpl. by rewrite Hs, Hk, Hd, Hf.
Qed.

(** X5. Unlocking a known, locked account with a password that decrypts
    its key file returns true and caches the decrypted signer under the
    address, leaving [__keys] alone; afterwards [sign_message] for the
    address is the signature of that signer. *)
Theorem unlock_account_caches_the_signer :
  forall (verified : gset string) (st : state) (a : string)
         (md : key_metadata) (password duration key : pyval)
         (signer : LocalAccount),
    is_checksum_address (PyStr a) = true ->
    keys st !! a = Some md ->
    signers st !! a = None ->
    Account_decrypt md password = Return key ->
    Account_from_key key = Return signer ->
    exists verified',
      unlock_account (PyStr a) password duration (verified, st)
      = (Return true,
         (verified', mk_state (keys st) (<[a := signer]> (signers st))))
      /\ forall message kwargs,
           exists verified'',
             sign_message (PyStr a) message kwargs
               (verified', mk_state (keys st) (<[a := signer]> (signers st)))
             = (LocalAccount_sign_message signer message,
                (verified'',
                 mk_state (keys st) (<[a := signer]> (signers st)))).
Proof.
  intros verified st a md password duration key signer Hok Hk Hs Hd Hf.
  destruct (unlock_account_decrypts verified st a md password duration key
              signer Hok Hk Hs Hd Hf) as (v' & Hu).
  exists v'. split; [exact Hu |].
  intros message kwargs.
  destruct (sign_message_outcome v'
              (mk_state (keys st) (<[a := signer]> (signers st)))
              a message kwargs Hok) as (v'' & Hsig & _).
  exists v''. rewrite Hsig. simpl. by rewrite lookup_insert_eq.
Qed.

(** X6. Unlocking an account that is already unlocked returns true
    whatever the password is: the key file is not decrypted again, and the
    cached signer stays. *)
Theorem unlock_account_of_unlocked_ignores_password :
  forall (verified : gset string) (st : state) (a : string)
         (password duration : pyval),
    is_checksum_address (PyStr a) = true ->
    is_Some (signers st !! a) ->
    exists verified',
      unlock_account (PyStr a) password duration (verified, st)
      = (Return true, (verified', st)).
Proof.
  intros verified st a password duration Hok [signer Hs].
  unfold KeystoreSigner.unlock_account.
  destruct (validated_account
              (KeystoreSigner.on_signer key_metadata LocalAccount
                 (KeystoreSigner.unlock_account_body key_metadata LocalAccount
                    Account_decrypt Account_from_key (PyStr a) password))
              verified st a
              [mk_parameter "password" false password;
               mk_parameter "duration" true duration] Hok)
    as (v' & -> & _ & _).
  { repeat constructor. }
  exists v'.
  unfold KeystoreSigner.on_signer, KeystoreSigner.unlock_account_body.
  simpl. by rewrite Hs.
Qed.

(** X7. For a checksummed address that is in neither [__keys] nor
    [__signers], [unlock_account], [sign_message] and [sign_transaction]
    all fail with [UnknownAccount] naming the address, and change
    nothing in the keystore. *)
Theorem unknown_account_is_reported :
  forall (verified : gset string) (st : state) (a : string),
    is_checksum_address (PyStr a) = true ->
    keys st !! a = None ->
    signers st !! a = None ->
    (forall password duration,
       exists verified',
         unlock_account (PyStr a) password duration (verified, st)
         = (Raise (Signer.UnknownAccount_ (PyStr a)), (verified', st)))
    /\ (forall message kwargs,
          exists verified',
            sign_message (PyStr a) message kwargs (verified, st)
            = (Raise (Signer.UnknownAccount_ (PyStr a)), (verified', st)))
    /\ (forall transaction_dict,
          transaction_dict !! "from" = Some (PyStr a) ->
          exists verified',
            sign_transaction transaction_dict (verified, st)
            = (Raise (Signer.UnknownAccount_ (PyStr a)), (verified', st))).
Proof.
  intros verified st a Hok Hk Hs. split; [| split].
  - intros password duration. unfold KeystoreSigner.unlock_account.
    destruct (validated_account
                (KeystoreSigner.on_signer key_metadata LocalAccount
                   (KeystoreSigner.unlock_account_body key_metadata LocalAccount
                      Account_decrypt Account_from_key (PyStr a) password))
                verified st a
                [mk_parameter "password" false password;
                 mk_parameter "duration" true duration] Hok)
      as (v' & -> & _ & _).
    { repeat constructor. }
    exists v'.
    unfold KeystoreSigner.on_signer, KeystoreSigner.unlock_account_body,
      dict_getitem. simpl. by rewrite Hs, Hk.
  - intros message kwargs.
    destruct (sign_message_outcome verified st a message kwargs Hok)
      as (v' & Hsig & _).
    exists v'. by rewrite Hsig, Hs, Hk.
  - intros transaction_dict Hfrom.
    destruct (sign_transaction_outcome verified st a transaction_dict Hok Hfrom)
      as (v' & Hsig & _).
    exists v'. by rewrite Hsig, Hs, Hk.
Qed.

(** X8. For an unlocked sender, [sign_transaction] hands the transaction
    to the cached signer as it is when its 'to' is truthy, and without the
    'to' key when 'to' is falsy (None, empty bytes or string, 0); a
    transaction without any 'to' key is a [KeyError]. The keystore does
    not change. *)
Theorem sign_transaction_payload :
  forall (verified : gset string) (st : state) (a : string)
         (signer : LocalAccount) (transaction_dict : gmap string pyval),
    is_checksum_address (PyStr a) = true ->
    signers st !! a = Some signer ->
    transaction_dict !! "from" = Some (PyStr a) ->
    exists verified',
      sign_transaction transaction_dict (verified, st)
      = (match transaction_dict !! "to" with
         | Some to =>
             LocalAccount_sign_transaction signer
               (if truthy to then transaction_dict
                else delete "to" transaction_dict)
         | None => Raise (mk_exn KeyError [Val (PyStr "to")])
         end, (verified', st)).
Proof.
  intros verified st a signer transaction_dict Hok Hs Hfrom.
  destruct (sign_transaction_outcome verified st a transaction_dict Hok Hfrom)
    as (v' & Hsig & _).
  exists v'. by rewrite Hsig, Hs.
Qed.

End KeystoreMore.

Section KeystoreLifecycleFacts.

Import Decorators.

Variable is_hex_address : string -> bool.
Variable to_checksum_address : string -> string.
Variable key_metadata : Type.
Variable LocalAccount : Type.
Variable Account_decrypt : key_metadata -> pyval -> result pyval.
Variable Account_from_key : pyval -> result LocalAccount.
Variable LocalAccount_sign_transaction :
  LocalAccount -> gmap string pyval -> result pyval.
Variable LocalAccount_sign_message : LocalAccount -> pyval -> result pyval.

#[local] Abbreviation is_checksum_address :=
  (Decorators.is_checksum_address is_hex_address to_checksum_address).
#[local] Abbreviation state := (KeystoreSigner.state key_metadata LocalAccount).
#[local] Abbreviation world := (KeystoreSigner.world key_metadata LocalAccount).
#[local] Abbreviation mk_state := (KeystoreSigner.mk_state key_metadata LocalAccount).
#[local] Abbreviation keys := (KeystoreSigner.keys key_metadata LocalAccount).
#[local] Abbreviation signers := (KeystoreSigner.signers key_metadata LocalAccount).
#[local] Abbreviation signers_known :=
  (KeystoreLifecycle.signers_known key_metadata LocalAccount).
#[local] Abbreviation validated :=
  (KeystoreSigner.validated is_hex_address to_checksum_address
     key_metadata LocalAccount).
#[local] Abbreviation get_signer :=
  (KeystoreSigner.get_signer is_hex_address to_checksum_address
     key_metadata LocalAccount).
#[local] Abbreviation unlock_account :=
  (KeystoreSigner.unlock_account is_hex_address to_checksum_address
     key_metadata LocalAccount Account_decrypt Account_from_key).
#[local] Abbreviation lock_account :=
  (KeystoreSigner.lock_account is_hex_address to_checksum_address
     key_metadata LocalAccount).
#[local] Abbreviation sign_transaction :=
  (KeystoreSigner.sign_transaction is_hex_address to_checksum_address
     key_metadata LocalAccount LocalAccount_sign_transaction).
#[local] Abbreviation sign_message :=
  (KeystoreSigner.sign_message is_hex_address to_checksum_address
     key_metadata LocalAccount LocalAccount_sign_message).
#[local] Abbreviation lock_all :=
  (KeystoreLifecycle.lock_all is_hex_address to_checksum_address
     key_metadata LocalAccount).
#[local] Abbreviation del :=
  (KeystoreLifecycle.del is_hex_address to_checksum_address
     key_metadata LocalAccount).

(** Locking a checksummed address that has a key file or a cached signer
    returns true and leaves no signer for it. *)
Lemma lock_account_known verified (st : state) a :
  is_checksum_address (PyStr a) = true ->
  is_Some (keys st !! a) \/ is_Some (signers st !! a) ->
  exists verified',
    lock_account (PyStr a) (verified, st)
    = (Return true, (verified', mk_state (keys st) (delete a (signers st)))).
Proof.
  intros Hok Hknown. unfold KeystoreSigner.lock_account.
  destruct (validated_account is_hex_address to_checksum_address
              key_metadata LocalAccount
              (KeystoreSigner.on_signer key_metadata LocalAccount
                 (KeystoreSigner.lock_account_body key_metadata LocalAccount (PyStr a)))
              verified st a [] Hok (Forall_nil_2 _))
    as (v' & -> & _ & _).
  exists v'.
  unfold KeystoreSigner.on_signer, KeystoreSigner.lock_account_body,
    dict_getitem. simpl.
  destruct (signers st !! a) as [signer |] eqn:Hs; simpl.
  - rewrite lookup_delete_eq.
    by rewrite bool_decide_eq_false_2 by (intros [? ?]; discriminate).
  - destruct Hknown as [Hk | [? ?]]; [| discriminate].
    unfold KeystoreSigner.accounts.
    rewrite bool_decide_eq_true_2 by (by apply elem_of_map_keys). simpl.
    rewrite delete_id by done. by destruct st.
Qed.

(** X9. Unlock, lock, unlock: from the Locked state, unlocking with a
    password that decrypts the key file, then locking, gives back exactly
    the keystore before the unlock, and unlocking again succeeds as the
    first time. *)
Theorem unlock_lock_round_trip :
  forall (verified : gset string) (st : state) (a : string)
         (md : key_metadata) (password duration key : pyval)
         (signer : LocalAccount),
    is_checksum_address (PyStr a) = true ->
    keys st !! a = Some md ->
    signers st !! a = None ->
    Account_decrypt md password = Return key ->
    Account_from_key key = Return signer ->
    exists verified1 verified2 verified3,
      unlock_account (PyStr a) password duration (verified, st)
      = (Return true,
         (verified1, mk_state (keys st) (<[a := signer]> (signers st))))
      /\ lock_account (PyStr a)
           (verified1, mk_state (keys st) (<[a := signer]> (signers st)))
         = (Return true, (verified2, st))
      /\ unlock_account (PyStr a) password duration (verified2, st)
         = (Return true,
            (verified3, mk_state (keys st) (<[a := signer]> (signers st)))).
Proof.
  intros verified st a md password duration key signer Hok Hk Hs Hd Hf.
  destruct (unlock_account_decrypts is_hex_address to_checksum_address
              key_metadata LocalAccount Account_decrypt Account_from_key
              verified st a md password duration
              key signer Hok Hk Hs Hd Hf) as (v1 & Hu1).
  destruct (lock_account_known v1
              (mk_state (keys st) (<[a := signer]> (signers st))) a Hok)
    as (v2 & Hl).
  { left. simpl. eauto. }
  simpl in Hl. rewrite delete_insert_id in Hl by done.
  destruct (unlock_account_decrypts is_hex_address to_checksum_address
              key_metadata LocalAccount Account_decrypt Account_from_key
              v2 st a md password duration
              key signer Hok Hk Hs Hd Hf) as (v3 & Hu2).
  exists v1, v2, v3. split; [exact Hu1 |]. split; [| exact Hu2].
  rewrite Hl. by destruct st.
Qed.

Lemma dict_getitem_Return {V} (d : gmap string V) k v :
  dict_getitem d k = Return v -> exists a, k = PyStr a /\ d !! a = Some v.
Proof.
  unfold dict_getitem. destruct k; simpl; try discriminate.
  destruct (d !! s) eqn:E; [| discriminate].
  intros [= ->]. eauto.
Qed.

(** The decorator runs the body in the state of the signer it was called
    in, or does not run it. *)
Lemma validated_keeps {A} (body : M world A) params (w : world)
    (P : state -> Prop) :
  P (snd w) ->
  (forall verified', P (snd (snd (body (verified', snd w))))) ->
  P (snd (snd (validated body params w))).
Proof.
  intros Hw Hbody.
  unfold KeystoreSigner.validated, Decorators.validate_checksum_address.
  destruct (Decorators.validate_addresses _ _ _ _) as [[u | e] v']; simpl;
    [apply Hbody | exact Hw].
Qed.

Lemma get_signer_keeps_state account (w : world) :
  snd (snd (get_signer account w)) = snd w.
Proof.
  unfold KeystoreSigner.get_signer.
  apply (validated_keeps _ _ w (fun st => st = snd w)); [reflexivity |].
  intros v'. unfold KeystoreSigner.on_signer, KeystoreSigner.get_signer_body.
  simpl. destruct (dict_getitem _ _); simpl; [reflexivity |].
  destruct (isinstance _ _); [| reflexivity].
  by destruct (negb _).
Qed.

(** X10. Whatever their arguments and outcome, [unlock_account] and
    [lock_account] never change [__keys] and keep every unlocked account a
    known one; [sign_message] and [sign_transaction] change neither
    dict. *)
Theorem keystore_operations_keep_the_key_files :
  forall (account password duration message : pyval)
         (kwargs : list (string * pyval))
         (transaction_dict : gmap string pyval) (w : world),
    (keys (snd (snd (unlock_account account password duration w)))
     = keys (snd w)
     /\ (signers_known (snd w) ->
         signers_known (snd (snd (unlock_account account password duration w)))))
    /\ (keys (snd (snd (lock_account account w))) = keys (snd w)
        /\ (signers_known (snd w) ->
            signers_known (snd (snd (lock_account account w)))))
    /\ snd (snd (sign_message account message kwargs w)) = snd w
    /\ snd (snd (sign_transaction transaction_dict w)) = snd w.
Proof.
  intros account password duration message kwargs transaction_dict w.
  split; [| split; [| split]].
  - unfold KeystoreSigner.unlock_account.
    apply (validated_keeps _ _ w
             (fun st => keys st = keys (snd w)
                        /\ (signers_known (snd w) -> signers_known st)));
      [done |].
    intros v'. unfold KeystoreSigner.on_signer,
      KeystoreSigner.unlock_account_body. simpl.
    destruct (dict_get _ account) as [[signer |] |]; simpl; try done.
    destruct (dict_getitem _ account) as [md | e] eqn:Hget; simpl.
    + destruct (Account_decrypt md password); simpl; [| done].
      destruct (Account_from_key _); simpl; [| done].
      split; [done |]. intros Hknown b.
      apply dict_getitem_Return in Hget as (acc & -> & Hk). simpl.
      destruct (decide (acc = b)) as [-> | Hne].
      * intros _. eauto.
      * rewrite lookup_insert_ne by done. apply Hknown.
    + destruct (isinstance e ValueError); simpl; [done |].
      by destruct (isinstance e KeyError).
  - unfold KeystoreSigner.lock_account.
    apply (validated_keeps _ _ w
             (fun st => keys st = keys (snd w)
                        /\ (signers_known (snd w) -> signers_known st)));
      [done |].
    intros v'. unfold KeystoreSigner.on_signer,
      KeystoreSigner.lock_account_body. simpl.
    destruct (dict_getitem _ account) as [signer | e]; simpl.
    + split; [done |]. intros Hknown b.
      destruct account; simpl; try apply Hknown.
      destruct (decide (s = b)) as [-> | Hne].
      * rewrite lookup_delete_eq. by intros [? ?].
      * rewrite lookup_delete_ne by done. apply Hknown.
    + destruct (isinstance e KeyError); simpl; [| done].
      by destruct (negb _).
  - unfold KeystoreSigner.sign_message.
    apply (validated_keeps _ _ w (fun st => st = snd w)); [reflexivity |].
    intros v'. unfold KeystoreSigner.sign_message_body, bind, lift.
    pose proof (get_signer_keeps_state account (v', snd w)) as Hg.
    destruct (get_signer account (v', snd w)) as [[signer | e] w']; exact Hg.
  - unfold KeystoreSigner.sign_transaction.
    apply (validated_keeps _ _ w (fun st => st = snd w)); [reflexivity |].
    intros v'. unfold KeystoreSigner.sign_transaction_body, bind, lift.
    destruct (dict_getitem transaction_dict (PyStr "from")) as [sender |];
      [| reflexivity].
    pose proof (get_signer_keeps_state sender (v', snd w)) as Hg.
    destruct (get_signer sender (v', snd w)) as [[signer | e] w'];
      [| exact Hg].
    destruct (dict_getitem transaction_dict (PyStr "to")); exact Hg.
Qed.

Lemma lookup_foldl_delete {V} (l : list string) : forall (m : gmap string V) a,
  foldl (fun m b => delete b m) m l !! a
  = if bool_decide (a ∈ l) then None else m !! a.
Proof.
  induction l as [| b l IH]; intros m a.
  - cbn [foldl]. by rewrite bool_decide_eq_false_2 by apply not_elem_of_nil.
  - cbn [foldl]. rewrite IH.
    destruct (decide (a = b)) as [-> | Hne].
    + rewrite lookup_delete_eq.
      rewrite (bool_decide_eq_true_2 (b ∈ b :: l)) by apply list_elem_of_here.
      by destruct (bool_decide (b ∈ l)).
    + rewrite lookup_delete_ne by done.
      destruct (decide (a ∈ l)) as [Hin | Hin].
      * rewrite !bool_decide_eq_true_2;
          [done | by apply list_elem_of_further | done].
      * rewrite !bool_decide_eq_false_2; [done | | done].
        intros [? | ?]%elem_of_cons; congruence.
Qed.

Lemma lock_all_known (l : list string) : forall verified (st : state),
  (forall a, a ∈ l ->
             is_Some (keys st !! a) /\ is_checksum_address (PyStr a) = true) ->
  exists verified',
    lock_all l (verified, st)
    = (Return tt,
       (verified',
        mk_state (keys st) (foldl (fun m b => delete b m) (signers st) l))).
Proof.
  induction l as [| a l IH]; intros verified st Hl; simpl.
  - exists verified. unfold ret. by destruct st.
  - destruct (Hl a (list_elem_of_here _ _)) as [Hk Hok].
    destruct (lock_account_known verified st a Hok (or_introl Hk)) as (v1 & Hlock).
    unfold bind. rewrite Hlock.
    destruct (IH v1 (mk_state (keys st) (delete a (signers st)))) as (v2 & Hrest).
    { intros b Hb. apply Hl. by apply list_elem_of_further. }
    exists v2. exact Hrest.
Qed.

(** X11. [__del__]: when every address of [__keys] is a checksum address
    and every unlocked account is a known one, the teardown succeeds and
    leaves no decrypted signer at all, with [__keys] as it was. *)
Theorem del_locks_every_account :
  forall (verified : gset string) (st : state),
    (forall a, is_Some (keys st !! a) -> is_checksum_address (PyStr a) = true) ->
    signers_known st ->
    exists verified',
      del (verified, st) = (Return tt, (verified', mk_state (keys st) ∅)).
Proof.
  intros verified st Hsum Hknown.
  destruct (lock_all_known (KeystoreSigner.accounts key_metadata LocalAccount st)
              verified st) as (v' & Hall).
  { intros a Ha. apply elem_of_map_keys in Ha. auto. }
  exists v'.
  assert (Hempty : foldl (fun m b => delete b m) (signers st)
                     (KeystoreSigner.accounts key_metadata LocalAccount st) = ∅).
  { apply map_eq. intros a. rewrite lookup_foldl_delete, lookup_empty.
    case_bool_decide as Hin; [done |].
    destruct (signers st !! a) eqn:Hs; [| done].
    exfalso. apply Hin. apply elem_of_map_keys. apply Hknown. eauto. }
  rewrite Hempty in Hall.
  unfold KeystoreLifecycle.del. simpl snd.
  destruct (KeystoreSigner.accounts key_metadata LocalAccount st) eqn:Hacc;
    [| exact Hall].
  simpl in Hall. unfold ret in Hall. by inversion Hall.
Qed.

End KeystoreLifecycleFacts.

Section KeystoreConstructionFacts.

Import KeystoreLifecycle.

Variable key_metadata : Type.
Variable LocalAccount : Type.
Variable os_stat : string -> result file_kind.
Variable os_scandir : string -> result scan.
Variable read_keyfile : string -> keyfile_outcome key_metadata.
Variable is_address : pyval -> bool.
Variable to_checksum_address_of : pyval -> string.

#[local] Abbreviation state := (KeystoreSigner.state key_metadata LocalAccount).
#[local] Abbreviation mk_state := (KeystoreSigner.mk_state key_metadata LocalAccount).
#[local] Abbreviation keys := (KeystoreSigner.keys key_metadata LocalAccount).
#[local] Abbreviation signers := (KeystoreSigner.signers key_metadata LocalAccount).
#[local] Abbreviation handle_keyfile :=
  (KeystoreLifecycle.handle_keyfile key_metadata read_keyfile is_address
     to_checksum_address_of).
#[local] Abbreviation keystore_paths :=
  (KeystoreLifecycle.keystore_paths os_stat os_scandir).
#[local] Abbreviation load_keyfiles :=
  (KeystoreLifecycle.load_keyfiles key_metadata read_keyfile is_address
     to_checksum_address_of).
#[local] Abbreviation init :=
  (KeystoreLifecycle.init key_metadata LocalAccount os_stat os_scandir
     read_keyfile is_address to_checksum_address_of).

Lemma access_error_is_InvalidSignerURI path e :
  isinstance e OSError = true ->
  exn_cls (access_error path e) = InvalidSignerURI
  /\ Val (PyStr path) ∈ exn_msg (access_error path e).
Proof.
  intros He. unfold access_error.
  destruct (isinstance e FileNotFoundError).
  - split; [reflexivity |]. apply list_elem_of_further, list_elem_of_here.
  - rewrite He. split; [reflexivity |]. simpl.
    apply list_elem_of_further, list_elem_of_here.
Qed.

Lemma init_of_failed_paths path e :
  keystore_paths path = Raise e -> init path = (Raise e, mk_state ∅ ∅).
Proof.
  intros H. unfold KeystoreLifecycle.init, KeystoreLifecycle.read_keystore.
  by rewrite H.
Qed.

(** X12. Construction over a path that cannot be used: when [os.stat] or
    the call of [os.scandir] fails with an [OSError] (a missing path
    included), or the path is neither a directory nor a regular file,
    [__init__] fails with [InvalidSignerURI], whose message names the path,
    and no key file is read. *)
Theorem unusable_keystore_path_is_InvalidSignerURI :
  forall (path : string),
    (exists e, os_stat path = Raise e /\ isinstance e OSError = true)
    \/ os_stat path = Return OtherKind
    \/ (os_stat path = Return Directory
        /\ exists e, os_scandir path = Raise e /\ isinstance e OSError = true) ->
    exists e',
      init path = (Raise e', mk_state ∅ ∅)
      /\ exn_cls e' = InvalidSignerURI
      /\ Val (PyStr path) ∈ exn_msg e'.
Proof.
  intros path [(e & Hstat & He) | [Hstat | (Hstat & e & Hscan & He)]].
  - exists (access_error path e). split.
    + apply init_of_failed_paths. unfold KeystoreLifecycle.keystore_paths.
      by rewrite Hstat.
    + by apply access_error_is_InvalidSignerURI.
  - eexists. split.
    + apply init_of_failed_paths. unfold KeystoreLifecycle.keystore_paths.
      by rewrite Hstat.
    + split; [reflexivity |]. apply list_elem_of_further, list_elem_of_here.
  - exists (access_error path e). split.
    + apply init_of_failed_paths. unfold KeystoreLifecycle.keystore_paths.
      by rewrite Hstat, Hscan.
    + by apply access_error_is_InvalidSignerURI.
Qed.

Lemma load_keyfiles_app good : forall rest ks,
  Forall (fun p => is_raise (handle_keyfile p) = false) good ->
  exists ks',
    load_keyfiles ((Return <$> good) ++ rest) ks = load_keyfiles rest ks'.
Proof.
  induction good as [| p good IH]; intros rest ks Hgood; simpl; [eauto |].
  apply Forall_cons in Hgood as [Hp Hgood].
  destruct (handle_keyfile p) as [[account md] | e]; [| discriminate Hp].
  by apply IH.
Qed.

(** X13. Construction over key files of which one is bad: when the files
    before it load, and the bad one is not valid JSON, has vanished, has
    no 'address' field or holds something that is no address, [__init__]
    fails with [InvalidKeyfile], a [SignerError] whose message names the
    path of that file. *)
Theorem bad_keyfile_is_InvalidKeyfile :
  forall (path bad : string) (good : list string)
         (rest : list (result string)),
    keystore_paths path = Return ((Return <$> good) ++ Return bad :: rest) ->
    Forall (fun p => is_raise (handle_keyfile p) = false) good ->
    read_keyfile bad = JSONDecodeError key_metadata
    \/ (exists e, read_keyfile bad = Loaded key_metadata (Raise e)
                  /\ isinstance e FileNotFoundError || isinstance e KeyError = true)
    \/ (exists address md,
          read_keyfile bad = Loaded key_metadata (Return (address, md))
          /\ is_address address = false) ->
    exists e,
      fst (init path) = Raise e
      /\ exn_cls e = InvalidKeyfile
      /\ Val (PyStr bad) ∈ exn_msg e
      /\ isinstance e SignerError = true.
Proof.
  intros path bad good rest Hpaths Hgood Hbad.
  assert (Hk : exists e, handle_keyfile bad = Raise e
                         /\ exn_cls e = InvalidKeyfile
                         /\ Val (PyStr bad) ∈ exn_msg e
                         /\ isinstance e SignerError = true).
  { unfold KeystoreLifecycle.handle_keyfile.
    destruct Hbad as [-> | [(e & -> & He) | (address & md & -> & Ha)]].
    - eexists. split; [reflexivity |]. split; [reflexivity |].
      split; [apply list_elem_of_further, list_elem_of_here | reflexivity].
    - destruct (isinstance e FileNotFoundError); simpl in He.
      + eexists. split; [reflexivity |]. split; [reflexivity |].
        split; [apply list_elem_of_further, list_elem_of_here | reflexivity].
      + rewrite He. eexists. split; [reflexivity |]. split; [reflexivity |].
        split; [apply list_elem_of_further, list_elem_of_here | reflexivity].
    - rewrite Ha. simpl. eexists. split; [reflexivity |].
      split; [reflexivity |].
      split; [apply list_elem_of_further, list_elem_of_here | reflexivity]. }
  destruct Hk as (e & Hh & Hcls & Hmsg & Hsig).
  exists e. split; [| done].
  unfold KeystoreLifecycle.init, KeystoreLifecycle.read_keystore.
  rewrite Hpaths. cbn [KeystoreSigner.keys KeystoreSigner.signers].
  destruct (load_keyfiles_app good (Return bad :: rest) ∅ Hgood) as (ks' & ->).
  simpl. by rewrite Hh.
Qed.

(** A loop that ends without an error went through a generator none of
    whose steps failed. *)
Lemma load_keyfiles_steps steps : forall ks ks',
  load_keyfiles steps ks = (Return tt, ks') ->
  exists paths, steps = Return <$> paths.
Proof.
  induction steps as [| [p | e] steps IH]; intros ks ks'; simpl.
  - intros _. by exists [].
  - destruct (handle_keyfile p) as [[account md] | e]; [| discriminate].
    intros Hrest. destruct (IH _ _ Hrest) as (paths & ->).
    by exists (p :: paths).
  - discriminate.
Qed.

Lemma load_keyfiles_loaded paths : forall ks ks',
  load_keyfiles (Return <$> paths) ks = (Return tt, ks') ->
  (forall a md,
     ks' !! a = Some md ->
     ks !! a = Some md
     \/ exists file address,
          file ∈ paths
          /\ read_keyfile file = Loaded key_metadata (Return (address, md))
          /\ is_address address = true
          /\ a = to_checksum_address_of address)
  /\ (forall a, is_Some (ks !! a) -> is_Some (ks' !! a))
  /\ (forall file,
        file ∈ paths ->
        exists address md,
          read_keyfile file = Loaded key_metadata (Return (address, md))
          /\ is_address address = true
          /\ is_Some (ks' !! to_checksum_address_of address)).
Proof.
  induction paths as [| p paths IH]; intros ks ks'; simpl.
  - intros [= <-]. split; [auto |]. split; [auto |].
    intros file Hin. by apply elem_of_nil in Hin.
  - unfold KeystoreLifecycle.handle_keyfile.
    destruct (read_keyfile p) as [| [[address md0] | e]] eqn:Hread;
      [discriminate | |].
    + destruct (is_address address) eqn:Haddr; simpl; [| discriminate].
      intros Hrest. destruct (IH _ _ Hrest) as (Hfrom & Hkeep & Hall).
      split; [| split].
      * intros a md Hlook. destruct (Hfrom a md Hlook) as [Hin | Hin].
        -- destruct (decide (to_checksum_address_of address = a)) as [<- | Hne].
           ++ rewrite lookup_insert_eq in Hin. inversion Hin; subst.
              right. exists p, address. split; [apply list_elem_of_here | done].
           ++ rewrite lookup_insert_ne in Hin by done. by left.
        -- destruct Hin as (file & address' & Hfile & Hrest').
           right. exists file, address'.
           split; [by apply list_elem_of_further | done].
      * intros a Ha. apply Hkeep.
        destruct (decide (to_checksum_address_of address = a)) as [<- | Hne].
        -- rewrite lookup_insert_eq. eauto.
        -- by rewrite lookup_insert_ne by done.
      * intros file [-> | Hin]%elem_of_cons.
        -- exists address, md0. split; [done |]. split; [done |].
           apply Hkeep. rewrite lookup_insert_eq. eauto.
        -- by apply Hall.
    + destruct (isinstance e FileNotFoundError); [discriminate |].
      destruct (isinstance e KeyError); discriminate.
Qed.

(** X14. After a successful construction nothing is unlocked, no step of
    the scan has failed, every address of [__keys] is the checksummed
    address read from one of the key files, with the content of that file
    as its record, and every key file of the keystore has its address in
    [__keys]. *)
Theorem constructed_keystore_holds_the_key_files :
  forall (path : string) (st : state),
    init path = (Return tt, st) ->
    exists paths,
      keystore_paths path = Return (Return <$> paths)
      /\ signers st = ∅
      /\ (forall a md,
            keys st !! a = Some md ->
            exists file address,
              file ∈ paths
              /\ read_keyfile file = Loaded key_metadata (Return (address, md))
              /\ is_address address = true
              /\ a = to_checksum_address_of address)
      /\ (forall file,
            file ∈ paths ->
            exists address md,
              read_keyfile file = Loaded key_metadata (Return (address, md))
              /\ is_address address = true
              /\ is_Some (keys st !! to_checksum_address_of address)).
Proof.
  intros path st.
  unfold KeystoreLifecycle.init, KeystoreLifecycle.read_keystore.
  destruct (keystore_paths path) as [steps | e]; [| discriminate].
  cbn [KeystoreSigner.keys KeystoreSigner.signers].
  destruct (load_keyfiles steps ∅) as [[[] | e] ks'] eqn:Hload;
    [| discriminate].
  intros [= <-].
  destruct (load_keyfiles_steps steps ∅ ks' Hload) as (paths & ->).
  exists paths. split; [done |]. split; [done |].
  destruct (load_keyfiles_loaded paths ∅ ks' Hload) as (Hfrom & _ & Hall).
  split; [| exact Hall].
  intros a md Hlook. simpl in Hlook.
  destruct (Hfrom a md Hlook) as [Hin | Hin]; [| done].
  by rewrite lookup_empty in Hin.
Qed.

(** A directory keystore is made of the regular files of the directory,
    in the order of the scan. *)
Lemma keystore_paths_of_directory path entries :
  os_stat path = Return Directory ->
  os_scandir path = Return entries ->
  keystore_paths path = Return (generate_paths entries).
Proof.
  intros Hs Hd. unfold KeystoreLifecycle.keystore_paths. by rewrite Hs, Hd.
Qed.

(** The generator over entries that are all read: the paths of the regular
    files among them, and then the rest of the scan. *)
Lemma generate_paths_app entries : forall rest,
  Forall (fun entry => is_raise (entry_is_file entry) = false) entries ->
  generate_paths ((Return <$> entries) ++ rest)
  = (Return <$> (entry_path
                   <$> filter (fun entry => is_regular_file entry = true)
                         entries))
    ++ generate_paths rest.
Proof.
  induction entries as [| entry entries IH]; intros rest Hread; [done |].
  apply Forall_cons in Hread as [Hentry Hread].
  cbn [fmap list_fmap app generate_paths].
  destruct (entry_is_file entry) as [[] | e] eqn:Hfile; try discriminate Hentry.
  - rewrite filter_cons_True by (unfold is_regular_file; by rewrite Hfile).
    cbn [fmap list_fmap app]. f_equal. by apply IH.
  - rewrite filter_cons_False
      by (unfold is_regular_file; rewrite Hfile; discriminate).
    by apply IH.
Qed.

(** X26. An error raised while the directory is being gone through, by
    the iterator of the scan or by [is_file()] of an entry, is not turned
    into [InvalidSignerURI]: when the entries before it are read and the
    key files among them load, [__init__] fails with that very error. *)
Theorem scan_error_reaches_the_caller :
  forall (path : string) (entries : list dir_entry) (failing : result dir_entry)
         (rest : scan) (e : exn),
    os_stat path = Return Directory ->
    os_scandir path = Return ((Return <$> entries) ++ failing :: rest) ->
    Forall (fun entry => is_raise (entry_is_file entry) = false) entries ->
    Forall (fun entry => entry_is_file entry = Return true ->
                         is_raise (handle_keyfile (entry_path entry)) = false)
      entries ->
    failing = Raise e
    \/ (exists entry, failing = Return entry /\ entry_is_file entry = Raise e) ->
    fst (init path) = Raise e.
Proof.
  intros path entries failing rest e Hstat Hscan Hread Hload Hfail.
  unfold KeystoreLifecycle.init, KeystoreLifecycle.read_keystore.
  rewrite (keystore_paths_of_directory path _ Hstat Hscan).
  rewrite (generate_paths_app entries (failing :: rest) Hread).
  cbn [KeystoreSigner.keys KeystoreSigner.signers].
  assert (Hgood : Forall (fun p => is_raise (handle_keyfile p) = false)
                    (entry_path
                       <$> filter (fun entry => is_regular_file entry = true)
                             entries)).
  { apply Forall_fmap, Forall_forall. intros entry Hin.
    apply list_elem_of_filter in Hin as [Hfile Hin].
    rewrite Forall_forall in Hload. apply Hload; [done |].
    unfold is_regular_file in Hfile.
    by destruct (entry_is_file entry) as [[] | e0]. }
  destruct (load_keyfiles_app _ (generate_paths (failing :: rest)) ∅ Hgood)
    as (ks' & ->).
  destruct Hfail as [-> | (entry & -> & Hfile)]; simpl; [done |].
  by rewrite Hfile.
Qed.

End KeystoreConstructionFacts.

(* ===================================================================== *)
(** ** More about [TrezorSigner]                                          *)
(* ===================================================================== *)

Section TrezorMore.

Variable get_default_client : result unit.
Variable hd_path_for_index : Z -> list Z.
Variable ethereum_get_address : list Z -> bool -> result string.
Variable ethereum_sign_message : list Z -> pyval -> result (pyval * pyval).
Variable ethereum_sign_tx :
  list Z -> gmap string pyval -> result (pyval * pyval * pyval).
Variable assert_valid_fields : gmap string pyval -> result unit.
Variable Web3_toBytes_HexBytes : pyval -> result pyval.
Variable to_canonical_address : pyval -> result pyval.
Variable to_int : pyval -> result pyval.
Variable rlp_encode : gmap string pyval -> result pyval.

#[local] Abbreviation state := TrezorSigner.state.
#[local] Abbreviation get_address_path :=
  (TrezorSigner.get_address_path hd_path_for_index).
#[local] Abbreviation get_address :=
  (TrezorSigner.get_address hd_path_for_index ethereum_get_address).
#[local] Abbreviation load_addresses :=
  (TrezorSigner.load_addresses hd_path_for_index ethereum_get_address).
#[local] Abbreviation init :=
  (TrezorSigner.init get_default_client hd_path_for_index ethereum_get_address).
#[local] Abbreviation sign_message :=
  (TrezorSigner.sign_message hd_path_for_index ethereum_sign_message).
#[local] Abbreviation sign_transaction_body :=
  (TrezorSigner.sign_transaction_body hd_path_for_index ethereum_sign_tx
     assert_valid_fields Web3_toBytes_HexBytes to_canonical_address to_int
     rlp_encode).
#[local] Abbreviation sign_transaction :=
  (TrezorSigner.sign_transaction hd_path_for_index ethereum_sign_tx
     assert_valid_fields Web3_toBytes_HexBytes to_canonical_address to_int
     rlp_encode).

(** X15. [sign_message] never returns a signature: it fails for every
    input. When the address is cached and the device has signed, the
    failure is the [AttributeError] for [Signature], an attribute the
    class does not define, raised after the call to the device. *)
Theorem sign_message_always_fails :
  forall (message checksum_address : pyval) (st : state),
    is_raise (fst (sign_message message checksum_address st)) = true
    /\ forall hd_path sig,
         get_address_path None checksum_address st = Return hd_path ->
         ethereum_sign_message hd_path message = Return sig ->
         sign_message message checksum_address st
         = (Raise (TrezorSigner.no_attribute "Signature"),
            TrezorSigner.mk_state (TrezorSigner.addresses st)
              (TrezorSigner.device_calls st
               ++ [TrezorSigner.SignMessage hd_path message])).
Proof.
  intros message checksum_address st. split.
  - assert (H : exists e st', TrezorSigner.sign_message_body hd_path_for_index
                  ethereum_sign_message message checksum_address st
                = (Raise e, st')).
    { unfold TrezorSigner.sign_message_body, bind, lift, TrezorSigner.issue,
        modify.
      destruct (get_address_path None checksum_address st); [| eauto].
      destruct (ethereum_sign_message _ _); eauto. }
    destruct H as (e & st' & H).
    unfold TrezorSigner.sign_message.
    destruct (handle_device_call_raise _ st e st' H) as [e' ->]. reflexivity.
  - intros hd_path sig Hpath Hsig.
    unfold TrezorSigner.sign_message, TrezorSigner.handle_device_call,
      try_except, TrezorSigner.sign_message_body, bind, lift,
      TrezorSigner.issue, modify.
    rewrite Hpath, Hsig. reflexivity.
Qed.

(** X16. When [sign_transaction] returns, the transaction had a 'from'
    and a 'chainId' key, the path of the sender was in the address cache,
    exactly one call went to the device, for that path, and the address
    cache is as before. *)
Theorem sign_transaction_success_conditions :
  forall (transaction_dict : gmap string pyval) (rlp_encoded : bool)
         (st st' : state) (signed : TrezorSigner.signed_transaction),
    sign_transaction transaction_dict rlp_encoded st = (Return signed, st') ->
    exists sender hd_path trezor_transaction,
      transaction_dict !! "from" = Some sender
      /\ is_Some (transaction_dict !! "chainId")
      /\ get_address_path None sender st = Return hd_path
      /\ TrezorSigner.addresses st' = TrezorSigner.addresses st
      /\ TrezorSigner.device_calls st'
         = TrezorSigner.device_calls st
           ++ [TrezorSigner.SignTx hd_path trezor_transaction].
Proof.
  intros transaction_dict rlp_encoded st st' signed.
  unfold TrezorSigner.sign_transaction, TrezorSigner.handle_device_call,
    try_except.
  destruct (sign_transaction_body transaction_dict rlp_encoded st)
    as [[r | e] st1] eqn:Hbody.
  - intros [= -> ->]. revert Hbody.
    unfold TrezorSigner.sign_transaction_body, bind, lift, ret, dict_getitem.
    simpl dict_get. intros H.
    destruct (transaction_dict !! "from") as [sender |] eqn:Hfrom;
      [| discriminate H].
    exists sender.
    destruct (assert_valid_fields _); [| discriminate H].
    destruct (TrezorSigner.apply_key_map _ _) as [t0 |]; [| discriminate H].
    match type of H with
    | context [match (if ?c then ?x else ?y) with _ => _ end] =>
        destruct (if c then x else y) as [[t d] | e0] eqn:Hfmt;
          [| discriminate H]
    end.
    cbn [fst snd] in H.
    destruct (TrezorSigner.get_address_path _ _ _ _) as [n |] eqn:Hpath;
      [| discriminate H].
    exists n, t.
    unfold TrezorSigner.issue, modify in H.
    destruct (ethereum_sign_tx _ _) as [[[v r0] s] |]; [| discriminate H].
    cbn [fst snd dict_get] in H.
    destruct (d !! "chainId") as [c |] eqn:Hchain; [| discriminate H].
    assert (Hc : is_Some (transaction_dict !! "chainId")).
    { destruct (truthy _) in Hfmt.
      - destruct (Web3_toBytes_HexBytes _) in Hfmt; [| discriminate Hfmt].
        destruct (delete "from" transaction_dict !! "data") in Hfmt;
          [| discriminate Hfmt].
        destruct (Web3_toBytes_HexBytes _) in Hfmt; [| discriminate Hfmt].
        inversion Hfmt; subst.
        rewrite lookup_insert_ne, lookup_delete_ne in Hchain by done. eauto.
      - inversion Hfmt; subst.
        rewrite lookup_delete_ne in Hchain by done. eauto. }
    destruct (to_canonical_address sender); [| discriminate H].
    destruct (to_int v); [| discriminate H].
    destruct (to_int r0); [| discriminate H].
    destruct (to_int s); [| discriminate H].
    destruct (TrezorSigner.Transaction _ _ _ _); [| discriminate H].
    destruct rlp_encoded.
    + destruct (rlp_encode _); [| discriminate H].
      inversion H; subst. simpl. done.
    + inversion H; subst. simpl. done.
  - destruct (isinstance e USBErrorNoDevice); [discriminate |].
    destruct (isinstance e USBErrorBusy); discriminate.
Qed.

End TrezorMore.

Section TrezorConstructionFacts.

Variable get_default_client : result unit.
Variable hd_path_for_index : Z -> list Z.
Variable ethereum_get_address : list Z -> bool -> result string.

#[local] Abbreviation state := TrezorSigner.state.
#[local] Abbreviation get_address :=
  (TrezorSigner.get_address hd_path_for_index ethereum_get_address).
#[local] Abbreviation load_addresses :=
  (TrezorSigner.load_addresses hd_path_for_index ethereum_get_address).
#[local] Abbreviation init :=
  (TrezorSigner.init get_default_client hd_path_for_index ethereum_get_address).

(** A request by path that returns: the device was asked once, for that
    path, and the answer is what the call returns. *)
Lemma get_address_by_path_return hd_path show_display st address st' :
  get_address None (Some hd_path) show_display st = (Return address, st') ->
  ethereum_get_address hd_path show_display = Return address
  /\ st' = TrezorSigner.mk_state (TrezorSigner.addresses st)
             (TrezorSigner.device_calls st
              ++ [TrezorSigner.GetAddress hd_path show_display]).
Proof.
  unfold TrezorSigner.get_address, TrezorSigner.handle_device_call, try_except,
    TrezorSigner.get_address_body, bind, ret, raise, lift, TrezorSigner.issue,
    modify.
  destruct hd_path as [| n hd_path]; [discriminate |].
  destruct (ethereum_get_address (n :: hd_path) show_display) as [a | e].
  - by intros [= -> <-].
  - destruct (isinstance e USBErrorNoDevice); [discriminate |].
    destruct (isinstance e USBErrorBusy); discriminate.
Qed.

Lemma load_addresses_loaded indices : forall (st st' : state) u,
  load_addresses indices st = (Return u, st') ->
  TrezorSigner.device_calls st'
  = TrezorSigner.device_calls st
    ++ ((fun i => TrezorSigner.GetAddress (hd_path_for_index i) false) <$> indices)
  /\ (forall a p,
        TrezorSigner.addresses st' !! a = Some p ->
        TrezorSigner.addresses st !! a = Some p
        \/ exists i, i ∈ indices /\ p = hd_path_for_index i
                     /\ ethereum_get_address p false = Return a)
  /\ (forall a, is_Some (TrezorSigner.addresses st !! a) ->
                is_Some (TrezorSigner.addresses st' !! a))
  /\ (forall i, i ∈ indices ->
                exists a, ethereum_get_address (hd_path_for_index i) false = Return a
                          /\ is_Some (TrezorSigner.addresses st' !! a)).
Proof.
  induction indices as [| i indices IH]; intros st st' u.
  - simpl. unfold ret. intros [= _ <-].
    split; [by rewrite app_nil_r |]. split; [auto |]. split; [auto |].
    intros i Hi. by apply elem_of_nil in Hi.
  - cbn [TrezorSigner.load_addresses]. unfold bind at 1.
    cbn [TrezorSigner.get_address_path truthy]. unfold bind at 1.
    destruct (get_address None (Some (hd_path_for_index i)) false st)
      as [[address | e] st1] eqn:Hget; [| discriminate].
    apply get_address_by_path_return in Hget as [Hdev ->].
    unfold bind at 1, modify. cbn [TrezorSigner.addresses TrezorSigner.device_calls].
    intros Hrest. destruct (IH _ _ _ Hrest) as (Hcalls & Hfrom & Hkeep & Hall).
    cbn [TrezorSigner.addresses TrezorSigner.device_calls] in *.
    split; [| split; [| split]].
    + rewrite Hcalls. by rewrite <- app_assoc.
    + intros a p Hlook. destruct (Hfrom a p Hlook) as [Hin | (j & Hj & Hp & Hd)].
      * destruct (decide (address = a)) as [<- | Hne].
        -- rewrite lookup_insert_eq in Hin. inversion Hin; subst.
           right. exists i. split; [apply list_elem_of_here | done].
        -- rewrite lookup_insert_ne in Hin by done. by left.
      * right. exists j. split; [by apply list_elem_of_further | done].
    + intros a Ha. apply Hkeep.
      destruct (decide (address = a)) as [<- | Hne].
      * rewrite lookup_insert_eq. eauto.
      * by rewrite lookup_insert_ne by done.
    + intros j [-> | Hj]%elem_of_cons.
      * exists address. split; [done |]. apply Hkeep.
        rewrite lookup_insert_eq. eauto.
      * by apply Hall.
Qed.

(** X17. After a successful [__init__] the device has been asked exactly
    three times, for the paths of the indices 0, 1 and 2 and without
    display; every cached address maps to one of these paths, and the
    device gives that address for it; and the address of each of the three
    paths is cached. *)
Theorem init_caches_the_device_addresses :
  forall (u : unit) (st : state),
    init = (Return u, st) ->
    TrezorSigner.device_calls st
    = [TrezorSigner.GetAddress (hd_path_for_index 0) false;
       TrezorSigner.GetAddress (hd_path_for_index 1) false;
       TrezorSigner.GetAddress (hd_path_for_index 2) false]
    /\ (forall a p,
          TrezorSigner.addresses st !! a = Some p ->
          exists i, (0 <= i < 3)%Z /\ p = hd_path_for_index i
                    /\ ethereum_get_address p false = Return a)
    /\ (forall i, (0 <= i < 3)%Z ->
                  exists a, ethereum_get_address (hd_path_for_index i) false = Return a
                            /\ is_Some (TrezorSigner.addresses st !! a)).
Proof.
  intros u st. unfold TrezorSigner.init.
  destruct get_default_client as [[] | e].
  - intros Hload.
    destruct (load_addresses_loaded _ _ _ _ Hload) as (Hcalls & Hfrom & _ & Hall).
    split; [exact Hcalls |]. split.
    + intros a p Hlook. destruct (Hfrom a p Hlook) as [Hin | (i & Hi & Hp & Hd)].
      * simpl in Hin. by rewrite lookup_empty in Hin.
      * exists i. split; [| done].
        apply elem_of_seqZ in Hi. unfold TrezorSigner.ADDRESS_CACHE_SIZE in Hi. lia.
    + intros i Hi. apply Hall. apply elem_of_seqZ.
      unfold TrezorSigner.ADDRESS_CACHE_SIZE. lia.
  - destruct (isinstance e TransportException); discriminate.
Qed.

(** X18. [__init__] without a usable device: a [TransportException] of
    [get_default_client] becomes [NoDeviceDetected] before any call to the
    device, and a USB no-device error of the first address request becomes
    [NoDeviceDetected] as well. *)
Theorem init_without_device :
  (forall e,
     get_default_client = Raise e ->
     isinstance e TransportException = true ->
     init = (Raise (mk_exn NoDeviceDetected
                      [Lit "Could not find a TREZOR device to connect to. Have you unlocked it?"]),
             TrezorSigner.mk_state ∅ []))
  /\ (forall n hd_path e,
        get_default_client = Return tt ->
        hd_path_for_index 0 = n :: hd_path ->
        ethereum_get_address (n :: hd_path) false = Raise e ->
        isinstance e USBErrorNoDevice = true ->
        init = (Raise TrezorSigner.no_device_detected,
                TrezorSigner.mk_state ∅
                  [TrezorSigner.GetAddress (n :: hd_path) false])).
Proof.
  split.
  - intros e Hc He. unfold TrezorSigner.init. by rewrite Hc, He.
  - intros n hd_path e Hc Hp Hd He. unfold TrezorSigner.init. rewrite Hc.
    change (seqZ 0 TrezorSigner.ADDRESS_CACHE_SIZE) with [0; 1; 2]%Z.
    cbn [TrezorSigner.load_addresses]. unfold bind at 1.
    cbn [TrezorSigner.get_address_path truthy]. unfold bind at 1.
    unfold TrezorSigner.get_address, TrezorSigner.handle_device_call,
      try_except, TrezorSigner.get_address_body, bind, ret, raise, lift,
      TrezorSigner.issue, modify.
    rewrite Hp, Hd, He. reflexivity.
Qed.

End TrezorConstructionFacts.

Section KeyMapFacts.

#[local] Abbreviation apply_key_map := TrezorSigner.apply_key_map.

(** The key a key of [value] is renamed to. *)
#[local] Abbreviation renamed key_mappings key :=
  (default key (key_mappings !! key : option string)).

Lemma apply_key_map_Return (key_mappings : gmap string string)
    (value r : gmap string pyval) :
  apply_key_map key_mappings value = Return r ->
  r = list_to_map ((fun kv => (renamed key_mappings (fst kv), snd kv))
                     <$> map_to_list value)
  /\ forall k t,
       is_Some (value !! t) -> key_mappings !! k = Some t ->
       is_Some (key_mappings !! t).
Proof.
  unfold TrezorSigner.apply_key_map.
  destruct (filter _ (map_to_list value).*1) as [| c cs] eqn:Hconf;
    [| discriminate].
  intros [= <-]. split; [reflexivity |].
  intros k t [v Hv] Hk.
  destruct (key_mappings !! t) eqn:Ht; [eauto |].
  exfalso. apply (not_elem_of_nil t). rewrite <- Hconf.
  apply list_elem_of_filter. split.
  - split; [exact Ht |].
    apply list_elem_of_fmap. exists (k, t). split; [reflexivity |].
    apply list_elem_of_filter. split; [simpl; eauto |].
    by apply elem_of_map_to_list.
  - apply list_elem_of_fmap. exists (t, v). split; [reflexivity |].
    by apply elem_of_map_to_list.
Qed.

(** [apply_key_map] with a mapping that sends different keys to
    different names: when it returns, every item of the dict is found
    under its new name (or its own, when the key is not remapped) with the
    value unchanged, and the result holds nothing else. *)
Lemma apply_key_map_renames_the_keys :
  forall (key_mappings : gmap string string) (value r : gmap string pyval),
    (forall k1 k2 t,
       key_mappings !! k1 = Some t -> key_mappings !! k2 = Some t -> k1 = k2) ->
    apply_key_map key_mappings value = Return r ->
    (forall k v, value !! k = Some v -> r !! renamed key_mappings k = Some v)
    /\ (forall k' v,
          r !! k' = Some v ->
          exists k, value !! k = Some v /\ k' = renamed key_mappings k).
Proof.
  intros key_mappings value r Hinj Hrun.
  apply apply_key_map_Return in Hrun as [-> Hfree].
  assert (Hnodup :
    NoDup (((fun kv : string * pyval => (renamed key_mappings (fst kv), snd kv))
              <$> map_to_list value).*1)).
  { rewrite <- list_fmap_compose.
    apply NoDup_fmap_2_strong; [| apply NoDup_map_to_list].
    intros [k1 v1] [k2 v2] H1 H2. simpl. intros Heq.
    apply elem_of_map_to_list in H1, H2.
    assert (k1 = k2) as ->.
    { destruct (key_mappings !! k1) as [t1 |] eqn:E1;
        destruct (key_mappings !! k2) as [t2 |] eqn:E2; simpl in Heq.
      - subst t2. by apply (Hinj k1 k2 t1).
      - subst t1. destruct (Hfree k1 k2) as [t Ht]; [eauto | done |]. congruence.
      - subst t2. destruct (Hfree k2 k1) as [t Ht]; [eauto | done |]. congruence.
      - done. }
    congruence. }
  split.
  - intros k v Hv. apply elem_of_list_to_map; [exact Hnodup |].
    apply list_elem_of_fmap. exists (k, v). split; [reflexivity |].
    by apply elem_of_map_to_list.
  - intros k' v Hr. apply elem_of_list_to_map in Hr; [| exact Hnodup].
    apply list_elem_of_fmap in Hr as ([k v0] & [= -> ->] & Hin).
    exists k. split; [by apply elem_of_map_to_list | reflexivity].
Qed.

(** [apply_key_map] refuses a dict that holds a key which is the new name
    of a mapping and is not renamed itself: it raises [KeyError]. *)
Lemma apply_key_map_conflict :
  forall (key_mappings : gmap string string) (value : gmap string pyval)
         (k t : string),
    key_mappings !! k = Some t ->
    key_mappings !! t = None ->
    is_Some (value !! t) ->
    exists e, apply_key_map key_mappings value = Raise e /\ exn_cls e = KeyError.
Proof.
  intros key_mappings value k t Hk Ht Hv.
  destruct (apply_key_map key_mappings value) as [r | e] eqn:Hrun.
  - apply apply_key_map_Return in Hrun as [_ Hfree].
    destruct (Hfree k t Hv Hk) as [? ?]. congruence.
  - exists e. split; [reflexivity |]. revert Hrun.
    unfold TrezorSigner.apply_key_map.
    destruct (filter _ _); [discriminate |]. by intros [= <-].
Qed.

Lemma trezor_transaction_keys_lookup k t :
  TrezorSigner.trezor_transaction_keys !! k = Some t ->
  (k = "gas" /\ t = "gas_limit") \/ (k = "gasPrice" /\ t = "gas_price")
  \/ (k = "chainId" /\ t = "chain_id").
Proof.
  unfold TrezorSigner.trezor_transaction_keys.
  rewrite !lookup_insert, lookup_empty.
  repeat case_decide; intros Heq; try discriminate Heq;
    inversion Heq; subst; auto.
Qed.

(** The renaming done for the device: the three renamed fields are found
    under their new names only, and every other field stays. *)
Lemma trezor_key_map (value t : gmap string pyval) :
  apply_key_map TrezorSigner.trezor_transaction_keys value = Return t ->
  t !! "gas_limit" = value !! "gas"
  /\ t !! "gas_price" = value !! "gasPrice"
  /\ t !! "chain_id" = value !! "chainId"
  /\ t !! "gas" = None /\ t !! "gasPrice" = None /\ t !! "chainId" = None
  /\ forall k,
       k ∉ ["gas"; "gasPrice"; "chainId"; "gas_limit"; "gas_price"; "chain_id"] ->
       t !! k = value !! k.
Proof.
  intros Hrun.
  destruct (apply_key_map_renames_the_keys _ _ _
              ltac:(intros k1 k2 t0 H1 H2;
                    apply trezor_transaction_keys_lookup in H1, H2;
                    intuition congruence) Hrun) as [Hto Hfrom].
  assert (Hlook : forall k', t !! k' = None \/
            exists k v, t !! k' = Some v /\ value !! k = Some v
                        /\ k' = default k (TrezorSigner.trezor_transaction_keys !! k)).
  { intros k'. destruct (t !! k') as [v |] eqn:E; [| by left].
    right. destruct (Hfrom k' v E) as (k & Hk & ->). eauto. }
  assert (Hsrc : forall k n,
            TrezorSigner.trezor_transaction_keys !! k = Some n ->
            t !! n = value !! k).
  { intros k n Hk. destruct (value !! k) as [v |] eqn:Ev.
    - specialize (Hto k v Ev). by rewrite Hk in Hto.
    - destruct (Hlook n) as [-> | (k0 & v & Ht & Hv & Hn)]; [done |].
      exfalso.
      destruct (TrezorSigner.trezor_transaction_keys !! k0) as [n0 |] eqn:E0;
        simpl in Hn.
      + subst n0. apply trezor_transaction_keys_lookup in Hk, E0.
        assert (k = k0) by intuition congruence. congruence.
      + subst k0. apply trezor_transaction_keys_lookup in Hk.
        revert E0. unfold TrezorSigner.trezor_transaction_keys.
        rewrite !lookup_insert, lookup_empty.
        destruct Hk as [[_ ->] | [[_ ->] | [_ ->]]];
          destruct (apply_key_map_Return _ _ _ Hrun) as [_ Hfree].
        * destruct (Hfree "gas" "gas_limit") as [? Hc]; [eauto | done |].
          intros _. revert Hc. unfold TrezorSigner.trezor_transaction_keys.
          rewrite !lookup_insert, lookup_empty. by repeat case_decide.
        * destruct (Hfree "gasPrice" "gas_price") as [? Hc]; [eauto | done |].
          intros _. revert Hc. unfold TrezorSigner.trezor_transaction_keys.
          rewrite !lookup_insert, lookup_empty. by repeat case_decide.
        * destruct (Hfree "chainId" "chain_id") as [? Hc]; [eauto | done |].
          intros _. revert Hc. unfold TrezorSigner.trezor_transaction_keys.
          rewrite !lookup_insert, lookup_empty. by repeat case_decide. }
  assert (Hgone : forall k n,
            TrezorSigner.trezor_transaction_keys !! k = Some n -> t !! k = None).
  { intros k n Hk. destruct (Hlook k) as [-> | (k0 & v & Ht & Hv & Hn)]; [done |].
    exfalso.
    destruct (TrezorSigner.trezor_transaction_keys !! k0) as [n0 |] eqn:E0;
      simpl in Hn.
    - subst n0. apply trezor_transaction_keys_lookup in Hk, E0.
      intuition congruence.
    - subst k0. congruence. }
  split; [by apply Hsrc |]. split; [by apply Hsrc |]. split; [by apply Hsrc |].
  split; [by apply (Hgone "gas" "gas_limit") |].
  split; [by apply (Hgone "gasPrice" "gas_price") |].
  split; [by apply (Hgone "chainId" "chain_id") |].
  intros k Hk.
  assert (Hnone : TrezorSigner.trezor_transaction_keys !! k = None).
  { destruct (TrezorSigner.trezor_transaction_keys !! k) as [n |] eqn:E; [| done].
    exfalso. apply Hk. apply trezor_transaction_keys_lookup in E.
    destruct E as [[-> _] | [[-> _] | [-> _]]]; set_solver. }
  destruct (value !! k) as [v |] eqn:Ev.
  - specialize (Hto k v Ev). by rewrite Hnone in Hto.
  - destruct (Hlook k) as [-> | (k0 & v & Ht & Hv & Hn)]; [done |].
    exfalso.
    destruct (TrezorSigner.trezor_transaction_keys !! k0) as [n0 |] eqn:E0;
      simpl in Hn.
    + subst n0. apply Hk. apply trezor_transaction_keys_lookup in E0.
      destruct E0 as [[_ ->] | [[_ ->] | [_ ->]]]; set_solver.
    + subst k0. congruence.
Qed.

End KeyMapFacts.

Section TrezorDeviceRequest.

Variable hd_path_for_index : Z -> list Z.
Variable ethereum_sign_tx :
  list Z -> gmap string pyval -> result (pyval * pyval * pyval).
Variable assert_valid_fields : gmap string pyval -> result unit.
Variable Web3_toBytes_HexBytes : pyval -> result pyval.
Variable to_canonical_address : pyval -> result pyval.
Variable to_int : pyval -> result pyval.
Variable rlp_encode : gmap string pyval -> result pyval.

#[local] Abbreviation sign_transaction_body :=
  (TrezorSigner.sign_transaction_body hd_path_for_index ethereum_sign_tx
     assert_valid_fields Web3_toBytes_HexBytes to_canonical_address to_int
     rlp_encode).
#[local] Abbreviation sign_transaction :=
  (TrezorSigner.sign_transaction hd_path_for_index ethereum_sign_tx
     assert_valid_fields Web3_toBytes_HexBytes to_canonical_address to_int
     rlp_encode).

(** The request that a returning [sign_transaction] made: the renamed
    transaction, with its data formatted when there is any. *)
Lemma sign_transaction_request transaction_dict rlp_encoded st signed st' :
  sign_transaction transaction_dict rlp_encoded st = (Return signed, st') ->
  exists hd_path t0 t,
    TrezorSigner.apply_key_map TrezorSigner.trezor_transaction_keys
      (delete "from" transaction_dict) = Return t0
    /\ (t = t0 \/ exists d, t = <["data" := d]> t0)
    /\ TrezorSigner.device_calls st'
       = TrezorSigner.device_calls st ++ [TrezorSigner.SignTx hd_path t].
Proof.
  unfold TrezorSigner.sign_transaction, TrezorSigner.handle_device_call,
    try_except.
  destruct (sign_transaction_body transaction_dict rlp_encoded st)
    as [[r | e] st1] eqn:Hbody.
  - intros [= -> ->]. revert Hbody.
    unfold TrezorSigner.sign_transaction_body, bind, lift, ret, dict_getitem.
    simpl dict_get. intros H.
    destruct (transaction_dict !! "from") as [sender |]; [| discriminate H].
    destruct (assert_valid_fields _); [| discriminate H].
    destruct (TrezorSigner.apply_key_map _ _) as [t0 |]; [| discriminate H].
    match type of H with
    | context [match (if ?c then ?x else ?y) with _ => _ end] =>
        destruct (if c then x else y) as [[t d] | e0] eqn:Hfmt;
          [| discriminate H]
    end.
    cbn [fst snd] in H.
    destruct (TrezorSigner.get_address_path _ _ _ _) as [n |];
      [| discriminate H].
    exists n, t0, t. split; [reflexivity |].
    split.
    { destruct (truthy _) in Hfmt.
      - destruct (Web3_toBytes_HexBytes _) in Hfmt; [| discriminate Hfmt].
        destruct (delete "from" transaction_dict !! "data") in Hfmt;
          [| discriminate Hfmt].
        destruct (Web3_toBytes_HexBytes _) in Hfmt; [| discriminate Hfmt].
        inversion Hfmt; subst. right. eauto.
      - inversion Hfmt; subst. by left. }
    unfold TrezorSigner.issue, modify in H.
    destruct (ethereum_sign_tx _ _) as [[[v r0] s] |]; [| discriminate H].
    cbn [fst snd dict_get] in H.
    destruct (d !! "chainId"); [| discriminate H].
    destruct (to_canonical_address sender); [| discriminate H].
    destruct (to_int v); [| discriminate H].
    destruct (to_int r0); [| discriminate H].
    destruct (to_int s); [| discriminate H].
    destruct (TrezorSigner.Transaction _ _ _ _); [| discriminate H].
    destruct rlp_encoded.
    + destruct (rlp_encode _); [| discriminate H].
      by inversion H; subst.
    + by inversion H; subst.
  - destruct (isinstance e USBErrorNoDevice); [discriminate |].
    destruct (isinstance e USBErrorBusy); discriminate.
Qed.

(** X19. When [sign_transaction] returns, the transaction it sent to the
    device carries the gas, the gas price and the chain id of the input
    under the names gas_limit, gas_price and chain_id and not under the old
    ones, the nonce, the recipient and the value of the input unchanged,
    and no sender. *)
Theorem device_receives_the_renamed_transaction :
  forall (transaction_dict : gmap string pyval) (rlp_encoded : bool)
         (st st' : TrezorSigner.state)
         (signed : TrezorSigner.signed_transaction),
    sign_transaction transaction_dict rlp_encoded st = (Return signed, st') ->
    exists hd_path t,
      TrezorSigner.device_calls st'
      = TrezorSigner.device_calls st ++ [TrezorSigner.SignTx hd_path t]
      /\ t !! "gas_limit" = transaction_dict !! "gas"
      /\ t !! "gas_price" = transaction_dict !! "gasPrice"
      /\ t !! "chain_id" = transaction_dict !! "chainId"
      /\ t !! "nonce" = transaction_dict !! "nonce"
      /\ t !! "to" = transaction_dict !! "to"
      /\ t !! "value" = transaction_dict !! "value"
      /\ t !! "gas" = None /\ t !! "gasPrice" = None /\ t !! "chainId" = None
      /\ t !! "from" = None.
Proof.
  intros transaction_dict rlp_encoded st st' signed Hrun.
  destruct (sign_transaction_request _ _ _ _ _ Hrun)
    as (n & t0 & t & Hmap & Ht & Hcalls).
  exists n, t. split; [exact Hcalls |].
  destruct (trezor_key_map _ _ Hmap)
    as (Hgl & Hgp & Hci & Hg & Hgpr & Hc & Hother).
  assert (Hsame : forall k, k <> "data" -> t !! k = t0 !! k).
  { intros k Hk. destruct Ht as [-> | [d ->]]; [done |].
    by rewrite lookup_insert_ne. }
  rewrite !Hsame by done.
  rewrite Hgl, Hgp, Hci, Hg, Hgpr, Hc.
  rewrite !Hother
    by (intros Hm;
        repeat (apply elem_of_cons in Hm as [Hm | Hm]; [discriminate Hm |]);
        by apply elem_of_nil in Hm).
  rewrite !lookup_delete_ne by done. rewrite lookup_delete_eq.
  repeat split; reflexivity.
Qed.

End TrezorDeviceRequest.

(* ===================================================================== *)
(** ** More about [ClefSigner]                                            *)
(* ===================================================================== *)

Section FormatterFacts.

(** [apply_formatters_to_dict], when it returns: the same keys, each value
    formatted when its key has a formatter, and no formatter failed. *)
Lemma apply_formatters_to_dict_Return
    (formatters : gmap string (pyval -> result pyval))
    (value formatted : gmap string pyval) :
  ClefSigner.apply_formatters_to_dict formatters value = Return formatted ->
  forall k,
    formatted !! k
    = match value !! k with
      | None => None
      | Some v =>
          match formatters !! k with
          | None => Some v
          | Some formatter =>
              match formatter v with
              | Return v' => Some v'
              | Raise _ => None
              end
          end
      end
    /\ forall v formatter,
         value !! k = Some v -> formatters !! k = Some formatter ->
         is_raise (formatter v) = false.
Proof.
  unfold ClefSigner.apply_formatters_to_dict. revert formatted.
  apply (map_fold_weak_ind
           (fun r m => forall formatted, r = Return formatted ->
              forall k, formatted !! k
                = match m !! k with
                  | None => None
                  | Some v =>
                      match formatters !! k with
                      | None => Some v
                      | Some formatter =>
                          match formatter v with
                          | Return v' => Some v'
                          | Raise _ => None
                          end
                      end
                  end
                /\ forall v formatter,
                     m !! k = Some v -> formatters !! k = Some formatter ->
                     is_raise (formatter v) = false)).
  - intros formatted [= <-] k. rewrite !lookup_empty. split; [done |].
    intros v formatter Hv. discriminate Hv.
  - intros i x m r Hi IH formatted Hstep k.
    destruct r as [acc | e]; [| discriminate Hstep].
    specialize (IH acc eq_refl).
    destruct (formatters !! i) as [formatter |] eqn:Hf.
    + destruct (formatter x) as [x' | e] eqn:Hx.
      * inversion Hstep; subst formatted.
        destruct (decide (i = k)) as [-> | Hne].
        -- rewrite !lookup_insert_eq, Hf, Hx. split; [done |].
           intros v f0 [= <-] [= <-]. by rewrite Hx.
        -- rewrite !lookup_insert_ne by done. apply IH.
      * destruct (isinstance e TypeError || isinstance e ValueError);
          discriminate Hstep.
    + inversion Hstep; subst formatted.
      destruct (decide (i = k)) as [-> | Hne].
      * rewrite !lookup_insert_eq, Hf. split; [done |].
        intros v f0 _ Hf0. discriminate Hf0.
      * rewrite !lookup_insert_ne by done. apply IH.
Qed.

End FormatterFacts.

Section ClefMore.

Import Decorators.

Variable is_hex_address : string -> bool.
Variable to_checksum_address : string -> string.
Variable request_blocking : string -> list pyval -> result pyval.
Variable Web3_toHex : pyval -> result pyval.
Variable Web3_toHex_bytes : list byte -> string.
Variable to_checksum_address_formatter : pyval -> result pyval.
Variable HexBytes : pyval -> result pyval.
Variable attribute_raw : pyval -> result pyval.
Variable NULL_ADDRESS : string.
Variable ipc_path : string.

#[local] Abbreviation ipc_request :=
  (ClefSigner.ipc_request request_blocking ipc_path).
#[local] Abbreviation formatters :=
  (ClefSigner.formatters Web3_toHex to_checksum_address_formatter).
#[local] Abbreviation format_transaction :=
  (ClefSigner.format_transaction Web3_toHex to_checksum_address_formatter).
#[local] Abbreviation sign_message_body :=
  (ClefSigner.sign_message_body request_blocking Web3_toHex_bytes HexBytes
     NULL_ADDRESS ipc_path).
#[local] Abbreviation sign_message :=
  (ClefSigner.sign_message is_hex_address to_checksum_address
     request_blocking Web3_toHex_bytes HexBytes NULL_ADDRESS ipc_path).
#[local] Abbreviation hex_message := (ClefSigner.hex_message Web3_toHex_bytes).

Lemma formatters_lookup k :
  formatters !! k
  = if bool_decide (k ∈ ["nonce"; "gasPrice"; "gas"; "value"; "chainId"])
    then Some Web3_toHex
    else if bool_decide (k = "from") then Some to_checksum_address_formatter
    else None.
Proof.
  unfold ClefSigner.formatters. rewrite !lookup_insert, lookup_empty.
  repeat case_decide; subst; try reflexivity;
    repeat case_bool_decide; try reflexivity; try congruence;
    match goal with
    | Hn : ?k ∉ _ |- _ =>
        exfalso; apply Hn;
        repeat first [apply list_elem_of_here | apply list_elem_of_further]
    | Hi : ?k ∈ _ |- _ =>
        repeat (apply elem_of_cons in Hi as [Hi | Hi]; [congruence |]);
        by apply elem_of_nil in Hi
    end.
Qed.

(** X20. What [sign_transaction] sends to the daemon, when the formatting
    succeeds: the recipient is [None] for a contract creation written with
    empty bytes, the checksummed recipient when 'to' is truthy, and 'to'
    as it is otherwise; nonce, gas price, gas, value and chain id are in
    hex and the sender is checksummed; every other field is unchanged.
    A transaction without a 'to' key is a [KeyError]. *)
Theorem clef_transaction_formatting :
  forall (transaction_dict : gmap string pyval),
    (transaction_dict !! "to" = None ->
     format_transaction transaction_dict
     = Raise (mk_exn KeyError [Val (PyStr "to")]))
    /\ forall formatted,
         format_transaction transaction_dict = Return formatted ->
         (exists to,
            transaction_dict !! "to" = Some to
            /\ formatted !! "to"
               = if eq_empty_bytes to then Some PyNone
                 else if truthy to
                 then match to_checksum_address_formatter to with
                      | Return checksummed => Some checksummed
                      | Raise _ => None
                      end
                 else Some to)
         /\ (forall k v,
               k ∈ ["nonce"; "gasPrice"; "gas"; "value"; "chainId"] ->
               transaction_dict !! k = Some v ->
               exists hex, Web3_toHex v = Return hex /\ formatted !! k = Some hex)
         /\ (forall v,
               transaction_dict !! "from" = Some v ->
               exists checksummed,
                 to_checksum_address_formatter v = Return checksummed
                 /\ formatted !! "from" = Some checksummed)
         /\ (forall k,
               k ∉ ["to"; "from"; "nonce"; "gasPrice"; "gas"; "value"; "chainId"] ->
               formatted !! k = transaction_dict !! k).
Proof.
  intros transaction_dict. split.
  - intros Hto. unfold ClefSigner.format_transaction, dict_getitem. simpl.
    by rewrite Hto.
  - intros formatted. unfold ClefSigner.format_transaction, dict_getitem.
    simpl. destruct (transaction_dict !! "to") as [to |] eqn:Hto;
      [| discriminate].
    intros Hrun.
    assert (Hother : exists fs value,
      ClefSigner.apply_formatters_to_dict fs value = Return formatted
      /\ (forall k, k <> "to" -> fs !! k = formatters !! k
                                 /\ value !! k = transaction_dict !! k)
      /\ formatted !! "to"
         = if eq_empty_bytes to then Some PyNone
           else if truthy to
           then match to_checksum_address_formatter to with
                | Return checksummed => Some checksummed
                | Raise _ => None
                end
           else Some to).
    { destruct (eq_empty_bytes to) eqn:He; [| destruct (truthy to) eqn:Ht].
      - eexists _, _. split; [exact Hrun |]. split.
        + intros k Hk. by rewrite lookup_insert_ne.
        + rewrite (proj1 (apply_formatters_to_dict_Return _ _ _ Hrun "to")).
          rewrite lookup_insert_eq, formatters_lookup. reflexivity.
      - eexists _, _. split; [exact Hrun |]. split.
        + intros k Hk. by rewrite lookup_insert_ne.
        + rewrite (proj1 (apply_formatters_to_dict_Return _ _ _ Hrun "to")).
          by rewrite Hto, lookup_insert_eq.
      - eexists _, _. split; [exact Hrun |]. split; [done |].
        rewrite (proj1 (apply_formatters_to_dict_Return _ _ _ Hrun "to")).
        rewrite Hto, formatters_lookup. reflexivity. }
    destruct Hother as (fs & value & Hfmt & Hsame & Hrecipient).
    pose proof (apply_formatters_to_dict_Return _ _ _ Hfmt) as Hlook.
    split; [eauto |]. split; [| split].
    + intros k v Hk Hv.
      assert (Hne : k <> "to").
      { intros ->.
        repeat (apply elem_of_cons in Hk as [Hk | Hk]; [discriminate Hk |]).
        by apply elem_of_nil in Hk. }
      destruct (Hsame k Hne) as [Hfs Hval].
      destruct (Hlook k) as [Hk1 Hk2].
      rewrite Hval, Hv, Hfs, formatters_lookup in Hk1.
      rewrite bool_decide_eq_true_2 in Hk1 by done.
      specialize (Hk2 v Web3_toHex). rewrite Hval, Hfs, formatters_lookup in Hk2.
      rewrite bool_decide_eq_true_2 in Hk2 by done.
      specialize (Hk2 Hv eq_refl).
      destruct (Web3_toHex v) as [hex | e]; [eauto | discriminate Hk2].
    + intros v Hv.
      destruct (Hsame "from" ltac:(done)) as [Hfs Hval].
      destruct (Hlook "from") as [Hk1 Hk2].
      rewrite Hval, Hv, Hfs, formatters_lookup in Hk1. simpl in Hk1.
      specialize (Hk2 v to_checksum_address_formatter).
      rewrite Hval, Hfs, formatters_lookup in Hk2. simpl in Hk2.
      specialize (Hk2 Hv eq_refl).
      destruct (to_checksum_address_formatter v) as [c | e];
        [eauto | discriminate Hk2].
    + intros k Hk.
      assert (Hne : k <> "to").
      { intros ->. apply Hk. apply list_elem_of_here. }
      destruct (Hsame k Hne) as [Hfs Hval].
      rewrite (proj1 (Hlook k)), Hval, Hfs, formatters_lookup.
      rewrite bool_decide_eq_false_2.
      * rewrite bool_decide_eq_false_2; [by destruct (transaction_dict !! k) |].
        intros ->. apply Hk. apply list_elem_of_further, list_elem_of_here.
      * intros Hin. apply Hk. apply list_elem_of_further, list_elem_of_further.
        exact Hin.
Qed.

End ClefMore.

Section ClefMessages.

Import Decorators.

Variable is_hex_address : string -> bool.
Variable to_checksum_address : string -> string.
Variable request_blocking : string -> list pyval -> result pyval.
Variable Web3_toHex_bytes : list byte -> string.
Variable HexBytes : pyval -> result pyval.
Variable NULL_ADDRESS : string.
Variable ipc_path : string.

#[local] Abbreviation ipc_request :=
  (ClefSigner.ipc_request request_blocking ipc_path).
#[local] Abbreviation sign_message_body :=
  (ClefSigner.sign_message_body request_blocking Web3_toHex_bytes HexBytes
     NULL_ADDRESS ipc_path).
#[local] Abbreviation hex_message := (ClefSigner.hex_message Web3_toHex_bytes).

Lemma ipc_request_answer endpoint request_args w answer :
  request_blocking endpoint request_args = Return answer ->
  ipc_request endpoint request_args w
  = (Return answer, ClefSigner.sent w endpoint request_args).
Proof.
  intros H. unfold ClefSigner.ipc_request, try_except, bind, modify, lift,
    ClefSigner.sent. by rewrite H.
Qed.

(** With the content type 'data/validator', a validator address that is
    absent, empty or the null address makes the body of [sign_message]
    fail with [ValueError] before any request to the daemon. *)
Lemma validator_address_is_required :
  forall (account message validator_address : pyval) (w : ClefSigner.world),
    truthy validator_address = false
    \/ eq_str validator_address NULL_ADDRESS = true ->
    sign_message_body account message
      (PyStr ClefSigner.SIGN_DATA_FOR_VALIDATOR) validator_address w
    = (Raise (mk_exn ValueError
                [Lit "When using the intended validator type, a validator address is required."]),
       w).
Proof.
  intros account message validator_address w Hva.
  unfold ClefSigner.sign_message_body, bind, ret, raise. simpl.
  destruct Hva as [-> | ->]; [reflexivity |]. by rewrite orb_true_r.
Qed.

(** A content type that is truthy and none of the three known ones makes
    the body of [sign_message] fail with [ValueError], naming the content
    type and the valid ones, before any request to the daemon. *)
Lemma unknown_content_type_is_rejected :
  forall (account message content_type validator_address : pyval)
         (w : ClefSigner.world),
    truthy content_type = true ->
    eq_str content_type ClefSigner.SIGN_DATA_FOR_VALIDATOR = false ->
    eq_str content_type ClefSigner.SIGN_DATA_FOR_CLIQUE = false ->
    eq_str content_type ClefSigner.SIGN_DATA_FOR_ECRECOVER = false ->
    sign_message_body account message content_type validator_address w
    = (Raise (mk_exn ValueError
                [Val content_type; Lit " is not a valid content type. ";
                 Lit "Valid types are ";
                 Val (PyList [PyStr "data/validator"; PyStr "application/clique";
                              PyStr "text/plain"])]),
       w).
Proof.
  intros account message content_type validator_address w Ht Hv Hc He.
  unfold ClefSigner.sign_message_body, bind, ret, raise.
  rewrite Ht. simpl. by rewrite Hv, Hc, He.
Qed.

(** X21. [sign_message] for a checksummed account, with a validator
    address that is absent or checksummed: a content type that is truthy
    and none of the three known ones is a [ValueError] naming it and the
    valid ones; the content type 'data/validator' with a validator address
    that is absent or the null address is a [ValueError] too. Either way
    nothing is sent to the daemon, in whichever order the call binds the
    two address arguments. *)
Theorem sign_message_usage_errors :
  forall (order : ClefSigner.binding_order) (a : string)
         (message content_type validator_address : pyval)
         (kwargs : list (string * pyval)) (w : ClefSigner.world),
    Decorators.is_checksum_address is_hex_address to_checksum_address (PyStr a)
    = true ->
    is_None validator_address
    || Decorators.is_checksum_address is_hex_address to_checksum_address
         validator_address = true ->
    (truthy content_type = true ->
     eq_str content_type ClefSigner.SIGN_DATA_FOR_VALIDATOR = false ->
     eq_str content_type ClefSigner.SIGN_DATA_FOR_CLIQUE = false ->
     eq_str content_type ClefSigner.SIGN_DATA_FOR_ECRECOVER = false ->
     exists verified',
       ClefSigner.sign_message is_hex_address to_checksum_address
         request_blocking Web3_toHex_bytes HexBytes NULL_ADDRESS ipc_path
         order (PyStr a) message content_type validator_address kwargs w
       = (Raise (mk_exn ValueError
                   [Val content_type; Lit " is not a valid content type. ";
                    Lit "Valid types are ";
                    Val (PyList [PyStr "data/validator";
                                 PyStr "application/clique";
                                 PyStr "text/plain"])]),
          (verified', snd w)))
    /\ (truthy validator_address = false
        \/ eq_str validator_address NULL_ADDRESS = true ->
        exists verified',
          ClefSigner.sign_message is_hex_address to_checksum_address
            request_blocking Web3_toHex_bytes HexBytes NULL_ADDRESS ipc_path
            order (PyStr a) message (PyStr ClefSigner.SIGN_DATA_FOR_VALIDATOR)
            validator_address kwargs w
          = (Raise (mk_exn ValueError
                      [Lit "When using the intended validator type, a validator address is required."]),
             (verified', snd w))).
Proof.
  intros order a message content_type validator_address kwargs w Hacc Hva.
  split.
  - intros Ht Hv Hc He.
    destruct (sign_message_arguments_pass is_hex_address to_checksum_address
                order (fst w) a message content_type validator_address kwargs
                Hacc Hva) as (v' & Hpass).
    exists v'.
    unfold ClefSigner.sign_message, ClefSigner.validated,
      Decorators.validate_checksum_address.
    rewrite Hpass.
    by rewrite (unknown_content_type_is_rejected (PyStr a) message content_type
                  validator_address (v', snd w) Ht Hv Hc He).
  - intros Hreq.
    destruct (sign_message_arguments_pass is_hex_address to_checksum_address
                order (fst w) a message (PyStr ClefSigner.SIGN_DATA_FOR_VALIDATOR)
                validator_address kwargs Hacc Hva) as (v' & Hpass).
    exists v'.
    unfold ClefSigner.sign_message, ClefSigner.validated,
      Decorators.validate_checksum_address.
    rewrite Hpass.
    by rewrite (validator_address_is_required (PyStr a) message
                  validator_address (v', snd w) Hreq).
Qed.

(** X22. The requests of [sign_message]: a falsy content type (absent or
    empty) is signed as 'text/plain'; with 'text/plain' the daemon is
    asked once to sign the message, bytes turned to hex; with
    'data/validator' and a usable validator address it is asked once to
    sign the dict of that address and the message. The answer goes
    through [HexBytes]. *)
Theorem sign_message_requests :
  forall (account message validator_address : pyval) (w : ClefSigner.world),
    (forall content_type,
       truthy content_type = false ->
       sign_message_body account message content_type validator_address w
       = sign_message_body account message
           (PyStr ClefSigner.SIGN_DATA_FOR_ECRECOVER) validator_address w)
    /\ (forall answer,
          request_blocking "account_signData"
            [PyStr "text/plain"; account; hex_message message] = Return answer ->
          sign_message_body account message
            (PyStr ClefSigner.SIGN_DATA_FOR_ECRECOVER) validator_address w
          = (HexBytes answer,
             ClefSigner.sent w "account_signData"
               [PyStr "text/plain"; account; hex_message message]))
    /\ (forall answer,
          truthy validator_address = true ->
          eq_str validator_address NULL_ADDRESS = false ->
          request_blocking "account_signData"
            [PyStr "data/validator"; account;
             PyDict [("address", validator_address);
                     ("message", hex_message message)]] = Return answer ->
          sign_message_body account message
            (PyStr ClefSigner.SIGN_DATA_FOR_VALIDATOR) validator_address w
          = (HexBytes answer,
             ClefSigner.sent w "account_signData"
               [PyStr "data/validator"; account;
                PyDict [("address", validator_address);
                        ("message", hex_message message)]])).
Proof.
  intros account message validator_address w. split; [| split].
  - intros content_type Ht.
    unfold ClefSigner.sign_message_body, bind, ret. by rewrite Ht.
  - intros answer Hreq.
    unfold ClefSigner.sign_message_body, bind, ret, lift.
    cbn [truthy eq_str String.eqb Ascii.eqb Bool.eqb negb existsb orb
         ClefSigner.SIGN_DATA_CONTENT_TYPES ClefSigner.SIGN_DATA_FOR_VALIDATOR
         ClefSigner.SIGN_DATA_FOR_CLIQUE ClefSigner.SIGN_DATA_FOR_ECRECOVER].
    unfold ClefSigner.SIGN_DATA_FOR_ECRECOVER.
    by rewrite (ipc_request_answer _ _ w answer Hreq).
  - intros answer Ht Hn Hreq.
    unfold ClefSigner.sign_message_body, bind, ret, lift.
    cbn [truthy eq_str String.eqb Ascii.eqb Bool.eqb negb existsb orb
         ClefSigner.SIGN_DATA_CONTENT_TYPES ClefSigner.SIGN_DATA_FOR_VALIDATOR
         ClefSigner.SIGN_DATA_FOR_CLIQUE ClefSigner.SIGN_DATA_FOR_ECRECOVER].
    rewrite Ht, Hn. cbn [negb orb].
    unfold ClefSigner.SIGN_DATA_FOR_VALIDATOR.
    by rewrite (ipc_request_answer _ _ w answer Hreq).
Qed.

End ClefMessages.

(* ===================================================================== *)
(** ** About [Web3Signer]                                                 *)
(* ===================================================================== *)

Section Web3Facts.

Import Decorators.

Variable is_hex_address : string -> bool.
Variable to_checksum_address : string -> string.
Variable client_wallets : result (list Web3Signer.wallet).
Variable client_unlock_account : pyval -> pyval -> pyval -> result pyval.
Variable client_lock_account : pyval -> result pyval.

#[local] Abbreviation is_checksum_address :=
  (Decorators.is_checksum_address is_hex_address to_checksum_address).
#[local] Abbreviation hw_addresses := (Web3Signer.hw_addresses to_checksum_address).
#[local] Abbreviation is_device_body :=
  (Web3Signer.is_device_body to_checksum_address client_wallets).
#[local] Abbreviation is_device :=
  (Web3Signer.is_device is_hex_address to_checksum_address client_wallets).
#[local] Abbreviation unlock_account :=
  (Web3Signer.unlock_account is_hex_address to_checksum_address client_wallets
     client_unlock_account).
#[local] Abbreviation lock_account :=
  (Web3Signer.lock_account is_hex_address to_checksum_address client_wallets
     client_lock_account).

Lemma is_device_checked verified st a :
  is_checksum_address (PyStr a) = true ->
  a ∈ verified ->
  is_device (PyStr a) (verified, st) = (is_device_body (PyStr a), (verified, st)).
Proof.
  intros Hok Hin. unfold Web3Signer.is_device, Web3Signer.validated,
    Decorators.validate_checksum_address.
  destruct (validate_account is_hex_address to_checksum_address verified
              (PyObject "Web3Signer") a [] Hok (Forall_nil_2 _))
    as (v' & Hv & _ & Hsame).
  unfold Web3Signer.self. simpl fst. rewrite Hv. by rewrite (Hsame Hin).
Qed.

(** X23. For a checksummed account of a hardware wallet (a wallet of the
    client whose url starts with 'trezor' or 'ledger'), [unlock_account]
    returns true and [lock_account] returns [None] without any call to the
    client: the password is not sent to the node. *)
Theorem hardware_account_is_not_sent_to_the_client :
  forall (verified : gset string) (st : Web3Signer.state) (a : string)
         (wallets : list Web3Signer.wallet) (password duration : pyval),
    is_checksum_address (PyStr a) = true ->
    client_wallets = Return wallets ->
    a ∈ hw_addresses wallets ->
    exists verified',
      unlock_account (PyStr a) password duration (verified, st)
      = (Return (PyBool true), (verified', st))
      /\ lock_account (PyStr a) (verified, st) = (Return PyNone, (verified', st)).
Proof.
  intros verified st a wallets password duration Hok Hw Hin.
  assert (Hdev : is_device_body (PyStr a) = Return true).
  { unfold Web3Signer.is_device_body. rewrite Hw. simpl.
    by rewrite bool_decide_eq_true_2. }
  destruct (validate_account is_hex_address to_checksum_address verified
              (PyObject "Web3Signer") a
              [mk_parameter "password" false password;
               mk_parameter "duration" true duration] Hok)
    as (v' & Hv & Hv' & _).
  { repeat constructor. }
  destruct (validate_account is_hex_address to_checksum_address verified
              (PyObject "Web3Signer") a [] Hok (Forall_nil_2 _))
    as (v'' & Hv2 & Hv2' & _).
  assert (v'' = v') as ->.
  { revert Hv Hv2. simpl.
    destruct (Decorators.check_parameter _ _ _ _) as [[u | e] v1]; simpl;
      [| discriminate].
    by intros [= <-] [= <-]. }
  exists v'. split.
  - unfold Web3Signer.unlock_account, Web3Signer.validated,
      Decorators.validate_checksum_address, Web3Signer.self.
    simpl fst. rewrite Hv. simpl snd.
    unfold Web3Signer.unlock_account_body, bind.
    by rewrite (is_device_checked v' st a Hok Hv'), Hdev.
  - unfold Web3Signer.lock_account, Web3Signer.validated,
      Decorators.validate_checksum_address, Web3Signer.self.
    simpl fst. rewrite Hv2. simpl snd.
    unfold Web3Signer.lock_account_body, bind.
    by rewrite (is_device_checked v' st a Hok Hv'), Hdev.
Qed.

(** X24. For a checksummed account that is no hardware account, or when
    the client has no [wallets] attribute at all, [unlock_account] makes
    exactly one call to the client, with the account, the password and the
    duration it was given, and its outcome is the outcome of that call. *)
Theorem software_account_is_unlocked_by_the_client :
  forall (verified : gset string) (st : Web3Signer.state) (a : string)
         (password duration : pyval),
    is_checksum_address (PyStr a) = true ->
    (exists e, client_wallets = Raise e /\ isinstance e AttributeError = true)
    \/ (exists wallets, client_wallets = Return wallets
                        /\ a ∉ hw_addresses wallets) ->
    exists verified',
      unlock_account (PyStr a) password duration (verified, st)
      = (client_unlock_account (PyStr a) password duration,
         (verified',
          st ++ [Web3Signer.UnlockAccount (PyStr a) password duration])).
Proof.
  intros verified st a password duration Hok Hsoft.
  assert (Hdev : is_device_body (PyStr a) = Return false).
  { unfold Web3Signer.is_device_body.
    destruct Hsoft as [(e & -> & ->) | (wallets & -> & Hnin)]; [reflexivity |].
    simpl. by rewrite bool_decide_eq_false_2. }
  destruct (validate_account is_hex_address to_checksum_address verified
              (PyObject "Web3Signer") a
              [mk_parameter "password" false password;
               mk_parameter "duration" true duration] Hok)
    as (v' & Hv & Hv' & _).
  { repeat constructor. }
  exists v'.
  unfold Web3Signer.unlock_account, Web3Signer.validated,
    Decorators.validate_checksum_address, Web3Signer.self.
  simpl fst. rewrite Hv. simpl snd.
  unfold Web3Signer.unlock_account_body, bind.
  rewrite (is_device_checked v' st a Hok Hv'), Hdev.
  reflexivity.
Qed.

End Web3Facts.

(* ===================================================================== *)
(** ** About the signer URIs                                              *)
(* ===================================================================== *)

Section URIFacts.

Import KeystoreLifecycle.

Variable urlparse : string -> result parsed_uri.

#[local] Abbreviation is_valid_clef_uri := (SignerURI.is_valid_clef_uri urlparse).
#[local] Abbreviation clef_from_signer_uri :=
  (SignerURI.clef_from_signer_uri urlparse).


End URIFacts.

(** A clef URI makes a signer for its path; a URI with an open bracket in
    its netloc fails with the [ValueError] of [urlparse]; a keystore URI
    is no clef URI. *)
Example clef_uris :
  SignerURI.clef_from_signer_uri Fixtures.urlparse
    "clef:///home/user/.clef/clef.ipc"
  = Return "/home/user/.clef/clef.ipc"
  /\ SignerURI.clef_from_signer_uri Fixtures.urlparse "clef://["
     = Raise (mk_exn ValueError [Lit "Invalid IPv6 URL"])
  /\ SignerURI.is_valid_clef_uri Fixtures.urlparse "clef://["
     = Raise (mk_exn ValueError [Lit "Invalid IPv6 URL"])
  /\ SignerURI.clef_from_signer_uri Fixtures.urlparse "keystore:///keys"
     = Raise (mk_exn InvalidSignerURI
                [Val (PyStr "keystore:///keys");
                 Lit " is not a valid clef signer URI."]).
Proof. repeat split; reflexivity. Qed.

(** A keystore URI with a netloc is turned down before the disk is looked
    at; one without is read from its path; and a trezor URI leaves the
    making of the signer to [__init__]. *)
Example keystore_and_trezor_uris :
  fst (KeystoreLifecycle.from_signer_uri string string Fixtures.os_stat
         Fixtures.os_scandir Fixtures.read_keyfile Fixtures.is_address
         Fixtures.to_checksum_address_of Fixtures.urlparse
         "keystore://host/keys")
  = Raise (mk_exn InvalidSignerURI [Val (PyStr "keystore://host/keys")])
  /\ KeystoreLifecycle.from_signer_uri string string Fixtures.os_stat
       Fixtures.os_scandir Fixtures.read_keyfile Fixtures.is_address
       Fixtures.to_checksum_address_of Fixtures.urlparse "keystore:///keys"
     = (Return tt,
        KeystoreSigner.mk_state string string
          {[Demo.address_0 := "pw-a"; Demo.address_1 := "pw-b"]} ∅)
  /\ (forall init,
        SignerURI.trezor_from_signer_uri Fixtures.urlparse init "trezor://"
        = init).
Proof. repeat split; vm_compute; reflexivity. Qed.

(* ===================================================================== *)
(** ** The theorems above at concrete inputs                              *)
(* ===================================================================== *)

Lemma unlock_account_caches_the_signer_witness :
  exists verified',
    KeystoreSigner.unlock_account Demo.is_hex_address Demo.to_checksum_address
      string string Demo.Account_decrypt Demo.Account_from_key
      (PyStr Demo.address_0) (PyStr "correct-pw") PyNone (∅, Demo.keystore)
    = (Return true,
       (verified',
        KeystoreSigner.mk_state string string
          (KeystoreSigner.keys _ _ Demo.keystore)
          (<[Demo.address_0 := "local account"]>
             (KeystoreSigner.signers _ _ Demo.keystore)))).
Proof.
  destruct (unlock_account_caches_the_signer
              Demo.is_hex_address Demo.to_checksum_address string string
              Demo.Account_decrypt Demo.Account_from_key
              Demo.LocalAccount_sign_message ∅ Demo.keystore Demo.address_0
              "correct-pw" (PyStr "correct-pw") PyNone (PyBytes [x01])
              "local account" eq_refl eq_refl eq_refl eq_refl eq_refl)
    as (v & H & _).
  exists v. exact H.
Defined.

Lemma unlock_account_of_unlocked_ignores_password_witness :
  exists verified',
    KeystoreSigner.unlock_account Demo.is_hex_address Demo.to_checksum_address
      string string Demo.Account_decrypt Demo.Account_from_key
      (PyStr Demo.address_0) (PyStr "wrong-pw") PyNone (∅, Fixtures.keystore)
    = (Return true, (verified', Fixtures.keystore)).
Proof.
  apply (unlock_account_of_unlocked_ignores_password
           Demo.is_hex_address Demo.to_checksum_address string string
           Demo.Account_decrypt Demo.Account_from_key ∅ Fixtures.keystore
           Demo.address_0 (PyStr "wrong-pw") PyNone eq_refl).
  exists "local account". reflexivity.
Defined.

Lemma unknown_account_is_reported_witness :
  exists verified',
    KeystoreSigner.unlock_account Demo.is_hex_address Demo.to_checksum_address
      string string Demo.Account_decrypt Demo.Account_from_key
      (PyStr Demo.address_2) (PyStr "pw") PyNone (∅, Fixtures.keystore)
    = (Raise (Signer.UnknownAccount_ (PyStr Demo.address_2)),
       (verified', Fixtures.keystore)).
Proof.
  destruct (unknown_account_is_reported
              Demo.is_hex_address Demo.to_checksum_address string string
              Demo.Account_decrypt Demo.Account_from_key
              Demo.LocalAccount_sign_transaction Demo.LocalAccount_sign_message
              ∅ Fixtures.keystore Demo.address_2 eq_refl eq_refl eq_refl)
    as (H & _).
  exact (H (PyStr "pw") PyNone).
Defined.

Lemma sign_transaction_payload_witness :
  exists verified',
    KeystoreSigner.sign_transaction Demo.is_hex_address Demo.to_checksum_address
      string string Demo.LocalAccount_sign_transaction Demo.creation
      (∅, Fixtures.keystore)
    = (Return (PyDict (map_to_list (delete "to" Demo.creation))),
       (verified', Fixtures.keystore)).
Proof.
  destruct (sign_transaction_payload
              Demo.is_hex_address Demo.to_checksum_address string string
              Demo.LocalAccount_sign_transaction ∅ Fixtures.keystore
              Demo.address_0 "local account" Demo.creation
              eq_refl eq_refl eq_refl) as (v & H).
  exists v. exact H.
Defined.

Lemma unlock_lock_round_trip_witness :
  exists verified1 verified2,
    KeystoreSigner.lock_account Demo.is_hex_address Demo.to_checksum_address
      string string (PyStr Demo.address_0)
      (verified1,
       KeystoreSigner.mk_state string string
         (KeystoreSigner.keys _ _ Demo.keystore)
         (<[Demo.address_0 := "local account"]>
            (KeystoreSigner.signers _ _ Demo.keystore)))
    = (Return true, (verified2, Demo.keystore)).
Proof.
  destruct (unlock_lock_round_trip
              Demo.is_hex_address Demo.to_checksum_address string string
              Demo.Account_decrypt Demo.Account_from_key ∅ Demo.keystore
              Demo.address_0 "correct-pw" (PyStr "correct-pw") PyNone
              (PyBytes [x01]) "local account"
              eq_refl eq_refl eq_refl eq_refl eq_refl)
    as (v1 & v2 & v3 & _ & H & _).
  exists v1, v2. exact H.
Defined.

Lemma del_locks_every_account_witness :
  exists verified',
    KeystoreLifecycle.del Demo.is_hex_address Demo.to_checksum_address
      string string (∅, Fixtures.keystore)
    = (Return tt,
       (verified',
        KeystoreSigner.mk_state string string
          (KeystoreSigner.keys _ _ Fixtures.keystore) ∅)).
Proof.
  apply (del_locks_every_account
           Demo.is_hex_address Demo.to_checksum_address string string
           ∅ Fixtures.keystore).
  - intros a [md Ha]. simpl in Ha.
    apply lookup_insert_Some in Ha as [[<- _] | [_ Ha]]; [reflexivity |].
    apply lookup_singleton_Some in Ha as [<- _]. reflexivity.
  - intros a [signer Ha]. simpl in Ha.
    apply lookup_singleton_Some in Ha as [<- _].
    exists "pw-a". reflexivity.
Defined.

Lemma unusable_keystore_path_is_InvalidSignerURI_witness :
  exists e',
    KeystoreLifecycle.init string string Fixtures.os_stat Fixtures.os_scandir
      Fixtures.read_keyfile Fixtures.is_address Fixtures.to_checksum_address_of
      "/nowhere"
    = (Raise e', KeystoreSigner.mk_state string string ∅ ∅)
    /\ exn_cls e' = InvalidSignerURI
    /\ Val (PyStr "/nowhere") ∈ exn_msg e'.
Proof.
  apply (unusable_keystore_path_is_InvalidSignerURI
           string string Fixtures.os_stat Fixtures.os_scandir
           Fixtures.read_keyfile Fixtures.is_address
           Fixtures.to_checksum_address_of "/nowhere").
  left. eexists. split; reflexivity.
Defined.

Lemma bad_keyfile_is_InvalidKeyfile_witness :
  exists e,
    fst (KeystoreLifecycle.init string string Fixtures.os_stat
           Fixtures.os_scandir Fixtures.read_corrupt_keyfile
           Fixtures.is_address Fixtures.to_checksum_address_of "/keys")
    = Raise e
    /\ exn_cls e = InvalidKeyfile
    /\ Val (PyStr "/keys/b.json") ∈ exn_msg e
    /\ isinstance e SignerError = true.
Proof.
  apply (bad_keyfile_is_InvalidKeyfile
           string string Fixtures.os_stat Fixtures.os_scandir
           Fixtures.read_corrupt_keyfile Fixtures.is_address
           Fixtures.to_checksum_address_of "/keys" "/keys/b.json"
           ["/keys/a.json"] []).
  - reflexivity.
  - repeat constructor.
  - left. reflexivity.
Defined.

Lemma constructed_keystore_holds_the_key_files_witness :
  exists paths,
    KeystoreLifecycle.keystore_paths Fixtures.os_stat Fixtures.os_scandir "/keys"
    = Return (Return <$> paths)
    /\ KeystoreSigner.signers string string
         (snd (KeystoreLifecycle.init string string Fixtures.os_stat
                 Fixtures.os_scandir Fixtures.read_keyfile Fixtures.is_address
                 Fixtures.to_checksum_address_of "/keys"))
       = ∅.
Proof.
  destruct (constructed_keystore_holds_the_key_files
              string string Fixtures.os_stat Fixtures.os_scandir
              Fixtures.read_keyfile Fixtures.is_address
              Fixtures.to_checksum_address_of "/keys"
              (snd (KeystoreLifecycle.init string string Fixtures.os_stat
                      Fixtures.os_scandir Fixtures.read_keyfile
                      Fixtures.is_address Fixtures.to_checksum_address_of
                      "/keys"))
              eq_refl) as (paths & H1 & H2 & _).
  exists paths. exact (conj H1 H2).
Defined.

Lemma scan_error_reaches_the_caller_witness :
  fst (KeystoreLifecycle.init string string Fixtures.os_stat
         Fixtures.os_scandir_loop Fixtures.read_keyfile Fixtures.is_address
         Fixtures.to_checksum_address_of "/keys")
  = Raise Fixtures.too_many_links.
Proof.
  apply (scan_error_reaches_the_caller
           string string Fixtures.os_stat Fixtures.os_scandir_loop
           Fixtures.read_keyfile Fixtures.is_address
           Fixtures.to_checksum_address_of "/keys"
           [KeystoreLifecycle.mk_dir_entry "/keys/a.json" (Return true);
            KeystoreLifecycle.mk_dir_entry "/keys/old" (Return false)]
           (Return (KeystoreLifecycle.mk_dir_entry "/keys/b.json" (Raise Fixtures.too_many_links)))
           [] Fixtures.too_many_links).
  - reflexivity.
  - reflexivity.
  - repeat constructor.
  - repeat constructor; discriminate.
  - right. eexists. split; reflexivity.
Defined.

Lemma sign_transaction_success_conditions_witness :
  exists sender,
    Demo.transfer !! "from" = Some sender
    /\ is_Some (Demo.transfer !! "chainId").
Proof.
  destruct (sign_transaction_success_conditions
              Demo.hd_path_for_index Demo.ethereum_sign_tx
              Demo.assert_valid_fields Demo.Web3_toBytes_HexBytes
              Demo.to_canonical_address Demo.to_int Demo.rlp_encode
              Demo.transfer true Demo.trezor
              (snd (TrezorSigner.sign_transaction Demo.hd_path_for_index
                      Demo.ethereum_sign_tx Demo.assert_valid_fields
                      Demo.Web3_toBytes_HexBytes Demo.to_canonical_address
                      Demo.to_int Demo.rlp_encode Demo.transfer true Demo.trezor))
              (TrezorSigner.Encoded
                 (PyList [PyInt 0; PyInt 1; PyInt 21000;
                          PyBytes [x10; x00; x00; x00; x00; x00; x00; x00; x00;
                                   x00; x00; x00; x00; x00; x00; x00; x00; x00;
                                   x00; x00];
                          PyInt 1; PyBytes []; PyInt 37; PyInt 1; PyInt 2]))
              eq_refl) as (sender & n & t & H1 & H2 & _).
  exists sender. exact (conj H1 H2).
Defined.

Lemma init_caches_the_device_addresses_witness :
  TrezorSigner.device_calls
    (snd (TrezorSigner.init (Return tt) Demo.hd_path_for_index
            Demo.ethereum_get_address))
  = [TrezorSigner.GetAddress (Demo.hd_path_for_index 0) false;
     TrezorSigner.GetAddress (Demo.hd_path_for_index 1) false;
     TrezorSigner.GetAddress (Demo.hd_path_for_index 2) false].
Proof.
  apply (init_caches_the_device_addresses
           (Return tt) Demo.hd_path_for_index Demo.ethereum_get_address tt
           (snd (TrezorSigner.init (Return tt) Demo.hd_path_for_index
                   Demo.ethereum_get_address)) eq_refl).
Defined.

Lemma device_receives_the_renamed_transaction_witness :
  exists hd_path t,
    TrezorSigner.device_calls
      (snd (TrezorSigner.sign_transaction Demo.hd_path_for_index
              Demo.ethereum_sign_tx Demo.assert_valid_fields
              Demo.Web3_toBytes_HexBytes Demo.to_canonical_address
              Demo.to_int Demo.rlp_encode Demo.transfer false Demo.trezor))
    = TrezorSigner.device_calls Demo.trezor ++ [TrezorSigner.SignTx hd_path t]
    /\ t !! "gas_limit" = Demo.transfer !! "gas"
    /\ t !! "to" = Demo.transfer !! "to".
Proof.
  destruct (device_receives_the_renamed_transaction
              Demo.hd_path_for_index Demo.ethereum_sign_tx
              Demo.assert_valid_fields Demo.Web3_toBytes_HexBytes
              Demo.to_canonical_address Demo.to_int Demo.rlp_encode
              Demo.transfer false Demo.trezor
              (snd (TrezorSigner.sign_transaction Demo.hd_path_for_index
                      Demo.ethereum_sign_tx Demo.assert_valid_fields
                      Demo.Web3_toBytes_HexBytes Demo.to_canonical_address
                      Demo.to_int Demo.rlp_encode Demo.transfer false Demo.trezor))
              (match fst (TrezorSigner.sign_transaction Demo.hd_path_for_index
                            Demo.ethereum_sign_tx Demo.assert_valid_fields
                            Demo.Web3_toBytes_HexBytes Demo.to_canonical_address
                            Demo.to_int Demo.rlp_encode Demo.transfer false
                            Demo.trezor) with
               | Return signed => signed
               | Raise _ => TrezorSigner.Encoded PyNone
               end)
              eq_refl) as (n & t & H1 & H2 & _ & _ & _ & H3 & _).
  exists n, t. exact (conj H1 (conj H2 H3)).
Defined.

Lemma sign_message_usage_errors_witness :
  exists verified',
    ClefSigner.sign_message Demo.is_hex_address Demo.to_checksum_address
      Demo.clef_answer Demo.Web3_toHex_bytes Demo.HexBytes Demo.NULL_ADDRESS
      Demo.ipc_path ClefSigner.ValidatorAddressFirst (PyStr Demo.address_0)
      (PyBytes [x01]) (PyStr ClefSigner.SIGN_DATA_FOR_VALIDATOR)
      (PyStr Demo.NULL_ADDRESS) [] (∅, [])
    = (Raise (mk_exn ValueError
                [Lit "When using the intended validator type, a validator address is required."]),
       (verified', [])).
Proof.
  destruct (sign_message_usage_errors
              Demo.is_hex_address Demo.to_checksum_address Demo.clef_answer
              Demo.Web3_toHex_bytes Demo.HexBytes Demo.NULL_ADDRESS
              Demo.ipc_path ClefSigner.ValidatorAddressFirst Demo.address_0
              (PyBytes [x01]) (PyStr ClefSigner.SIGN_DATA_FOR_VALIDATOR)
              (PyStr Demo.NULL_ADDRESS) [] (∅, []) eq_refl eq_refl)
    as [_ H].
  exact (H (or_intror eq_refl)).
Defined.

Lemma hardware_account_is_not_sent_to_the_client_witness :
  exists verified',
    Web3Signer.unlock_account Demo.is_hex_address Demo.to_checksum_address
      (Return Fixtures.wallets) Fixtures.client_unlock_account
      (PyStr Demo.address_1) (PyStr "node-pw") PyNone (∅, [])
    = (Return (PyBool true), (verified', [])).
Proof.
  destruct (hardware_account_is_not_sent_to_the_client
              Demo.is_hex_address Demo.to_checksum_address
              (Return Fixtures.wallets) Fixtures.client_unlock_account
              Fixtures.client_lock_account ∅ [] Demo.address_1
              Fixtures.wallets (PyStr "node-pw") PyNone eq_refl eq_refl)
    as (v & H & _).
  { apply list_elem_of_here. }
  exists v. exact H.
Defined.

Lemma software_account_is_unlocked_by_the_client_witness :
  exists verified',
    Web3Signer.unlock_account Demo.is_hex_address Demo.to_checksum_address
      (Return Fixtures.wallets) Fixtures.client_unlock_account
      (PyStr Demo.address_0) (PyStr "node-pw") PyNone (∅, [])
    = (Return (PyBool true),
       (verified',
        [Web3Signer.UnlockAccount (PyStr Demo.address_0) (PyStr "node-pw")
           PyNone])).
Proof.
  apply (software_account_is_unlocked_by_the_client
           Demo.is_hex_address Demo.to_checksum_address
           (Return Fixtures.wallets) Fixtures.client_unlock_account
           ∅ [] Demo.address_0 (PyStr "node-pw") PyNone eq_refl).
  right. exists Fixtures.wallets. split; [reflexivity |].
  intros Hin. vm_compute in Hin.
  repeat (apply elem_of_cons in Hin as [Hin | Hin]; [discriminate Hin |]).
  by apply elem_of_nil in Hin.
Defined.
